(** * Project Builder: the provisioning worker of [project_builder.py]

    A shallow embedding of [validate_package_name] and of the
    [ProjectWorker] thread (process runner, installer strategy, pipeline
    steps, clean-up and finalisation), followed by the properties of the
    provisioning pipeline that were checked against it.

    Text is modelled as [string] (a sequence of bytes, non-ASCII text being
    its UTF-8 encoding); the file system as a finite map from path to node;
    the message queue as the list of events in emission order; the threading
    event as a schedule read through a counter of reads; child processes and
    file-system faults as an oracle. *)

From stdpp Require Import gmap strings list fin_maps.
From Stdlib Require Import ZArith Ascii String Lia.

Open Scope string_scope.

#[local] Arguments String.append !_ _ : simpl nomatch.

(* ===================================================================== *)
(** ** Text helpers (Python [str] operations used by the source)          *)
(* ===================================================================== *)

(** [sub in s] *)
Fixpoint contains (sub s : string) : bool :=
  String.prefix sub s ||
  match s with
  | EmptyString => false
  | String _ s' => contains sub s'
  end.

(** [s.split(sep)[0]] for a non-empty [sep]: the text before the first
    occurrence of [sep], all of [s] when there is none. *)
Fixpoint split_first (sep s : string) : string :=
  if String.prefix sep s then EmptyString
  else match s with
       | EmptyString => EmptyString
       | String c s' => String c (split_first sep s')
       end.

(** [s.startswith((p1, p2, ...))] *)
Definition startswith_any (ps : list string) (s : string) : bool :=
  existsb (fun p => String.prefix p s) ps.

Definition in_range (lo hi c : ascii) : bool :=
  (N_of_ascii lo <=? N_of_ascii c)%N && (N_of_ascii c <=? N_of_ascii hi)%N.

(** White space removed by [str.rstrip()]; of the Unicode white space only
    the ASCII part is covered (space, TAB..CR, FS..US). *)
Definition is_space (c : ascii) : bool :=
  Ascii.eqb c " "%char || in_range "009"%char "013"%char c
  || in_range "028"%char "031"%char c.

(** [s.rstrip()] *)
Fixpoint rstrip (s : string) : string :=
  match s with
  | EmptyString => EmptyString
  | String c s' =>
      match rstrip s' with
      | EmptyString => if is_space c then EmptyString else String c EmptyString
      | t => String c t
      end
  end.

(** [s.strip()] *)
Fixpoint lstrip (s : string) : string :=
  match s with
  | EmptyString => EmptyString
  | String c s' => if is_space c then lstrip s' else s
  end.

Definition strip (s : string) : string := rstrip (lstrip s).

(** [str(n)] for a natural number. *)
Definition digit_char (n : nat) : ascii := ascii_of_nat (48 + n).

Fixpoint str_nat_aux (fuel n : nat) (acc : string) : string :=
  match fuel with
  | O => acc
  | S fuel' =>
      let acc' := String (digit_char (n mod 10)) acc in
      if Nat.eqb (n / 10) 0 then acc' else str_nat_aux fuel' (n / 10) acc'
  end.

Definition str_nat (n : nat) : string := str_nat_aux (S n) n EmptyString.

(** [" ".join(l)] style rendering of an argument vector, used only inside
    message texts. *)
Definition str_list (l : list string) : string :=
  "[" ++ String.concat ", " (map (fun a => "'" ++ a ++ "'") l) ++ "]".

(* ===================================================================== *)
(** ** Regular expressions (the fragment used by the validity pattern)    *)
(* ===================================================================== *)

Inductive regex : Type :=
| Void
| Eps
| Cls (p : ascii -> bool)
| Cat (r1 r2 : regex)
| Alt (r1 r2 : regex)
| Star (r : regex).

Fixpoint nullable (r : regex) : bool :=
  match r with
  | Void => false
  | Eps => true
  | Cls _ => false
  | Cat r1 r2 => nullable r1 && nullable r2
  | Alt r1 r2 => nullable r1 || nullable r2
  | Star _ => true
  end.

Fixpoint deriv (c : ascii) (r : regex) : regex :=
  match r with
  | Void => Void
  | Eps => Void
  | Cls p => if p c then Eps else Void
  | Cat r1 r2 =>
      if nullable r1 then Alt (Cat (deriv c r1) r2) (deriv c r2)
      else Cat (deriv c r1) r2
  | Alt r1 r2 => Alt (deriv c r1) (deriv c r2)
  | Star r1 => Cat (deriv c r1) (Star r1)
  end.

(** The whole of [s] is in the language of [r]. *)
Fixpoint fullmatch (r : regex) (s : string) : bool :=
  match s with
  | EmptyString => nullable r
  | String c s' => fullmatch (deriv c r) s'
  end.

(** [[a-zA-Z0-9]] *)
Definition alnum (c : ascii) : bool :=
  in_range "a"%char "z"%char c || in_range "A"%char "Z"%char c
  || in_range "0"%char "9"%char c.

(** [[a-zA-Z0-9._-]] *)
Definition name_char (c : ascii) : bool :=
  alnum c || Ascii.eqb c "."%char || Ascii.eqb c "_"%char
  || Ascii.eqb c "-"%char.

Definition newline : ascii := "010"%char.

(** A final [$] of a Python pattern (no MULTILINE flag): the end of the text,
    or the position before a newline that ends the text. *)
Definition Dollar : regex := Alt Eps (Cls (Ascii.eqb newline)).

(** [r'^[a-zA-Z0-9][a-zA-Z0-9._-]*[a-zA-Z0-9]$']; with [re.match] the
    leading [^] is the start of the text. *)
Definition pattern : regex :=
  Cat (Cls alnum) (Cat (Star (Cls name_char)) (Cat (Cls alnum) Dollar)).

(** [re.match(pattern, s)] is not [None]; the pattern ends in [$], so the
    match found from the start has to reach the end of [s]. *)
Definition re_match (r : regex) (s : string) : bool := fullmatch r s.

(* ===================================================================== *)
(** ** [validate_package_name]                                            *)
(* ===================================================================== *)

Definition version_separators : list string :=
  ["=="; ">="; "<="; ">"; "<"; "~="; "!="].

(** The [for sep in [...]: if sep in pkg: ...; break] loop: the first
    separator OF THE LIST that occurs in [pkg] cuts it. *)
Fixpoint base_name_from (seps : list string) (pkg : string) : string :=
  match seps with
  | [] => pkg
  | sep :: rest =>
      if contains sep pkg then split_first sep pkg
      else base_name_from rest pkg
  end.

Definition base_name (pkg : string) : string :=
  base_name_from version_separators pkg.

Definition shell_metacharacters : list string := [";"; "|"; "&"; "$"; "`"].

Definition url_prefixes : list string :=
  ["http://"; "https://"; "git+"; "svn+"].

Definition validate_package_name (pkg : string) : bool * string :=
  if String.eqb pkg EmptyString then (false, "Package name cannot be empty")
  else
    let base := base_name pkg in
    if existsb (fun ch => contains ch base) shell_metacharacters
    then (false, "Invalid characters in package: " ++ base)
    else if startswith_any url_prefixes base
    then (false, "Direct URLs not supported. Use package names only.")
    else if negb (re_match pattern base)
    then (false, "Invalid package name format: " ++ base)
    else (true, EmptyString).

(* ===================================================================== *)
(** ** Paths and the file system                                          *)
(* ===================================================================== *)

Definition nl : string := String newline EmptyString.
Definition dq : string := String "034"%char EmptyString.

(** [a / b] of [pathlib]; the separator is written [/] on every platform. *)
Definition path_join (a b : string) : string := a ++ "/" ++ b.

(** [Path(p).name]: the text after the last separator. *)
Fixpoint basename (p : string) : string :=
  match p with
  | EmptyString => EmptyString
  | String c p' =>
      if contains "/" p' then basename p'
      else if Ascii.eqb c "/"%char then p' else p
  end.

(** The text before the last separator of [p]. *)
Fixpoint before_last_sep (p : string) : string :=
  match p with
  | EmptyString => EmptyString
  | String c p' =>
      if contains "/" p' then String c (before_last_sep p') else EmptyString
  end.

(** [Path(p).parent]: the text before the last separator; the root for a
    path directly below it and the empty path (the current directory) for a
    bare name. *)
Definition dirname (p : string) : string :=
  let d := before_last_sep p in
  if String.eqb d EmptyString && String.prefix "/" p then "/" else d.

(** The proper ancestors of [p] below the root, outermost first. *)
Fixpoint ancestors_from (pre p : string) : list string :=
  match p with
  | EmptyString => []
  | String c p' =>
      if Ascii.eqb c "/"%char && negb (String.eqb pre EmptyString)
      then pre :: ancestors_from (pre ++ String c EmptyString) p'
      else ancestors_from (pre ++ String c EmptyString) p'
  end.

Definition ancestors (p : string) : list string := ancestors_from EmptyString p.

Inductive node : Type :=
| Dir
| File (content : string).

(** The node at [p]; the root and the current directory always exist. *)
Definition node_at (fs : gmap string node) (p : string) : option node :=
  if String.eqb p EmptyString || String.eqb p "/" then Some Dir else fs !! p.

Definition is_dir (fs : gmap string node) (p : string) : bool :=
  match node_at fs p with Some Dir => true | _ => false end.

(** [Path(p).exists()] *)
Definition path_exists (fs : gmap string node) (p : string) : bool :=
  match node_at fs p with Some _ => true | None => false end.

(** [p] lies strictly below the directory [d]. *)
Definition below (d p : string) : bool := String.prefix (d ++ "/") p.

(** What [shutil.rmtree(d)] leaves: [d] and everything below it is gone. *)
Definition remove_tree (d : string) (fs : gmap string node) : gmap string node :=
  filter (fun kv => negb (String.eqb (fst kv) d || below d (fst kv)) = true) fs.

(** What a [shutil.rmtree(d)] that fails half way leaves: the entries below
    [d] that it had [removed] are gone, [d] itself, removed last, is there. *)
Definition remove_part (d : string) (removed : string -> bool)
    (fs : gmap string node) : gmap string node :=
  filter (fun kv => negb (below d (fst kv) && removed (fst kv)) = true) fs.

(** Sum of the sizes of the regular files below [d] ([rglob('*')],
    [is_file()], [stat().st_size]); a file's size is the length of its
    content. *)
Definition tree_size (d : string) (fs : gmap string node) : N :=
  map_fold (fun p n acc =>
              match n with
              | File c => if below d p then (acc + N.of_nat (String.length c))%N else acc
              | Dir => acc
              end) 0%N fs.

(* ===================================================================== *)
(** ** Faults, events, actions                                            *)
(* ===================================================================== *)

(** The exception classes the worker tells apart, and [OSError] for the
    rest. *)
Inductive exn : Type :=
| PermissionError
| FileExistsError
| FileNotFoundError
| NotADirectoryError
| IsADirectoryError
| CalledProcessError
| OSError.

Definition exn_eqb (a b : exn) : bool :=
  match a, b with
  | PermissionError, PermissionError
  | FileExistsError, FileExistsError
  | FileNotFoundError, FileNotFoundError
  | NotADirectoryError, NotADirectoryError
  | IsADirectoryError, IsADirectoryError
  | CalledProcessError, CalledProcessError
  | OSError, OSError => true
  | _, _ => false
  end.

(** [str(e)] *)
Definition exn_text (e : exn) : string :=
  match e with
  | PermissionError => "[Errno 13] Permission denied"
  | FileExistsError => "[Errno 17] File exists"
  | FileNotFoundError => "[Errno 2] No such file or directory"
  | NotADirectoryError => "[Errno 20] Not a directory"
  | IsADirectoryError => "[Errno 21] Is a directory"
  | CalledProcessError => "Command returned non-zero exit status"
  | OSError => "OSError"
  end.

(** The items put on the message queue, one constructor per kind:
    ["log"], ["ok"], ["warn"], ["error"], ["info"], ["progress"] (payload
    [idx / total]), ["done"], ["summary"] and ["progress_complete"]. *)
Inductive event : Type :=
| Log (text : string)
| Ok (text : string)
| Warn (text : string)
| Error (text : string)
| Info (text : string)
| Progress (idx total : nat)
| Done (text : string)
| Summary (project_path project_size : string) (package_count : nat)
          (git_initialized : bool)
| ProgressComplete.

(** What the worker did to the outside world and which of its methods it
    entered, in order. [Run cmd rc] is one call of [run_command_stream]:
    the argument vector handed to [subprocess.Popen] and the code the call
    returned. *)
Inductive action : Type :=
| Enter (method : string)
| Run (cmd : list string) (rc : Z)
| Kill
| SubprocessRun (cmd : list string)
| Mkdir (p : string)
| Touch (p : string)
| Unlink (p : string)
| WriteFile (p : string)
| Rmtree (p : string).

(* ===================================================================== *)
(** ** Worker state, oracle and the monad of worker code                  *)
(* ===================================================================== *)

(** Everything one run reads and writes: the file system, the message
    queue ([msgq], oldest first), the actions so far, the number of times
    [stop_event.is_set()] has been read, and the worker's own mutable
    attributes. *)
Record state : Type := mk_state {
  fs : gmap string node;
  msgq : list event;
  trace : list action;
  stop_reads : nat;
  success : bool;
  venv_path : option string;
  project_size : N
}.

(** A child process as the runner sees it: the results of its successive
    [readline()] calls while it is alive (an empty text is a read that
    returned nothing although [poll()] is still [None]), the exit code
    reported once the output is exhausted, and what it has done to the file
    system when it exits or is killed. *)
Record child : Type := mk_child {
  reads : list string;
  returncode : Z;
  on_exit : gmap string node -> gmap string node;
  on_kill : gmap string node -> gmap string node
}.

(** The world outside the worker. *)
Record oracle : Type := mk_oracle {
  is_windows : bool;                     (* sys.platform.startswith("win") *)
  sys_executable : string;
  now_stamp : string;                    (* strftime('%Y-%m-%d %H:%M:%S') *)
  now_date : string;                     (* strftime('%Y-%m-%d') *)
  format_exc : exn -> string;            (* traceback.format_exc() *)
  (* the stop event reads True from this read on, never when [None] *)
  cancelled_from : option nat;
  (* creating, opening or touching this path faults *)
  fault : string -> option exn;
  (* writing this text to this path, once opened, faults after so many
     characters have reached the file *)
  write_fault : string -> string -> option (exn * nat);
  (* removing the tree at this path of this file system faults; the entries
     below it that pass the test were removed before *)
  rmtree_fault : string -> gmap string node -> option (exn * (string -> bool));
  (* unlinking this path faults *)
  unlink_fault : string -> option exn;
  (* subprocess.Popen(cmd, ...) *)
  popen : list string -> state -> exn + child;
  (* subprocess.run(cmd, check=True, capture_output=True) *)
  subprocess_run : list string -> state ->
                   exn + (gmap string node -> gmap string node)
}.

(** The attributes of a [ProjectWorker] fixed by [__init__]. *)
Record worker : Type := mk_worker {
  project_dir : string;
  packages : list string;
  options : gmap string bool
}.

(** [options.get(key, dflt)] *)
Definition options_get (w : worker) (key : string) (dflt : bool) : bool :=
  default dflt (options w !! key).

(** [self._cleanup_on_cancel] *)
Definition cleanup_on_cancel (w : worker) : bool :=
  options_get w "cleanup_on_fail" false.

(** The attributes [__init__] sets on a fresh worker, over a file system. *)
Definition init_state (fs0 : gmap string node) : state :=
  mk_state fs0 [] [] 0 false None 0%N.

Definition set_fs (f : gmap string node) (s : state) : state :=
  mk_state f (msgq s) (trace s) (stop_reads s) (success s) (venv_path s)
           (project_size s).
Definition add_event (e : event) (s : state) : state :=
  mk_state (fs s) (msgq s ++ [e]) (trace s) (stop_reads s) (success s)
           (venv_path s) (project_size s).
Definition add_action (a : action) (s : state) : state :=
  mk_state (fs s) (msgq s) (trace s ++ [a]) (stop_reads s) (success s)
           (venv_path s) (project_size s).
Definition tick_stop (s : state) : state :=
  mk_state (fs s) (msgq s) (trace s) (S (stop_reads s)) (success s)
           (venv_path s) (project_size s).
Definition set_success (b : bool) (s : state) : state :=
  mk_state (fs s) (msgq s) (trace s) (stop_reads s) b (venv_path s)
           (project_size s).
Definition set_venv_path (p : string) (s : state) : state :=
  mk_state (fs s) (msgq s) (trace s) (stop_reads s) (success s) (Some p)
           (project_size s).
Definition set_project_size (n : N) (s : state) : state :=
  mk_state (fs s) (msgq s) (trace s) (stop_reads s) (success s)
           (venv_path s) n.

(** Worker code: a state transformer that returns a value or raises. *)
Definition M (A : Type) : Type := state -> (exn + A) * state.

Definition ret {A : Type} (a : A) : M A := fun s => (inr a, s).

Definition raise {A : Type} (e : exn) : M A := fun s => (inl e, s).

Definition bind {A B : Type} (m : M A) (k : A -> M B) : M B :=
  fun s =>
    match m s with
    | (inl e, s') => (inl e, s')
    | (inr a, s') => k a s'
    end.

(** [try: m except Exception as e: ...]: the outcome of [m] as a value. *)
Definition try {A : Type} (m : M A) : M (exn + A) :=
  fun s => let (r, s') := m s in (inr r, s').

Definition get : M state := fun s => (inr s, s).

Definition modify (f : state -> state) : M unit := fun s => (inr tt, f s).

Declare Scope worker_scope.
Delimit Scope worker_scope with worker.
Notation "x <- m ;; k" := (bind m (fun x => k))
  (at level 100, m at next level, right associativity) : worker_scope.
Notation "m ;; k" := (bind m (fun _ => k))
  (at level 100, right associativity) : worker_scope.
Open Scope worker_scope.

(* ===================================================================== *)
(** ** Generated texts                                                    *)
(* ===================================================================== *)

(** Lines of text, each ended by a newline. *)
Definition unlines (ls : list string) : string :=
  String.concat EmptyString (map (fun l => l ++ nl) ls).

(** The lines of the generated [README.md]. *)
Definition readme_lines (name date : string) : list string :=
  [
   "# " ++ name;
   EmptyString;
   "## Description";
   "Project created with Project Builder on " ++ date;
   EmptyString;
   "## Project Structure";
   "```";
   name ++ "/";
   "‚îú‚îÄ‚îÄ src/           # Source code";
   "‚îú‚îÄ‚îÄ tests/         # Test files";
   "‚îú‚îÄ‚îÄ docs/          # Documentation";
   "‚îú‚îÄ‚îÄ data/          # Data files";
   "‚îú‚îÄ‚îÄ notebooks/     # Jupyter notebooks";
   "‚îú‚îÄ‚îÄ config/        # Configuration files";
   "‚îú‚îÄ‚îÄ logs/          # Log files";
   "‚îú‚îÄ‚îÄ venv/          # Virtual environment (gitignored)";
   "‚îú‚îÄ‚îÄ requirements.txt";
   "‚îî‚îÄ‚îÄ README.md";
   "```";
   EmptyString;
   "## Installation";
   "1. Create virtual environment:";
   "   ```bash";
   "   python -m venv venv";
   "   ```";
   EmptyString;
   "2. Activate virtual environment:";
   "   - Windows: `venv\Scripts\activate`";
   "   - macOS/Linux: `source venv/bin/activate`";
   EmptyString;
   "3. Install dependencies:";
   "   ```bash";
   "   pip install -r requirements.txt";
   "   ```";
   EmptyString;
   "## Usage";
   "```python";
   "# Add your code here";
   "import sys";
   "sys.path.append('src')";
   EmptyString;
   "def main():";
   "    print(" ++ dq ++ "Hello from " ++ name ++ "!" ++ dq ++ ")";
   EmptyString;
   "if __name__ == " ++ dq ++ "__main__" ++ dq ++ ":";
   "    main()";
   "```";
   EmptyString;
   "## Development";
   "- Run tests: `pytest tests/`";
   "- Format code: `black src/ tests/`";
   "- Lint code: `pylint src/`";
   EmptyString;
   "## License";
   "Add your license here"
  ].

(** The lines of the generated [.gitignore]. *)
Definition gitignore_lines : list string :=
  [
   "# Python";
   "venv/";
   "__pycache__/";
   "*.py[cod]";
   "*$py.class";
   "*.so";
   ".Python";
   "build/";
   "develop-eggs/";
   "dist/";
   "downloads/";
   "eggs/";
   ".eggs/";
   "lib/";
   "lib64/";
   "parts/";
   "sdist/";
   "var/";
   "wheels/";
   "*.egg-info/";
   ".installed.cfg";
   "*.egg";
   EmptyString;
   "# IDE";
   ".vscode/";
   ".idea/";
   "*.swp";
   "*.swo";
   "*~";
   EmptyString;
   "# OS";
   ".DS_Store";
   "Thumbs.db";
   EmptyString;
   "# Project specific";
   "data/";
   "logs/";
   "*.db";
   "*.sqlite3";
   ".env";
   ".secrets"
  ].

Section Worker.

Variable O : oracle.
Variable W : worker.

(** [self.post(kind, text)]: [msgq.put((kind, text))] *)
Definition post (e : event) : M unit := modify (add_event e).

Definition act (a : action) : M unit := modify (add_action a).

Definition enter (method : string) : M unit := act (Enter method).

(** [self.stop_event.is_set()] *)
Definition is_set : M bool :=
  fun s =>
    (inr match cancelled_from O with
         | Some k => Nat.leb k (stop_reads s)
         | None => false
         end,
     tick_stop s).

(* --------------------------------------------------------------------- *)
(** *** File-system operations                                            *)
(* --------------------------------------------------------------------- *)

(** [os.mkdir(p)] *)
Definition os_mkdir (p : string) : M unit :=
  act (Mkdir p) ;;
  s <- get ;;
  match node_at (fs s) p with
  | Some _ => raise FileExistsError
  | None =>
      match fault O p with
      | Some e => raise e
      | None =>
          match node_at (fs s) (dirname p) with
          | Some Dir => modify (set_fs (<[p := Dir]> (fs s)))
          | Some (File _) => raise NotADirectoryError
          | None => raise FileNotFoundError
          end
      end
  end.

(** [Path(p).mkdir(exist_ok=True)] *)
Definition path_mkdir (p : string) : M unit :=
  r <- try (os_mkdir p) ;;
  match r with
  | inr _ => ret tt
  | inl FileNotFoundError => raise FileNotFoundError
  | inl e => s <- get ;; if is_dir (fs s) p then ret tt else raise e
  end.

(** [Path(p).mkdir(parents=True, exist_ok=True)]; [anc] lists the proper
    ancestors of [p], innermost first. *)
Fixpoint path_mkdir_parents (anc : list string) (p : string) : M unit :=
  r <- try (os_mkdir p) ;;
  match r with
  | inr _ => ret tt
  | inl FileNotFoundError =>
      match anc with
      | [] => raise FileNotFoundError
      | q :: anc' => path_mkdir_parents anc' q ;; path_mkdir p
      end
  | inl e => s <- get ;; if is_dir (fs s) p then ret tt else raise e
  end.

(** [Path(p).touch()]: unless the host faults on the path, an existing
    node is left as it is and a missing one becomes an empty file. *)
Definition touch (p : string) : M unit :=
  act (Touch p) ;;
  s <- get ;;
  match fault O p with
  | Some e => raise e
  | None =>
      match node_at (fs s) p with
      | Some _ => ret tt
      | None =>
          match node_at (fs s) (dirname p) with
          | Some Dir => modify (set_fs (<[p := File EmptyString]> (fs s)))
          | Some (File _) => raise NotADirectoryError
          | None => raise FileNotFoundError
          end
      end
  end.

(** [Path(p).unlink()] *)
Definition unlink (p : string) : M unit :=
  act (Unlink p) ;;
  s <- get ;;
  match unlink_fault O p with
  | Some e => raise e
  | None =>
      match node_at (fs s) p with
      | Some (File _) => modify (set_fs (delete p (fs s)))
      | Some Dir => raise IsADirectoryError
      | None => raise FileNotFoundError
      end
  end.

(** [with Path(p).open("w") as f: f.write(content)]. A fault of the
    [open] leaves everything as it was; once the file is open it is created
    or truncated, and a fault of a write or of the close leaves it with the
    part of the text that had reached it. *)
Definition write_file (p content : string) : M unit :=
  act (WriteFile p) ;;
  s <- get ;;
  match fault O p with
  | Some e => raise e
  | None =>
      match node_at (fs s) p with
      | Some Dir => raise IsADirectoryError
      | _ =>
          match node_at (fs s) (dirname p) with
          | Some Dir =>
              match write_fault O p content with
              | None => modify (set_fs (<[p := File content]> (fs s)))
              | Some (e, n) =>
                  modify (set_fs (<[p := File (String.substring 0 n content)]>
                                    (fs s))) ;;
                  raise e
              end
          | Some (File _) => raise NotADirectoryError
          | None => raise FileNotFoundError
          end
      end
  end.

(** [shutil.rmtree(p)]: the tree is removed entry by entry, its root
    last; a fault on the way leaves what had not been removed yet. *)
Definition rmtree (p : string) : M unit :=
  act (Rmtree p) ;;
  s <- get ;;
  match node_at (fs s) p with
  | Some Dir =>
      match rmtree_fault O p (fs s) with
      | None => modify (set_fs (remove_tree p (fs s)))
      | Some (e, removed) =>
          modify (set_fs (remove_part p removed (fs s))) ;;
          raise e
      end
  | Some (File _) => raise NotADirectoryError
  | None => raise FileNotFoundError
  end.

(** [subprocess.run(cmd, check=True, capture_output=True)] *)
Definition sub_run (cmd : list string) : M unit :=
  act (SubprocessRun cmd) ;;
  s <- get ;;
  match subprocess_run O cmd s with
  | inl e => raise e
  | inr f => modify (set_fs (f (fs s)))
  end.

(* --------------------------------------------------------------------- *)
(** *** [which_pip_in_venv], [which_python_in_venv]                       *)
(* --------------------------------------------------------------------- *)

Definition which_pip_in_venv (venv : string) : string :=
  if is_windows O then path_join (path_join venv "Scripts") "pip.exe"
  else path_join (path_join venv "bin") "pip".

Definition which_python_in_venv (venv : string) : string :=
  if is_windows O then path_join (path_join venv "Scripts") "python.exe"
  else path_join (path_join venv "bin") "python3".

(* --------------------------------------------------------------------- *)
(** *** [calculate_project_size], [format_size]                           *)
(* --------------------------------------------------------------------- *)

Definition calculate_project_size : M N :=
  enter "calculate_project_size" ;;
  s <- get ;;
  ret (tree_size (project_dir W) (fs s)).

(** [f"{x:.1f}"] for [x = num / den]: one decimal, ties to even. *)
Definition fmt1 (num den : N) : string :=
  let q := (10 * num / den)%N in
  let r := (10 * num mod den)%N in
  let t := if (2 * r <? den)%N then q
           else if (den <? 2 * r)%N then (q + 1)%N
           else if N.even q then q else (q + 1)%N in
  str_nat (N.to_nat (t / 10)) ++ "." ++ str_nat (N.to_nat (t mod 10)).

(** The loop of [format_size] over the remaining units; the running value
    is [num / den]. Exact for sizes below [2^53] bytes, where the floats of
    the source are. *)
Fixpoint format_size_from (units : list string) (num den : N) : string :=
  match units with
  | [] => fmt1 num den ++ " TB"
  | u :: rest =>
      if (num <? 1024 * den)%N then fmt1 num den ++ " " ++ u
      else format_size_from rest num (den * 1024)%N
  end.

Definition format_size (size_bytes : N) : string :=
  format_size_from ["B"; "KB"; "MB"; "GB"] size_bytes 1%N.

(* --------------------------------------------------------------------- *)
(** *** [run_command_stream]                                              *)
(* --------------------------------------------------------------------- *)

(** The [while True] loop over the reads the child still has to deliver. *)
Fixpoint stream (ch : child) (rs : list string) : M Z :=
  stop <- is_set ;;
  if stop then
    act Kill ;;
    modify (fun s => set_fs (on_kill ch (fs s)) s) ;;
    post (Warn "Operation cancelled by user.") ;;
    ret 1%Z
  else
    match rs with
    | [] =>
        modify (fun s => set_fs (on_exit ch (fs s)) s) ;;
        ret (returncode ch)
    | line :: rest =>
        (if String.eqb line EmptyString then ret tt
         else post (Log (rstrip line))) ;;
        stream ch rest
    end.

Definition run_command_stream (cmd : list string) : M Z :=
  s <- get ;;
  rc <- match popen O cmd s with
        | inl e =>
            post (Error ("Failed to run command: " ++ str_list cmd ++ nl
                         ++ "Error: " ++ exn_text e)) ;;
            ret 1%Z
        | inr ch => stream ch (reads ch)
        end ;;
  act (Run cmd rc) ;;
  ret rc.

(* --------------------------------------------------------------------- *)
(** *** [create_directory_structure]                                      *)
(* --------------------------------------------------------------------- *)

Definition directories : list string :=
  ["src"; "tests"; "docs"; "data"; "notebooks"; "config"; "logs"].

Definition init_directories : list string := ["src"; "tests"].

Fixpoint create_directories (ds : list string) : M unit :=
  match ds with
  | [] => ret tt
  | directory :: rest =>
      let dir_path := path_join (project_dir W) directory in
      path_mkdir dir_path ;;
      post (Log ("Created directory: " ++ directory ++ "/")) ;;
      (if existsb (String.eqb directory) init_directories
       then touch (path_join dir_path "__init__.py")
       else ret tt) ;;
      create_directories rest
  end.

Definition create_directory_structure : M unit :=
  enter "create_directory_structure" ;;
  create_directories directories.

(* --------------------------------------------------------------------- *)
(** *** [create_venv]                                                     *)
(* --------------------------------------------------------------------- *)

Definition create_venv (venv : string) : M bool :=
  enter "create_venv" ;;
  let test_file := path_join (dirname venv) ".write_test" in
  r <- try (touch test_file ;; unlink test_file) ;;
  match r with
  | inl PermissionError =>
      post (Error ("No write permission for: " ++ dirname venv)) ;;
      ret false
  | inl e => raise e
  | inr _ =>
      post (Log ("Creating virtual environment at: " ++ venv ++ " ...")) ;;
      rc <- run_command_stream
              [sys_executable O; "-m"; "venv"; venv;
               "--prompt"; basename (project_dir W)] ;;
      if Z.eqb rc 0 then
        post (Ok "Virtual environment created successfully.") ;; ret true
      else
        post (Error "Virtual environment creation failed.") ;; ret false
  end.

(* --------------------------------------------------------------------- *)
(** *** [install_packages_individual], [install_packages_batch]           *)
(* --------------------------------------------------------------------- *)

(** The [for idx, pkg in enumerate(packages, start=1)] loop; [None] is the
    [return False] taken when the stop event is set. *)
Fixpoint install_each (pip_executable : string) (total idx : nat)
    (pkgs : list string) (success_count : nat) : M (option nat) :=
  match pkgs with
  | [] => ret (Some success_count)
  | pkg :: rest =>
      stop <- is_set ;;
      if stop then ret None
      else
        post (Log ("Installing [" ++ str_nat idx ++ "/" ++ str_nat total
                   ++ "]: " ++ pkg ++ " ...")) ;;
        rc <- run_command_stream [pip_executable; "install"; pkg] ;;
        (if Z.eqb rc 0 then ret tt
         else post (Error ("Failed to install: " ++ pkg))) ;;
        post (Progress idx total) ;;
        install_each pip_executable total (S idx) rest
          (if Z.eqb rc 0 then S success_count else success_count)
  end.

Definition install_packages_individual (pip_executable : string)
    (pkgs : list string) : M bool :=
  enter "install_packages_individual" ;;
  let total := List.length pkgs in
  r <- install_each pip_executable total 1 pkgs 0 ;;
  match r with
  | None => ret false
  | Some success_count =>
      if Nat.eqb success_count total then
        post (Ok "All packages installed successfully.") ;; ret true
      else if Nat.ltb 0 success_count then
        post (Warn ("Installed " ++ str_nat success_count ++ "/"
                    ++ str_nat total ++ " packages.")) ;;
        ret true
      else
        post (Error "No packages were installed.") ;; ret false
  end.

(** The loop that fills [valid_packages]. *)
Fixpoint validate_all (pkgs : list string) : M (list string) :=
  match pkgs with
  | [] => ret []
  | pkg :: rest =>
      let (is_valid, msg) := validate_package_name pkg in
      (if is_valid then ret tt
       else post (Warn ("Skipping invalid package: " ++ pkg
                        ++ " (" ++ msg ++ ")"))) ;;
      valid <- validate_all rest ;;
      ret (if is_valid then pkg :: valid else valid)
  end.

Definition install_packages_batch (pip_executable : string) : M bool :=
  enter "install_packages_batch" ;;
  match packages W with
  | [] => ret true
  | _ =>
      post (Log ("Installing " ++ str_nat (List.length (packages W))
                 ++ " package(s) in batch...")) ;;
      valid_packages <- validate_all (packages W) ;;
      match valid_packages with
      | [] => post (Log "No valid packages to install.") ;; ret true
      | _ =>
          rc <- run_command_stream
                  ([pip_executable; "install"] ++ valid_packages)%list ;;
          if Z.eqb rc 0 then
            post (Ok "Batch installation successful.") ;; ret true
          else
            post (Warn "Batch installation failed, trying individual packages...") ;;
            install_packages_individual pip_executable valid_packages
      end
  end.

(* --------------------------------------------------------------------- *)
(** *** [write_requirements], [create_readme], [create_git_repo]          *)
(* --------------------------------------------------------------------- *)

Definition requirements_text : string :=
  "# Generated by Project Builder" ++ nl
  ++ "# Date: " ++ now_stamp O ++ nl ++ nl
  ++ String.concat EmptyString (map (fun pkg => strip pkg ++ nl) (packages W)).

Definition write_requirements : M bool :=
  enter "write_requirements" ;;
  let req_path := path_join (project_dir W) "requirements.txt" in
  r <- try (write_file req_path requirements_text) ;;
  match r with
  | inr _ =>
      post (Ok ("requirements.txt saved (" ++ req_path ++ ")")) ;; ret true
  | inl e =>
      post (Error ("Failed to write requirements.txt: " ++ exn_text e)) ;;
      ret false
  end.

Definition create_readme : M bool :=
  enter "create_readme" ;;
  let readme_path := path_join (project_dir W) "README.md" in
  r <- try (write_file readme_path
              (unlines (readme_lines (basename (project_dir W)) (now_date O)))) ;;
  match r with
  | inr _ => post (Ok "README.md created.") ;; ret true
  | inl e =>
      post (Error ("Failed to create README.md: " ++ exn_text e)) ;; ret false
  end.

Definition create_git_repo : M bool :=
  enter "create_git_repo" ;;
  r <- try (sub_run ["git"; "--version"]) ;;
  match r with
  | inl CalledProcessError | inl FileNotFoundError =>
      post (Warn "Git not found or not in PATH. Skipping git initialization.") ;;
      ret false
  | inl e => raise e
  | inr _ =>
      post (Log "Initializing git repository...") ;;
      r2 <- try (sub_run ["git"; "init"] ;;
                 write_file (path_join (project_dir W) ".gitignore")
                            (unlines gitignore_lines) ;;
                 sub_run ["git"; "add"; "."] ;;
                 sub_run ["git"; "commit"; "-m";
                          "Initial commit: Project created with Project Builder"]) ;;
      match r2 with
      | inr _ =>
          post (Ok "Git repository initialized with initial commit.") ;;
          ret true
      | inl CalledProcessError =>
          post (Error ("Git operation failed: " ++ exn_text CalledProcessError)) ;;
          ret false
      | inl e =>
          post (Error ("Failed to initialize git: " ++ exn_text e)) ;;
          ret false
      end
  end.

(* --------------------------------------------------------------------- *)
(** *** [_cleanup_partial]                                                *)
(* --------------------------------------------------------------------- *)

Definition _cleanup_partial : M unit :=
  enter "_cleanup_partial" ;;
  s <- get ;;
  match venv_path s with
  | Some venv =>
      if cleanup_on_cancel W && path_exists (fs s) venv then
        r <- try (rmtree venv) ;;
        match r with
        | inr _ => post (Log "Cleaned up partial virtual environment.")
        | inl e => post (Warn ("Failed to cleanup: " ++ exn_text e))
        end
      else ret tt
  | None => ret tt
  end.

(* --------------------------------------------------------------------- *)
(** *** [run]                                                             *)
(* --------------------------------------------------------------------- *)

Definition ok_mark : string := "‚úÖ".
Definition fail_mark : string := "‚ùå".

(** Steps 5 to 9, reached when nothing before them made [run] return. *)
Definition finish_steps : M unit :=
  write_requirements ;;
  (if options_get W "create_readme" true then create_readme ;; ret tt
   else ret tt) ;;
  (if options_get W "create_git" false then create_git_repo ;; ret tt
   else ret tt) ;;
  size <- calculate_project_size ;;
  modify (set_project_size size) ;;
  let size_str := format_size size in
  post (Info ("Project size: " ++ size_str)) ;;
  modify (set_success true) ;;
  post (Done (ok_mark ++ " Project '" ++ basename (project_dir W)
              ++ "' created successfully!")) ;;
  post (Summary (project_dir W) size_str (List.length (packages W))
                (options_get W "create_git" false)).

(** Step 4 once the installer is located; the result says whether [run]
    goes on ([false] stands for the [return] after the clean-up). *)
Definition install_step (pip_exec : string) (use_python_for_pip : bool)
    : M bool :=
  match packages W with
  | [] => post (Log "No packages to install.") ;; ret true
  | _ =>
      if use_python_for_pip then
        rc <- run_command_stream
                ([pip_exec; "-m"; "pip"] ++ ["install"] ++ packages W)%list ;;
        if Z.eqb rc 0 then ret true
        else
          post (Error "Package installation failed.") ;;
          _cleanup_partial ;;
          ret false
      else
        ok <- install_packages_batch pip_exec ;;
        if ok then ret true else _cleanup_partial ;; ret false
  end.

(** Locating the installer, then steps 4 to 9. *)
Definition install_and_finish (venv : string) : M unit :=
  s <- get ;;
  let pip_exec := which_pip_in_venv venv in
  if path_exists (fs s) pip_exec then
    go <- install_step pip_exec false ;;
    if go then finish_steps else ret tt
  else
    let python_exec := which_python_in_venv venv in
    if path_exists (fs s) python_exec then
      post (Log "Using python -m pip (pip binary not found).") ;;
      go <- install_step python_exec true ;;
      if go then finish_steps else ret tt
    else
      post (Error "Cannot locate pip in venv. Aborting.") ;;
      _cleanup_partial.

(** The body of the outer [try] of [run]. *)
Definition run_try : M unit :=
  r <- try (path_mkdir_parents (rev (ancestors (project_dir W)))
                               (project_dir W)) ;;
  match r with
  | inl e => post (Error ("Cannot create project folder: " ++ exn_text e))
  | inr _ =>
      post (Ok ("Project folder: " ++ project_dir W)) ;;
      create_directory_structure ;;
      let venv := path_join (project_dir W) "venv" in
      modify (set_venv_path venv) ;;
      s <- get ;;
      if path_exists (fs s) venv then
        post (Warn "venv already exists ‚Äî reusing.") ;;
        install_and_finish venv
      else
        created <- create_venv venv ;;
        if created then install_and_finish venv else _cleanup_partial
  end.

(** [ProjectWorker.run]: the [try], its catch-all and its [finally]. *)
Definition run : M unit :=
  r <- try run_try ;;
  match r with
  | inr _ => ret tt
  | inl e =>
      post (Error ("Unexpected error: " ++ exn_text e)) ;;
      post (Error (format_exc O e))
  end ;;
  s <- get ;;
  (if success s then ret tt
   else post (Done (fail_mark ++ " Project creation failed."))) ;;
  post ProgressComplete.

End Worker.

(** The final state of one run of a fresh worker over a file system. *)
Definition run_worker (O : oracle) (W : worker) (fs0 : gmap string node)
    : state :=
  snd (run O W (init_state fs0)).

(** How the observer reads the flag of a ["done"] item
    ([_periodic_check]): the success mark occurs in its text. *)
Definition done_succeeded (text : string) : bool := contains ok_mark text.

(* ===================================================================== *)
(** ** Vocabulary of the properties                                       *)
(* ===================================================================== *)

(** Events other than the three that close a run. *)
Definition plain (e : event) : bool :=
  match e with
  | Done _ | Summary _ _ _ _ | ProgressComplete => false
  | _ => true
  end.

Definition is_warn (e : event) : bool :=
  match e with Warn _ => true | _ => false end.


(** An action allowed to a piece of worker code that must not enter the
    methods of [forb] and, when [quiet] holds, must not stream a child. *)
Definition act_ok (forb : list string) (quiet : bool) (a : action) : bool :=
  match a with
  | Enter m => negb (existsb (String.eqb m) forb)
  | Run _ _ | Kill => negb quiet
  | _ => true
  end.

(** [s'] comes from [s] by such code: [success] and [venv_path] are
    untouched, the queue grew by plain events, the trace by allowed actions,
    and the stop event was read only if streaming is allowed. *)
Definition within (forb : list string) (quiet : bool) (s s' : state) : Prop :=
  success s' = success s /\
  venv_path s' = venv_path s /\
  (exists evs, msgq s' = (msgq s ++ evs)%list /\ forallb plain evs = true) /\
  (exists acts, trace s' = (trace s ++ acts)%list
                /\ forallb (act_ok forb quiet) acts = true) /\
  (if quiet then stop_reads s' = stop_reads s
   else stop_reads s <= stop_reads s').

Definition keeps (forb : list string) (quiet : bool) {A : Type} (m : M A)
    : Prop :=
  forall s, within forb quiet s (snd (m s)).

(** The codes returned by the streamed commands of a trace, in order. *)
Definition run_codes (acts : list action) : list Z :=
  flat_map (fun a => match a with Run _ rc => [rc] | _ => [] end) acts.

(** The argument vectors handed to [subprocess.Popen], in order. *)
Definition run_cmds (acts : list action) : list (list string) :=
  flat_map (fun a => match a with Run cmd _ => [cmd] | _ => [] end) acts.

(** The arguments of an installer command that follow [install]. *)
Fixpoint install_args (cmd : list string) : list string :=
  match cmd with
  | [] => []
  | a :: rest => if String.eqb a "install" then rest else install_args rest
  end.

(** The number of packages named by the installer commands that returned
    zero: the packages actually installed during the run. *)
Definition installed_package_count (acts : list action) : nat :=
  list_sum (map (fun a => match a with
                          | Run cmd 0%Z => List.length (install_args cmd)
                          | _ => 0
                          end) acts).

Definition summary_counts (evs : list event) : list nat :=
  flat_map (fun e => match e with Summary _ _ n _ => [n] | _ => [] end) evs.

Definition skip_notices (evs : list event) : list string :=
  flat_map (fun e => match e with
                     | Warn t => if String.prefix "Skipping invalid package: " t
                                 then [t] else []
                     | _ => []
                     end) evs.

Definition ok_text (W : worker) : string :=
  ok_mark ++ " Project '" ++ basename (project_dir W)
  ++ "' created successfully!".

Definition fail_text : string := fail_mark ++ " Project creation failed.".

(** The ["log"] items the runner posts for a sequence of reads: one for
    each read that returned some text, its trailing white space removed. *)
Definition logs_of (rs : list string) : list event :=
  flat_map (fun line => if String.eqb line EmptyString then []
                        else [Log (rstrip line)]) rs.

Definition cancelled_text : string := "Operation cancelled by user.".

(** What [is_set] answers in a state. *)
Definition stop_seen (O : oracle) (s : state) : bool :=
  match cancelled_from O with
  | Some k => Nat.leb k (stop_reads s)
  | None => false
  end.

Definition is_init_directory (d : string) : bool :=
  existsb (String.eqb d) init_directories.

(** The path of the package marker of a layout directory. *)
Definition init_path (W : worker) (d : string) : string :=
  path_join (path_join (project_dir W) d) "__init__.py".

(** The host lets the package markers be touched. *)
Definition markers_touchable (O : oracle) (W : worker) : Prop :=
  forall d, is_init_directory d = true -> fault O (init_path W d) = None.

(** The nodes the layout step may add: the seven directories and the two
    empty package markers. *)
Definition layout_nodes (W : worker) : list (string * option node) :=
  (map (fun d => (path_join (project_dir W) d, Some Dir)) directories
   ++ map (fun d => (init_path W d, Some (File EmptyString)))
          init_directories)%list.

(** [f'] is [f] with, at most, some nodes of [allowed] added where [f] had
    nothing. *)
Definition grown_by (allowed : list (string * option node))
    (f f' : gmap string node) : Prop :=
  forall q, f' !! q = f !! q \/ (f !! q = None /\ In (q, f' !! q) allowed).

(** The state in which [run] enters the layout step once the project
    folder is there. *)
Definition after_folder (W : worker) (s1 : state) : state :=
  add_event (Ok ("Project folder: " ++ project_dir W)) s1.

(** The methods that [forb] leaves free to enter. *)
Definition may_enter (forb : list string) (method : string) : Prop :=
  negb (existsb (String.eqb method) forb) = true.

(* ===================================================================== *)
(** ** Concrete worlds                                                    *)
(* ===================================================================== *)

Definition demo_dir : string := "/tmp/demo/Demo".
Definition demo_venv : string := path_join demo_dir "venv".
Definition demo_pip : string := path_join (path_join demo_venv "bin") "pip".
Definition demo_python : string :=
  path_join (path_join demo_venv "bin") "python3".

(** An existing project folder, nothing in it. *)
Definition fs_folder : gmap string node :=
  list_to_map [("/tmp", Dir); ("/tmp/demo", Dir); (demo_dir, Dir)].

(** An existing project folder with an environment that has its [pip]. *)
Definition fs_with_venv : gmap string node :=
  list_to_map [("/tmp", Dir); ("/tmp/demo", Dir); (demo_dir, Dir);
               (demo_venv, Dir); (path_join demo_venv "bin", Dir);
               (demo_pip, File "#!pip")].

(** The same, the environment having only its interpreter. *)
Definition fs_with_python : gmap string node :=
  list_to_map [("/tmp", Dir); ("/tmp/demo", Dir); (demo_dir, Dir);
               (demo_venv, Dir); (path_join demo_venv "bin", Dir);
               (demo_python, File "#!python")].

(** An existing project folder in which [docs] is a regular file. *)
Definition fs_docs_file : gmap string node :=
  list_to_map [("/tmp", Dir); ("/tmp/demo", Dir); (demo_dir, Dir);
               (path_join demo_dir "docs", File "notes")].

(** A child that prints two lines and exits with [rc], the file system
    untouched. *)
Definition plain_child (rc : Z) : child :=
  mk_child ["Collecting" ++ nl; "done" ++ nl] rc (fun f => f) (fun f => f).

(** The child of [python -m venv venv]: it builds the environment. *)
Definition venv_child (venv : string) : child :=
  mk_child ["creating" ++ nl] 0%Z
    (fun f => <[path_join (path_join venv "bin") "pip" := File "#!pip"]>
                (<[path_join venv "bin" := Dir]> (<[venv := Dir]> f)))
    (fun f => <[venv := Dir]> f).

(** A Linux host without faults: the environment builder works and an
    installer command exits with the code [pip_rc] gives to its packages. *)
Definition host (cancel : option nat) (pip_rc : list string -> Z) : oracle :=
  mk_oracle false "/usr/bin/python3" "2024-01-01 00:00:00" "2024-01-01"
    (fun e => "Traceback (most recent call last): " ++ exn_text e)
    cancel (fun _ => None) (fun _ _ => None) (fun _ _ => None) (fun _ => None)
    (fun cmd _ =>
       match cmd with
       | [_; "-m"; "venv"; v; _; _] => inr (venv_child v)
       | _ => inr (plain_child (pip_rc (install_args cmd)))
       end)
    (fun _ _ => inr (fun f => f)).

(** The same host on which nothing below the root can be created. *)
Definition readonly_host : oracle :=
  mk_oracle false "/usr/bin/python3" "2024-01-01 00:00:00" "2024-01-01"
    (fun e => "Traceback (most recent call last): " ++ exn_text e)
    None (fun _ => Some PermissionError) (fun _ _ => None) (fun _ _ => None) (fun _ => None)
    (fun _ _ => inr (plain_child 0))
    (fun _ _ => inr (fun f => f)).

Definition opts (readme git cleanup : bool) : gmap string bool :=
  list_to_map [("create_readme", readme); ("create_git", git);
               ("cleanup_on_fail", cleanup)].

Definition always (rc : Z) : list string -> Z := fun _ => rc.

(** Only a command that installs [aa] alone succeeds. *)
Definition only_aa : list string -> Z :=
  fun pkgs => match pkgs with ["aa"] => 0%Z | _ => 1%Z end.

(** A request for the demo project with the given packages and options
    (documentation, version control, clean-up). *)
Definition demo (pkgs : list string) (readme git cleanup : bool) : worker :=
  mk_worker demo_dir pkgs (opts readme git cleanup).

(** The folder step of [run], alone. *)
Definition folder_step (O : oracle) (W : worker) : M unit :=
  path_mkdir_parents O (rev (ancestors (project_dir W))) (project_dir W).

(* ===================================================================== *)
(** ** Vocabulary of the installer properties                             *)
(* ===================================================================== *)

(** The verdict of the name-safety predicate. *)
Definition is_valid (pkg : string) : bool := fst (validate_package_name pkg).

(** The notice posted for an invalid package. *)
Definition skip_notice (pkg : string) : event :=
  Warn ("Skipping invalid package: " ++ pkg ++ " ("
        ++ snd (validate_package_name pkg) ++ ")").

Definition is_skip_notice (e : event) : bool :=
  match e with
  | Warn t => String.prefix "Skipping invalid package: " t
  | _ => false
  end.

Definition is_progress (e : event) : bool :=
  match e with Progress _ _ => true | _ => false end.

(** Neither a skip notice nor a progress item. *)
Definition incidental (e : event) : bool :=
  negb (is_skip_notice e) && negb (is_progress e).

(** The command of one attempt of the per-package fallback. *)
Definition install_cmd (pip_executable pkg : string) : list string :=
  [pip_executable; "install"; pkg].

Definition count_zero (rcs : list Z) : nat :=
  List.length (List.filter (fun rc => Z.eqb rc 0) rcs).

(** The texts of the three verdicts of the fallback. *)
Definition fallback_verdict (installed total : nat) : event :=
  if Nat.eqb installed total then Ok "All packages installed successfully."
  else if Nat.ltb 0 installed then
    Warn ("Installed " ++ str_nat installed ++ "/" ++ str_nat total
          ++ " packages.")
  else Error "No packages were installed.".

(** A host on which no executable can be launched. *)
Definition no_launch_host : oracle :=
  mk_oracle false "/usr/bin/python3" "2024-01-01 00:00:00" "2024-01-01"
    (fun e => "Traceback (most recent call last): " ++ exn_text e)
    None (fun _ => None) (fun _ _ => None) (fun _ _ => None) (fun _ => None)
    (fun _ _ => inl FileNotFoundError)
    (fun _ _ => inl FileNotFoundError).

(* ===================================================================== *)
(** ** Vocabulary of the run properties                                   *)
(* ===================================================================== *)

(** Steps 5 to 8 of [run]: the manifest, the optional documentation and
    version control, the size; the result is the size text. *)
Definition finish_prefix (O : oracle) (W : worker) : M string :=
  write_requirements O W ;;
  (if options_get W "create_readme" true then create_readme O W ;; ret tt
   else ret tt) ;;
  (if options_get W "create_git" false then create_git_repo O W ;; ret tt
   else ret tt) ;;
  size <- calculate_project_size W ;;
  modify (set_project_size size) ;;
  post (Info ("Project size: " ++ format_size size)) ;;
  ret (format_size size).

(** Step 9 of [run]: the success flag, the ["done"] item and the summary. *)
Definition closing (W : worker) (size_str : string) (s : state) : state :=
  add_event (Summary (project_dir W) size_str (List.length (packages W))
                     (options_get W "create_git" false))
    (add_event (Done (ok_text W)) (set_success true s)).

(** [within] without the clause on [venv_path], which [run] sets once. *)
Definition progressed (forb : list string) (quiet : bool) (s s' : state)
    : Prop :=
  success s' = success s /\
  (exists evs, msgq s' = (msgq s ++ evs)%list /\ forallb plain evs = true) /\
  (exists acts, trace s' = (trace s ++ acts)%list
                /\ forallb (act_ok forb quiet) acts = true) /\
  (if quiet then stop_reads s' = stop_reads s
   else stop_reads s <= stop_reads s').

(** The environment directory of the project. *)
Definition venv_of (W : worker) : string := path_join (project_dir W) "venv".

(** How a computation of the body of [run] may end from [s]: at a state
    reached by plain events and allowed actions, or at such a state followed
    by the closing step. *)
Definition ends (W : worker) (forb : list string) (s : state)
    (r : exn + unit) (s' : state) : Prop :=
  exists sm,
    progressed forb false s sm
    /\ (s' = sm \/ (r = inr tt /\ exists size_str, s' = closing W size_str sm)).

(** [s'] is the end of a body of [run] that went through the closing step:
    it closes a state reached from [s] by plain events and allowed actions,
    the manifest and the size steps among them. *)
Definition completed (W : worker) (forb : list string) (s s' : state)
    : Prop :=
  exists sm size_str,
    s' = closing W size_str sm
    /\ progressed forb false s sm
    /\ In (Enter "write_requirements") (trace sm)
    /\ In (Enter "calculate_project_size") (trace sm).

(** Steps 5 to 7 of [run]. *)
Definition finish_writes (O : oracle) (W : worker) : M unit :=
  write_requirements O W ;;
  (if options_get W "create_readme" true then create_readme O W ;; ret tt
   else ret tt) ;;
  (if options_get W "create_git" false then create_git_repo O W ;; ret tt
   else ret tt) ;;
  ret tt.

Definition is_mkdir (a : action) : bool :=
  match a with Mkdir _ => true | _ => false end.

(** [s'] comes from [s] by attempts to create directories only: nothing is
    posted, no flag is read, the file system only gains directories'
    entries. *)
Definition only_mkdirs (s s' : state) : Prop :=
  msgq s' = msgq s /\ stop_reads s' = stop_reads s /\ fs s ⊆ fs s'
  /\ exists acts, trace s' = (trace s ++ acts)%list
                  /\ forallb is_mkdir acts = true.

Definition reuse_notice : event := Warn "venv already exists ‚Äî reusing.".

(* ===================================================================== *)
(** ** Vocabulary of the footprint of a run                               *)
(* ===================================================================== *)

(** The file [create_venv] touches and unlinks to probe for write access. *)
Definition probe_of (W : worker) : string :=
  path_join (dirname (venv_of W)) ".write_test".

(** The files of the project folder that the worker writes itself. *)
Definition written_names : list string :=
  ["requirements.txt"; "README.md"; ".gitignore"].

(** The file-system actions the worker's own code may take for the request
    [W]; what its child processes do is theirs. *)
Definition footprint (W : worker) (a : action) : bool :=
  match a with
  | Mkdir p =>
      existsb (String.eqb p) (project_dir W :: ancestors (project_dir W))
      || existsb (fun d => String.eqb p (path_join (project_dir W) d))
                 directories
  | Touch p =>
      String.eqb p (probe_of W)
      || existsb (fun d => String.eqb p (init_path W d)) init_directories
  | WriteFile p =>
      existsb (fun n => String.eqb p (path_join (project_dir W) n))
              written_names
  | Unlink p => String.eqb p (probe_of W)
  | Rmtree p => cleanup_on_cancel W && String.eqb p (venv_of W)
  | _ => true
  end.

(** The [venv_path] attribute is unset or names the project's [venv]. *)
Definition venv_ok (W : worker) (s : state) : Prop :=
  venv_path s = None \/ venv_path s = Some (venv_of W).

(** [s'] comes from [s] by actions of the footprint. *)
Definition tidy (W : worker) (s s' : state) : Prop :=
  venv_ok W s ->
  venv_ok W s'
  /\ exists acts, trace s' = (trace s ++ acts)%list
                  /\ forallb (footprint W) acts = true.

Definition tidily (W : worker) {A : Type} (m : M A) : Prop :=
  forall s, tidy W s (snd (m s)).

(** [p] is the directory [d] or lies below it. *)
Definition in_tree (d p : string) : bool := String.eqb p d || below d p.

(** The file system has the project folder and its whole layout. *)
Definition has_layout (W : worker) (f : gmap string node) : Prop :=
  is_dir f (project_dir W) = true
  /\ forall d, In d directories ->
       node_at f (path_join (project_dir W) d) = Some Dir
       /\ (is_init_directory d = true -> is_Some (node_at f (init_path W d))).

(** A complete demo project whose [venv] directory is no environment: it
    holds a file of the user. *)
Definition fs_project_with_notes : gmap string node :=
  list_to_map
    [("/tmp", Dir); ("/tmp/demo", Dir); (demo_dir, Dir);
     (path_join demo_dir "src", Dir); (path_join demo_dir "tests", Dir);
     (path_join demo_dir "docs", Dir); (path_join demo_dir "data", Dir);
     (path_join demo_dir "notebooks", Dir);
     (path_join demo_dir "config", Dir); (path_join demo_dir "logs", Dir);
     (path_join (path_join demo_dir "src") "__init__.py", File EmptyString);
     (path_join (path_join demo_dir "tests") "__init__.py", File EmptyString);
     (demo_venv, Dir); (path_join demo_venv "notes.txt", File "keep me")].

(** The log line of one turn of the layout loop. *)
Definition created_log (d : string) : event :=
  Log ("Created directory: " ++ d ++ "/").

(* ===================================================================== *)
(** ** Vocabulary of the validation properties                            *)
(* ===================================================================== *)

(** The language of a regular expression: what [re] would match in full. *)
Inductive matches : regex -> string -> Prop :=
| matches_eps : matches Eps EmptyString
| matches_cls p c : p c = true -> matches (Cls p) (String c EmptyString)
| matches_cat r1 r2 s1 s2 :
    matches r1 s1 -> matches r2 s2 -> matches (Cat r1 r2) (s1 ++ s2)
| matches_alt_l r1 r2 s : matches r1 s -> matches (Alt r1 r2) s
| matches_alt_r r1 r2 s : matches r2 s -> matches (Alt r1 r2) s
| matches_star_nil r : matches (Star r) EmptyString
| matches_star_app r s1 s2 :
    matches r s1 -> matches (Star r) s2 -> matches (Star r) (s1 ++ s2).

(** Every character of [s] satisfies [p]. *)
Fixpoint all_chars (p : ascii -> bool) (s : string) : bool :=
  match s with
  | EmptyString => true
  | String c s' => p c && all_chars p s'
  end.

(** The texts the validity pattern accepts, spelled out: an alphanumeric
    character, then characters of names, then an alphanumeric character,
    and a line end at most. *)
Definition well_formed_name (s : string) : Prop :=
  exists c1 middle c2 tail,
    s = String c1 (middle ++ String c2 tail)
    /\ alnum c1 = true /\ all_chars name_char middle = true
    /\ alnum c2 = true /\ (tail = EmptyString \/ tail = nl).

(** The characters that can occur in a text the pattern accepts. *)
Definition name_or_newline (c : ascii) : bool :=
  name_char c || Ascii.eqb newline c.

Definition not_equals_sign (c : ascii) : bool := negb (Ascii.eqb c "="%char).

(** A complete demo project whose environment has its interpreter but no
    [pip] script. *)
Definition fs_project_with_python : gmap string node :=
  list_to_map
    [("/tmp", Dir); ("/tmp/demo", Dir); (demo_dir, Dir);
     (path_join demo_dir "src", Dir); (path_join demo_dir "tests", Dir);
     (path_join demo_dir "docs", Dir); (path_join demo_dir "data", Dir);
     (path_join demo_dir "notebooks", Dir);
     (path_join demo_dir "config", Dir); (path_join demo_dir "logs", Dir);
     (path_join (path_join demo_dir "src") "__init__.py", File EmptyString);
     (path_join (path_join demo_dir "tests") "__init__.py", File EmptyString);
     (demo_venv, Dir); (path_join demo_venv "bin", Dir);
     (demo_python, File "#!python")].

(** The one command of the installation through the interpreter. *)
Definition module_install_cmd (O : oracle) (W : worker) : list string :=
  ([which_python_in_venv O (venv_of W); "-m"; "pip"] ++ ["install"]
   ++ packages W)%list.

(** The methods that validate or install package by package. *)
Definition installer_methods : list string :=
  ["install_packages_batch"; "install_packages_individual"; "create_venv"].

(* ===================================================================== *)
(** ** Vocabulary of the cancellation properties                          *)
(* ===================================================================== *)



(** No child of the host delivers more than [R] reads. *)
Definition reads_bounded (O : oracle) (R : nat) : Prop :=
  forall cmd s ch, popen O cmd s = inr ch -> List.length (reads ch) <= R.





(** From [s] to [s'] no command was run and [success] was left alone. *)
Definition idle (s s' : state) : Prop :=
  success s' = success s /\ run_codes (trace s') = run_codes (trace s).

(** From [s] to [s'] one command was run, recorded with the code 1, and
    [success] was left alone. *)
Definition struck (s s' : state) : Prop :=
  success s' = success s
  /\ run_codes (trace s') = (run_codes (trace s) ++ [1%Z])%list.

(* ===================================================================== *)
(** ** [ProjectPresets] and the request of [on_create]                    *)
(* ===================================================================== *)

(** [d.get(k, dflt)] for a dictionary written as the list of its items. *)
Fixpoint dict_get {A : Type} (d : list (string * A)) (k : string) (dflt : A)
    : A :=
  match d with
  | [] => dflt
  | (k', v) :: rest => if String.eqb k k' then v else dict_get rest k dflt
  end.

(** [ProjectPresets.PRESETS] *)
Definition PRESETS : list (string * list string) :=
  [("Data Science",
    ["numpy"; "pandas"; "matplotlib"; "seaborn"; "scikit-learn"; "jupyter";
     "scipy"]);
   ("Web Development (Flask)",
    ["flask"; "flask-sqlalchemy"; "flask-wtf"; "flask-login";
     "flask-migrate"; "requests"]);
   ("Web Development (Django)",
    ["django"; "django-rest-framework"; "django-cors-headers";
     "psycopg2-binary"; "gunicorn"]);
   ("Automation & Scripting",
    ["requests"; "beautifulsoup4"; "selenium"; "pyautogui"; "pandas";
     "openpyxl"]);
   ("GUI Development",
    ["pyqt5"; "pyside6"; "pyautogui"; "pillow"; "pyinstaller"]);
   ("Machine Learning",
    ["torch"; "torchvision"; "tensorflow"; "keras"; "scikit-learn";
     "xgboost"]);
   ("API Development",
    ["fastapi"; "uvicorn"; "pydantic"; "sqlalchemy"; "alembic";
     "python-jose"]);
   ("Testing",
    ["pytest"; "pytest-cov"; "pytest-mock"; "tox"; "hypothesis";
     "factory-boy"]);
   ("DevOps",
    ["docker"; "boto3"; "paramiko"; "fabric"; "ansible"; "jinja2"]);
   ("Minimal", [])].

(** [ProjectPresets.get_preset(name)] *)
Definition get_preset (name : string) : list string :=
  dict_get PRESETS name [].

(** [ProjectPresets.get_preset_names()] *)
Definition get_preset_names : list string := map fst PRESETS.

(** The text of the dialog [on_create] opens for a rejected package. *)
Definition invalid_package_question (pkg msg : string) : string :=
  "Package '" ++ pkg ++ "' is invalid: " ++ msg ++ nl ++ "Continue anyway?".

(** The validation loop of [on_create]. [askyesno n text] is the answer to
    the [n]-th dialog of the loop; [None] is the [return] that leaves
    [on_create] without a worker, [Some validated_packages] the list the
    worker is made with. *)
Fixpoint validate_request (askyesno : nat -> string -> bool) (asked : nat)
    (packages validated_packages : list string) : option (list string) :=
  match packages with
  | [] => Some validated_packages
  | pkg :: rest =>
      let (is_valid, msg) := validate_package_name pkg in
      if is_valid then
        validate_request askyesno asked rest (validated_packages ++ [pkg])%list
      else if askyesno asked (invalid_package_question pkg msg) then
        validate_request askyesno (S asked) rest validated_packages
      else None
  end.

Definition always_yes : nat -> string -> bool := fun _ _ => true.

(** A character of the ASCII range; on a text of such characters [strip]
    is all of [str.strip()]. *)
Definition is_ascii (c : ascii) : bool := (N_of_ascii c <? 128)%N.

(** The paths of the files the worker writes itself. *)
Definition requirements_path (W : worker) : string :=
  path_join (project_dir W) "requirements.txt".

Definition readme_path (W : worker) : string :=
  path_join (project_dir W) "README.md".

Definition gitignore_path (W : worker) : string :=
  path_join (project_dir W) ".gitignore".

(** The four git commands and the write of [create_git_repo], in order. *)
Definition git_probe : list string := ["git"; "--version"].

Definition git_actions (W : worker) : list action :=
  [SubprocessRun git_probe; SubprocessRun ["git"; "init"];
   WriteFile (gitignore_path W); SubprocessRun ["git"; "add"; "."];
   SubprocessRun ["git"; "commit"; "-m";
                  "Initial commit: Project created with Project Builder"]].

Definition git_init_cmd : list string := ["git"; "init"].
Definition git_add_cmd : list string := ["git"; "add"; "."].
Definition git_commit_cmd : list string :=
  ["git"; "commit"; "-m";
   "Initial commit: Project created with Project Builder"].

(** The state in which the host is asked to run [cmd] with
    [subprocess.run], and the state its answer leaves. *)
Definition asking (cmd : list string) (s : state) : state :=
  add_action (SubprocessRun cmd) s.

Definition answered (f : gmap string node -> gmap string node) (s : state)
    : state :=
  set_fs (f (fs s)) s.

(** The error item of a failure of [create_git_repo] past the probe. *)
Definition git_error (e : exn) : event :=
  match e with
  | CalledProcessError => Error ("Git operation failed: " ++ exn_text e)
  | _ => Error ("Failed to initialize git: " ++ exn_text e)
  end.

(** The exceptions of the probe that [create_git_repo] takes for a missing
    git. *)
Definition git_missing (e : exn) : bool :=
  match e with
  | CalledProcessError | FileNotFoundError => true
  | _ => false
  end.

(** The demo host on which the manifest and the README cannot be written. *)
Definition host_without_manifest : oracle :=
  mk_oracle false "/usr/bin/python3" "2024-01-01 00:00:00" "2024-01-01"
    (fun e => "Traceback (most recent call last): " ++ exn_text e)
    None
    (fun p => if String.eqb p (path_join demo_dir "requirements.txt")
                 || String.eqb p (path_join demo_dir "README.md")
              then Some PermissionError else None)
    (fun _ _ => None) (fun _ _ => None) (fun _ => None)
    (fun cmd _ =>
       match cmd with
       | [_; "-m"; "venv"; v; _; _] => inr (venv_child v)
       | _ => inr (plain_child 0)
       end)
    (fun _ _ => inr (fun f => f)).

(* ===================================================================== *)
(** ** The project name of [on_create] and the recent projects            *)
(* ===================================================================== *)

(** [[a-zA-Z0-9_\- ]] *)
Definition project_name_char (c : ascii) : bool :=
  alnum c || Ascii.eqb c "_"%char || Ascii.eqb c "-"%char
  || Ascii.eqb c " "%char.

(** [r'^[a-zA-Z0-9_\- ]+$'] *)
Definition project_name_pattern : regex :=
  Cat (Cls project_name_char) (Cat (Star (Cls project_name_char)) Dollar).

(** The two tests [on_create] makes on the stripped project name. *)
Definition accepted_project_name (pname : string) : bool :=
  negb (String.eqb pname EmptyString) && re_match project_name_pattern pname.

(** The update of [config['recent_projects']] that [_periodic_check] makes
    for a ["summary"] item. *)
Definition update_recent (project_path : string) (recent : list string)
    : list string :=
  if String.eqb project_path EmptyString then recent
  else if existsb (String.eqb project_path) recent then recent
  else firstn 10 (project_path :: recent).

(** The command of [create_venv]. *)
Definition venv_cmd (O : oracle) (W : worker) (venv : string) : list string :=
  [sys_executable O; "-m"; "venv"; venv; "--prompt"; basename (project_dir W)].

(** The write probe of [create_venv]. *)
Definition write_probe (O : oracle) (venv : string) : M unit :=
  touch O (path_join (dirname venv) ".write_test") ;;
  unlink O (path_join (dirname venv) ".write_test").

(* ===================================================================== *)
(** ** Vocabulary of the claims on the installer and on the summary       *)
(* ===================================================================== *)

(** A shell metacharacter occurs somewhere in the text. *)
Definition has_metacharacter (text : string) : bool :=
  existsb (fun ch => contains ch text) shell_metacharacters.

Definition is_summary (e : event) : bool :=
  match e with Summary _ _ _ _ => true | _ => false end.

(** The packages of the request that the batch installer validates and
    keeps. *)
Definition valid_packages (W : worker) : list string :=
  List.filter is_valid (packages W).

(* ===================================================================== *)
(** ** Vocabulary of the claim on cancellation                            *)
(* ===================================================================== *)



(* ===================================================================== *)
(** ** Properties of [validate_package_name]                              *)
(* ===================================================================== *)

Example validate_requests :
  validate_package_name "requests" = (true, EmptyString).
Proof. reflexivity. Qed.

Example validate_pinned :
  validate_package_name "numpy==1.24.0" = (true, EmptyString).
Proof. reflexivity. Qed.

Example validate_injection :
  validate_package_name "pkg;rm"
  = (false, "Invalid characters in package: pkg;rm").
Proof. reflexivity. Qed.

Example validate_url :
  fst (validate_package_name "git+https://example.org/x") = false.
Proof. reflexivity. Qed.

(** A newline is not alphanumeric, so the [$] of the pattern never lets a
    second character through after a single one. *)
Lemma newline_not_alnum : alnum newline = false.
Proof. reflexivity. Qed.

Lemma pattern_rejects_single (c : ascii) :
  re_match pattern (String c EmptyString) = false.
Proof.
  unfold re_match, pattern. simpl.
  destruct (alnum c); simpl; [destruct (name_char c); simpl |]; reflexivity.
Qed.

Lemma pattern_rejects_empty : re_match pattern EmptyString = false.
Proof. reflexivity. Qed.

(** The pattern accepts no text shorter than two characters. *)
Lemma pattern_needs_two (s : string) :
  re_match pattern s = true -> 2 <= String.length s.
Proof.
  destruct s as [| c [| d s]]; simpl String.length; intros H; try lia.
  - discriminate H.
  - rewrite pattern_rejects_single in H. discriminate H.
Qed.

(** A package whose base name holds a shell metacharacter is rejected. *)
Lemma metacharacter_in_base_name_rejected (pkg : string) :
  existsb (fun ch => contains ch (base_name pkg)) shell_metacharacters = true ->
  fst (validate_package_name pkg) = false.
Proof.
  intros H. unfold validate_package_name.
  destruct (String.eqb pkg EmptyString); [reflexivity |].
  cbv zeta. rewrite H. reflexivity.
Qed.

(** A valid package has a base name of two characters at least. *)
Lemma valid_base_name_length (pkg : string) :
  fst (validate_package_name pkg) = true ->
  2 <= String.length (base_name pkg).
Proof.
  unfold validate_package_name.
  destruct (String.eqb pkg EmptyString); [discriminate |].
  cbv zeta.
  destruct (existsb _ shell_metacharacters); [discriminate |].
  destruct (startswith_any url_prefixes (base_name pkg)); [discriminate |].
  destruct (re_match pattern (base_name pkg)) eqn:Hm; [| discriminate].
  intros _. apply pattern_needs_two. exact Hm.
Qed.

(** C9. The predicate rejects every package whose base name is a single
    character: the pattern asks for a first and a last alphanumeric
    character, two at least, so it does not match; a one-letter name such as
    [q] is reported with the format message. *)
Theorem single_character_base_name_rejected (pkg : string) :
  String.length (base_name pkg) = 1 ->
  fst (validate_package_name pkg) = false
  /\ re_match pattern (base_name pkg) = false
  /\ validate_package_name "q" = (false, "Invalid package name format: q").
Proof.
  intros Hlen. split; [| split].
  - destruct (fst (validate_package_name pkg)) eqn:Hv; [| reflexivity].
    apply valid_base_name_length in Hv. lia.
  - destruct (base_name pkg) as [| c [| d s]]; simpl in Hlen; try discriminate.
    apply pattern_rejects_single.
  - reflexivity.
Qed.

Lemma single_character_base_name_rejected_witness :
  String.length (base_name "x>=1.0") = 1
  /\ fst (validate_package_name "x>=1.0") = false.
Proof.
  split; [reflexivity |].
  apply (single_character_base_name_rejected "x>=1.0"). reflexivity.
Defined.

(* ===================================================================== *)
(** ** Reasoning about worker code                                        *)
(* ===================================================================== *)

Lemma bind_inl {A B : Type} (m : M A) (k : A -> M B) s e s1 :
  m s = (inl e, s1) -> bind m k s = (inl e, s1).
Proof. intros H. unfold bind. rewrite H. reflexivity. Qed.

Lemma bind_inr {A B : Type} (m : M A) (k : A -> M B) s a s1 :
  m s = (inr a, s1) -> bind m k s = k a s1.
Proof. intros H. unfold bind. rewrite H. reflexivity. Qed.

Lemma try_eq {A : Type} (m : M A) s : try m s = (inr (fst (m s)), snd (m s)).
Proof. unfold try. destruct (m s). reflexivity. Qed.

Lemma forallb_app_true {A : Type} (f : A -> bool) (l1 l2 : list A) :
  forallb f l1 = true -> forallb f l2 = true ->
  forallb f (l1 ++ l2)%list = true.
Proof. intros H1 H2. rewrite forallb_app, H1, H2. reflexivity. Qed.

Lemma within_refl forb quiet s : within forb quiet s s.
Proof.
  unfold within. repeat split.
  - exists []. rewrite app_nil_r. auto.
  - exists []. rewrite app_nil_r. auto.
  - destruct quiet; lia.
Qed.

Lemma within_trans forb quiet s1 s2 s3 :
  within forb quiet s1 s2 -> within forb quiet s2 s3 ->
  within forb quiet s1 s3.
Proof.
  intros (Ha & Hb & (e1 & He1 & Hp1) & (a1 & Ha1 & Hq1) & Hr1)
         (Hc & Hd & (e2 & He2 & Hp2) & (a2 & Ha2 & Hq2) & Hr2).
  unfold within. repeat split.
  - congruence.
  - congruence.
  - exists (e1 ++ e2)%list. rewrite He2, He1, app_assoc.
    split; [reflexivity | apply forallb_app_true; assumption].
  - exists (a1 ++ a2)%list. rewrite Ha2, Ha1, app_assoc.
    split; [reflexivity | apply forallb_app_true; assumption].
  - destruct quiet; lia.
Qed.

Lemma act_ok_weaken forb a : act_ok forb true a = true -> act_ok forb false a = true.
Proof. destruct a; simpl; auto. Qed.

Lemma within_weaken forb s s' : within forb true s s' -> within forb false s s'.
Proof.
  intros (Ha & Hb & He & (a & Ht & Hq) & Hr). unfold within.
  repeat split; auto.
  - exists a. split; [exact Ht |].
    rewrite forallb_forall in *. intros x Hx. apply act_ok_weaken. auto.
  - simpl in Hr. lia.
Qed.

Section Keeps.

Variable forb : list string.
Variable quiet : bool.

Lemma keeps_ret {A : Type} (a : A) : keeps forb quiet (ret a).
Proof. intros s. apply within_refl. Qed.

Lemma keeps_raise {A : Type} (e : exn) : keeps forb quiet (@raise A e).
Proof. intros s. apply within_refl. Qed.

Lemma keeps_get : keeps forb quiet get.
Proof. intros s. apply within_refl. Qed.

Lemma keeps_bind {A B : Type} (m : M A) (k : A -> M B) :
  keeps forb quiet m -> (forall a, keeps forb quiet (k a)) ->
  keeps forb quiet (bind m k).
Proof.
  intros Hm Hk s. unfold bind. specialize (Hm s).
  destruct (m s) as [[e | a] s1]; simpl in *; [exact Hm |].
  eapply within_trans; [exact Hm | apply Hk].
Qed.

Lemma keeps_try {A : Type} (m : M A) :
  keeps forb quiet m -> keeps forb quiet (try m).
Proof. intros Hm s. rewrite try_eq. apply Hm. Qed.

Lemma keeps_post (e : event) : plain e = true -> keeps forb quiet (post e).
Proof.
  intros Hp s. unfold within. simpl. repeat split.
  - exists [e]. simpl. rewrite Hp. auto.
  - exists []. rewrite app_nil_r. auto.
  - destruct quiet; lia.
Qed.

Lemma keeps_act (a : action) :
  act_ok forb quiet a = true -> keeps forb quiet (act a).
Proof.
  intros Hp s. unfold within. simpl. repeat split.
  - exists []. rewrite app_nil_r. auto.
  - exists [a]. simpl. rewrite Hp. auto.
  - destruct quiet; lia.
Qed.

Lemma keeps_set_fs (f : state -> gmap string node) :
  keeps forb quiet (modify (fun s => set_fs (f s) s)).
Proof.
  intros s. unfold within. simpl. repeat split.
  - exists []. rewrite app_nil_r. auto.
  - exists []. rewrite app_nil_r. auto.
  - destruct quiet; lia.
Qed.

Lemma keeps_set_fs_const (f : gmap string node) :
  keeps forb quiet (modify (set_fs f)).
Proof. apply (keeps_set_fs (fun _ => f)). Qed.

Lemma keeps_set_project_size (n : N) :
  keeps forb quiet (modify (set_project_size n)).
Proof.
  intros s. unfold within. simpl. repeat split.
  - exists []. rewrite app_nil_r. auto.
  - exists []. rewrite app_nil_r. auto.
  - destruct quiet; lia.
Qed.

End Keeps.

Lemma keeps_weaken forb {A : Type} (m : M A) :
  keeps forb true m -> keeps forb false m.
Proof. intros H s. apply within_weaken, H. Qed.

Lemma keeps_is_set O forb : keeps forb false (is_set O).
Proof.
  intros s. unfold within. simpl. repeat split.
  - exists []. rewrite app_nil_r. auto.
  - exists []. rewrite app_nil_r. auto.
  - lia.
Qed.

Lemma keeps_enter forb quiet method :
  may_enter forb method -> keeps forb quiet (enter method).
Proof. intros H. apply keeps_act. exact H. Qed.

(** One step of the decomposition of a piece of worker code. *)
Ltac keeps_step :=
  match goal with
  | |- keeps _ _ (bind _ _) => apply keeps_bind; [| intros ?]
  | |- keeps _ _ (ret _) => apply keeps_ret
  | |- keeps _ _ (raise _) => apply keeps_raise
  | |- keeps _ _ get => apply keeps_get
  | |- keeps _ _ (try _) => apply keeps_try
  | |- keeps _ _ (post _) => apply keeps_post; reflexivity
  | H : may_enter ?f ?m |- keeps ?f _ (enter ?m) => exact (keeps_enter f _ m H)
  | |- keeps _ _ (act _) => apply keeps_act; reflexivity
  | |- keeps _ _ (modify (set_fs _)) => apply keeps_set_fs_const
  | |- keeps _ _ (modify (fun s => set_fs _ s)) => apply keeps_set_fs
  | |- keeps _ _ (modify (set_project_size _)) => apply keeps_set_project_size
  | |- keeps _ false (is_set _) => apply keeps_is_set
  | |- keeps _ _ (match ?x with _ => _ end) => destruct x
  end.

Ltac keeps_tac := repeat keeps_step.

Ltac keeps_auto := repeat keeps_step.

Section FrameOfMethods.

Variable O : oracle.
Variable W : worker.
Variable forb : list string.

Lemma os_mkdir_keeps quiet p : keeps forb quiet (os_mkdir O p).
Proof. unfold os_mkdir. keeps_auto. Qed.

Lemma path_mkdir_keeps quiet p : keeps forb quiet (path_mkdir O p).
Proof. unfold path_mkdir. keeps_auto; apply os_mkdir_keeps. Qed.

Lemma path_mkdir_parents_keeps quiet anc :
  forall p, keeps forb quiet (path_mkdir_parents O anc p).
Proof.
  induction anc as [| q anc IH]; intros p; simpl; keeps_auto;
    first [apply os_mkdir_keeps | apply path_mkdir_keeps | apply IH].
Qed.

Lemma touch_keeps quiet p : keeps forb quiet (touch O p).
Proof. unfold touch. keeps_auto. Qed.

Lemma unlink_keeps quiet p : keeps forb quiet (unlink O p).
Proof. unfold unlink. keeps_auto. Qed.

Lemma write_file_keeps quiet p c : keeps forb quiet (write_file O p c).
Proof. unfold write_file. keeps_auto. Qed.

Lemma rmtree_keeps quiet p : keeps forb quiet (rmtree O p).
Proof. unfold rmtree. keeps_auto. Qed.

Lemma sub_run_keeps quiet cmd : keeps forb quiet (sub_run O cmd).
Proof. unfold sub_run. keeps_auto. Qed.

Lemma stream_unfold ch rs :
  stream O ch rs =
  (stop <- is_set O ;;
   if stop then
     act Kill ;;
     modify (fun s => set_fs (on_kill ch (fs s)) s) ;;
     post (Warn "Operation cancelled by user.") ;;
     ret 1%Z
   else
     match rs with
     | [] =>
         modify (fun s => set_fs (on_exit ch (fs s)) s) ;;
         ret (returncode ch)
     | line :: rest =>
         (if String.eqb line EmptyString then ret tt
          else post (Log (rstrip line))) ;;
         stream O ch rest
     end).
Proof. destruct rs; reflexivity. Qed.

Lemma stream_keeps ch rs : keeps forb false (stream O ch rs).
Proof.
  induction rs as [| line rest IH]; rewrite stream_unfold; keeps_auto.
  exact IH.
Qed.

Lemma run_command_stream_keeps cmd :
  keeps forb false (run_command_stream O cmd).
Proof. unfold run_command_stream. keeps_auto. apply stream_keeps. Qed.

Lemma create_directories_keeps quiet ds :
  keeps forb quiet (create_directories O W ds).
Proof.
  induction ds as [| d ds IH]; simpl; keeps_auto;
    first [apply path_mkdir_keeps | apply touch_keeps | exact IH].
Qed.

Lemma create_directory_structure_keeps quiet :
  may_enter forb "create_directory_structure" ->
  keeps forb quiet (create_directory_structure O W).
Proof.
  intros H. unfold create_directory_structure. keeps_auto.
  apply create_directories_keeps.
Qed.

Lemma create_venv_keeps venv :
  may_enter forb "create_venv" -> keeps forb false (create_venv O W venv).
Proof.
  intros H. unfold create_venv. keeps_auto;
    first [apply touch_keeps | apply unlink_keeps
          | apply run_command_stream_keeps].
Qed.

Lemma install_each_keeps pip total pkgs :
  forall idx n, keeps forb false (install_each O pip total idx pkgs n).
Proof.
  induction pkgs as [| pkg rest IH]; intros idx n; simpl; keeps_auto;
    first [apply run_command_stream_keeps | apply IH].
Qed.

Lemma install_packages_individual_keeps pip pkgs :
  may_enter forb "install_packages_individual" ->
  keeps forb false (install_packages_individual O pip pkgs).
Proof.
  intros H. unfold install_packages_individual. keeps_auto.
  apply install_each_keeps.
Qed.

Lemma validate_all_keeps quiet pkgs : keeps forb quiet (validate_all pkgs).
Proof.
  induction pkgs as [| pkg rest IH]; simpl; keeps_auto. exact IH.
Qed.

Lemma install_packages_batch_keeps pip :
  may_enter forb "install_packages_batch" ->
  may_enter forb "install_packages_individual" ->
  keeps forb false (install_packages_batch O W pip).
Proof.
  intros H1 H2. unfold install_packages_batch. keeps_auto;
    first [apply validate_all_keeps | apply run_command_stream_keeps
          | apply install_packages_individual_keeps; assumption].
Qed.

Lemma write_requirements_keeps quiet :
  may_enter forb "write_requirements" ->
  keeps forb quiet (write_requirements O W).
Proof.
  intros H. unfold write_requirements. keeps_auto. apply write_file_keeps.
Qed.

Lemma create_readme_keeps quiet :
  may_enter forb "create_readme" -> keeps forb quiet (create_readme O W).
Proof.
  intros H. unfold create_readme. keeps_auto. apply write_file_keeps.
Qed.

Lemma create_git_repo_keeps quiet :
  may_enter forb "create_git_repo" -> keeps forb quiet (create_git_repo O W).
Proof.
  intros H. unfold create_git_repo. keeps_auto;
    first [apply sub_run_keeps | apply write_file_keeps].
Qed.

Lemma calculate_project_size_keeps quiet :
  may_enter forb "calculate_project_size" ->
  keeps forb quiet (calculate_project_size W).
Proof. intros H. unfold calculate_project_size. keeps_auto. Qed.

Lemma cleanup_partial_keeps quiet :
  may_enter forb "_cleanup_partial" -> keeps forb quiet (_cleanup_partial O W).
Proof.
  intros H. unfold _cleanup_partial. keeps_auto. apply rmtree_keeps.
Qed.

End FrameOfMethods.

(* ===================================================================== *)
(** ** The process runner                                                 *)
(* ===================================================================== *)

Lemma logs_of_no_warn rs : forallb (fun e => negb (is_warn e)) (logs_of rs) = true.
Proof.
  induction rs as [| line rest IH]; simpl; [reflexivity |].
  destruct (String.eqb line EmptyString); simpl; exact IH.
Qed.

Lemma is_set_eq O s : is_set O s = (inr (stop_seen O s), tick_stop s).
Proof. reflexivity. Qed.

Lemma stream_stop O ch rs s :
  stop_seen O s = true ->
  stream O ch rs s
  = (inr 1%Z,
     add_event (Warn cancelled_text)
       (set_fs (on_kill ch (fs s)) (add_action Kill (tick_stop s)))).
Proof.
  intros H. rewrite stream_unfold. unfold bind. rewrite is_set_eq, H.
  reflexivity.
Qed.

Lemma stream_end O ch s :
  stop_seen O s = false ->
  stream O ch [] s
  = (inr (returncode ch), set_fs (on_exit ch (fs s)) (tick_stop s)).
Proof.
  intros H. rewrite stream_unfold. unfold bind. rewrite is_set_eq, H.
  reflexivity.
Qed.

Lemma stream_next O ch line rest s :
  stop_seen O s = false ->
  stream O ch (line :: rest) s
  = stream O ch rest
      (if String.eqb line EmptyString then tick_stop s
       else add_event (Log (rstrip line)) (tick_stop s)).
Proof.
  intros H. rewrite stream_unfold. unfold bind at 1. rewrite is_set_eq, H.
  destruct (String.eqb line EmptyString); reflexivity.
Qed.

(** The loop, when some check of its own finds the stop event set: the
    lines read before that check are logged, the child is killed, one
    warning is posted and the loop returns 1. *)
Lemma stream_cancelled O ch k :
  cancelled_from O = Some k ->
  forall rs s,
    k <= stop_reads s + List.length rs ->
    fst (stream O ch rs s) = inr 1%Z
    /\ fs (snd (stream O ch rs s)) = on_kill ch (fs s)
    /\ msgq (snd (stream O ch rs s))
       = (msgq s ++ logs_of (take (k - stop_reads s) rs)
          ++ [Warn cancelled_text])%list
    /\ trace (snd (stream O ch rs s)) = (trace s ++ [Kill])%list.
Proof.
  intros Hk. induction rs as [| line rest IH]; intros s Hle.
  - simpl in Hle. rewrite stream_stop.
    + replace (k - stop_reads s) with 0 by lia. simpl. auto.
    + unfold stop_seen. rewrite Hk. apply Nat.leb_le. lia.
  - destruct (stop_seen O s) eqn:Hb.
    + rewrite stream_stop by exact Hb.
      unfold stop_seen in Hb. rewrite Hk in Hb. apply Nat.leb_le in Hb.
      replace (k - stop_reads s) with 0 by lia. simpl. auto.
    + rewrite stream_next by exact Hb.
      unfold stop_seen in Hb. rewrite Hk in Hb. apply Nat.leb_gt in Hb.
      simpl in Hle.
      assert (Hn : k - stop_reads s = S (k - S (stop_reads s))) by lia.
      rewrite Hn. simpl take. simpl logs_of.
      destruct (String.eqb line EmptyString) eqn:Hl.
      * specialize (IH (tick_stop s)). simpl in IH.
        destruct IH as (H1 & H2 & H3 & H4); [lia |]. auto.
      * specialize (IH (add_event (Log (rstrip line)) (tick_stop s))).
        simpl in IH.
        destruct IH as (H1 & H2 & H3 & H4); [lia |].
        rewrite H3, <- app_assoc. simpl. auto.
Qed.

(** The loop, when the stop event is never set: every read is logged and
    the child's own exit code comes back. *)
Lemma stream_uncancelled O ch :
  cancelled_from O = None ->
  forall rs s,
    fst (stream O ch rs s) = inr (returncode ch)
    /\ msgq (snd (stream O ch rs s)) = (msgq s ++ logs_of rs)%list
    /\ trace (snd (stream O ch rs s)) = trace s.
Proof.
  intros Hk.
  assert (Hs : forall s, stop_seen O s = false)
    by (intros s; unfold stop_seen; rewrite Hk; reflexivity).
  induction rs as [| line rest IH]; intros s.
  - rewrite stream_end by apply Hs. simpl. rewrite app_nil_r. auto.
  - rewrite stream_next by apply Hs. simpl logs_of.
    destruct (String.eqb line EmptyString) eqn:Hl.
    + specialize (IH (tick_stop s)). simpl in IH. exact IH.
    + specialize (IH (add_event (Log (rstrip line)) (tick_stop s))).
      simpl in IH. destruct IH as (H1 & H2 & H3).
      rewrite H2, <- app_assoc. simpl. auto.
Qed.

(** The loop, when none of its checks finds the stop event set, be it that
    the event is never set or that it is set only after the last check:
    every read is logged, the child exits by itself and its own exit code
    comes back. *)
Lemma stream_unseen O ch :
  forall rs s,
    (forall k, cancelled_from O = Some k ->
               stop_reads s + List.length rs < k) ->
    fst (stream O ch rs s) = inr (returncode ch)
    /\ fs (snd (stream O ch rs s)) = on_exit ch (fs s)
    /\ msgq (snd (stream O ch rs s)) = (msgq s ++ logs_of rs)%list
    /\ trace (snd (stream O ch rs s)) = trace s.
Proof.
  assert (Hs : forall n s,
             (forall k, cancelled_from O = Some k -> stop_reads s + n < k) ->
             stop_seen O s = false).
  { intros n s H. unfold stop_seen.
    destruct (cancelled_from O) as [k |]; [| reflexivity].
    apply Nat.leb_gt. specialize (H k eq_refl). lia. }
  induction rs as [| line rest IH]; intros s H.
  - rewrite stream_end by (apply (Hs _ _ H)). simpl. rewrite app_nil_r. auto.
  - rewrite stream_next by (apply (Hs _ _ H)). simpl logs_of.
    simpl in H.
    destruct (String.eqb line EmptyString) eqn:Hl.
    + specialize (IH (tick_stop s)). simpl in IH. apply IH.
      intros k Hk. specialize (H k Hk). lia.
    + specialize (IH (add_event (Log (rstrip line)) (tick_stop s))).
      simpl in IH. destruct IH as (H1 & H2 & H3 & H4).
      { intros k Hk. specialize (H k Hk). lia. }
      rewrite H3, <- app_assoc. simpl. auto.
Qed.

(** The reads of the stop event made by the loop: one before each read of
    the child and one before the exit, unless one of them finds the event
    set, which is then the last. *)
Lemma stream_schedule O ch :
  forall rs s,
    (fst (stream O ch rs s) = inr (returncode ch)
     /\ trace (snd (stream O ch rs s)) = trace s
     /\ stop_reads (snd (stream O ch rs s))
        = stop_reads s + S (List.length rs)
     /\ (forall k, cancelled_from O = Some k ->
                   stop_reads (snd (stream O ch rs s)) <= k))
    \/ (fst (stream O ch rs s) = inr 1%Z
        /\ trace (snd (stream O ch rs s)) = (trace s ++ [Kill])%list
        /\ exists k, cancelled_from O = Some k
                     /\ k <= stop_reads s + List.length rs
                     /\ stop_reads (snd (stream O ch rs s))
                        = Nat.max k (stop_reads s) + 1).
Proof.
  induction rs as [| line rest IH]; intros s.
  - destruct (stop_seen O s) eqn:Hb.
    + right. rewrite stream_stop by exact Hb. unfold stop_seen in Hb.
      destruct (cancelled_from O) as [k |]; [| discriminate].
      apply Nat.leb_le in Hb. simpl.
      split; [reflexivity |]. split; [reflexivity |].
      exists k. split; [reflexivity |]. split; lia.
    + left. rewrite stream_end by exact Hb. unfold stop_seen in Hb. simpl.
      split; [reflexivity |]. split; [reflexivity |]. split; [lia |].
      intros k Hk. rewrite Hk in Hb. apply Nat.leb_gt in Hb. lia.
  - destruct (stop_seen O s) eqn:Hb.
    + right. rewrite stream_stop by exact Hb. unfold stop_seen in Hb.
      destruct (cancelled_from O) as [k |]; [| discriminate].
      apply Nat.leb_le in Hb. simpl.
      split; [reflexivity |]. split; [reflexivity |].
      exists k. split; [reflexivity |]. split; lia.
    + rewrite stream_next by exact Hb.
      set (s1 := if String.eqb line EmptyString then tick_stop s
                 else add_event (Log (rstrip line)) (tick_stop s)).
      assert (R1 : stop_reads s1 = S (stop_reads s))
        by (unfold s1; destruct (String.eqb line EmptyString); reflexivity).
      assert (T1 : trace s1 = trace s)
        by (unfold s1; destruct (String.eqb line EmptyString); reflexivity).
      destruct (IH s1) as [(H1 & H2 & H3 & H4) | (H1 & H2 & k & Hk & Hle & H3)].
      * left. split; [exact H1 |]. split; [congruence |].
        split; [rewrite H3, R1; simpl; lia | exact H4].
      * right. split; [exact H1 |]. split; [congruence |].
        exists k. split; [exact Hk |]. unfold stop_seen in Hb.
        rewrite Hk in Hb. apply Nat.leb_gt in Hb.
        split; [simpl; lia | rewrite H3, R1; lia].
Qed.

(** C4 (amended). When one of the runner's own checks, made before each
    read of the child's output, finds the stop event set, the runner kills
    the child, posts exactly one warning, the cancellation notice, after the
    lines already read, and returns 1. The code 1 is no sentinel: when none
    of these checks finds the event set, be it that no cancellation is ever
    requested or that it comes only after the last check, the child is not
    killed, no warning is posted, and the child's own exit code is returned
    as it is, 1 included. *)
Theorem cancellation_kills_child_and_returns_1 O cmd s ch :
  popen O cmd s = inr ch ->
  (forall k,
      cancelled_from O = Some k ->
      k <= stop_reads s + List.length (reads ch) ->
      fst (run_command_stream O cmd s) = inr 1%Z
      /\ trace (snd (run_command_stream O cmd s))
         = (trace s ++ [Kill; Run cmd 1%Z])%list
      /\ fs (snd (run_command_stream O cmd s)) = on_kill ch (fs s)
      /\ exists logs,
           msgq (snd (run_command_stream O cmd s))
           = (msgq s ++ logs ++ [Warn cancelled_text])%list
           /\ forallb (fun e => negb (is_warn e)) logs = true)
  /\ ((forall k, cancelled_from O = Some k ->
                 stop_reads s + List.length (reads ch) < k) ->
      fst (run_command_stream O cmd s) = inr (returncode ch)
      /\ trace (snd (run_command_stream O cmd s))
         = (trace s ++ [Run cmd (returncode ch)])%list
      /\ fs (snd (run_command_stream O cmd s)) = on_exit ch (fs s)
      /\ exists logs,
           msgq (snd (run_command_stream O cmd s)) = (msgq s ++ logs)%list
           /\ forallb (fun e => negb (is_warn e)) logs = true).
Proof.
  intros Hp.
  assert (E : run_command_stream O cmd s
              = (rc <- stream O ch (reads ch) ;; act (Run cmd rc) ;; ret rc) s).
  { unfold run_command_stream. unfold bind at 1, get. rewrite Hp.
    reflexivity. }
  rewrite E. clear E. split.
  - intros k Hk Hle.
    destruct (stream_cancelled O ch k Hk (reads ch) s Hle) as (H1 & H2 & H3 & H4).
    unfold bind.
    destruct (stream O ch (reads ch) s) as [[e | rc] s1]; simpl in *;
      [discriminate |].
    injection H1 as ->. simpl. rewrite H4, <- app_assoc. simpl.
    repeat split; auto.
    exists (logs_of (take (k - stop_reads s) (reads ch))).
    split; [exact H3 | apply logs_of_no_warn].
  - intros Hk.
    destruct (stream_unseen O ch (reads ch) s Hk) as (H1 & H2 & H3 & H4).
    unfold bind.
    destruct (stream O ch (reads ch) s) as [[e | rc] s1]; simpl in *;
      [discriminate |].
    injection H1 as ->. simpl. rewrite H4.
    split; [reflexivity |]. split; [reflexivity |]. split; [exact H2 |].
    exists (logs_of (reads ch)). split; [exact H3 | apply logs_of_no_warn].
Qed.

Lemma cancellation_kills_child_and_returns_1_witness :
  fst (run_command_stream (host (Some 1) (always 0)) ["pip"; "install"; "aa"]
         (init_state fs_folder)) = inr 1%Z.
Proof.
  apply (proj1 (cancellation_kills_child_and_returns_1
                  (host (Some 1) (always 0)) ["pip"; "install"; "aa"]
                  (init_state fs_folder) (plain_child 0) eq_refl)
               1 eq_refl).
  simpl. lia.
Defined.

(** C4 as stated fails: the code returned on cancellation is the exit code
    of a child that was never cancelled and exited with status 1. *)
Lemma cancel_code_is_a_real_exit_code :
  fst (run_command_stream (host (Some 0) (always 0)) ["pip"; "install"; "aa"]
         (init_state fs_folder)) = inr 1%Z
  /\ In Kill (trace (snd (run_command_stream (host (Some 0) (always 0))
                            ["pip"; "install"; "aa"] (init_state fs_folder))))
  /\ cancelled_from (host None (always 1)) = None
  /\ returncode (plain_child 1) = 1%Z
  /\ fst (run_command_stream (host None (always 1)) ["pip"; "install"; "aa"]
            (init_state fs_folder)) = inr 1%Z
  /\ ~ In Kill (trace (snd (run_command_stream (host None (always 1))
                              ["pip"; "install"; "aa"] (init_state fs_folder)))).
Proof.
  vm_compute. repeat split; auto.
  intros [H | H]; [discriminate H | exact H].
Qed.

(* ===================================================================== *)
(** ** The layout step                                                    *)
(* ===================================================================== *)

Lemma append_assoc_s (a b c : string) : ((a ++ b) ++ c = a ++ (b ++ c))%string.
Proof. induction a as [| x a IH]; simpl; [reflexivity | f_equal; exact IH]. Qed.

Lemma append_cancel_l (a x y : string) : (a ++ x = a ++ y)%string -> x = y.
Proof.
  induction a as [| c a IH]; simpl; intros H; [exact H |].
  injection H as H. apply IH, H.
Qed.

(** A joined path with a non-empty last component is neither the current
    directory nor the root: its node is the one the map holds. *)
Lemma node_at_join fs0 a b :
  b <> EmptyString -> node_at fs0 (path_join a b) = fs0 !! path_join a b.
Proof.
  intros Hb. unfold node_at, path_join.
  destruct a as [| c a]; simpl.
  - destruct b as [| d b]; [congruence | reflexivity].
  - destruct a as [| c' a]; simpl.
    + destruct (Ascii.eqb c "/"); reflexivity.
    + destruct (Ascii.eqb c "/"); reflexivity.
Qed.

Lemma node_at_None fs0 p : node_at fs0 p = None -> fs0 !! p = None.
Proof.
  unfold node_at.
  destruct (String.eqb p EmptyString || String.eqb p "/"); [discriminate | auto].
Qed.

Lemma node_at_mono (f f' : gmap string node) p n :
  f ⊆ f' -> node_at f p = Some n -> node_at f' p = Some n.
Proof.
  unfold node_at. intros Hsub.
  destruct (String.eqb p EmptyString || String.eqb p "/"); [auto |].
  intros H. eapply lookup_weaken; eauto.
Qed.

Lemma node_at_insert f p n : node_at f p = None -> node_at (<[p := n]> f) p = Some n.
Proof.
  unfold node_at.
  destruct (String.eqb p EmptyString || String.eqb p "/"); [discriminate |].
  intros _. apply lookup_insert_eq.
Qed.

(** [Path(p).mkdir(exist_ok=True)] by cases on what is at [p]. *)
Lemma path_mkdir_eq O p s :
  path_mkdir O p s =
  let s1 := add_action (Mkdir p) s in
  match node_at (fs s) p with
  | Some Dir => (inr tt, s1)
  | Some (File _) => (inl FileExistsError, s1)
  | None =>
      match fault O p with
      | Some e => (inl e, s1)
      | None =>
          match node_at (fs s) (dirname p) with
          | Some Dir => (inr tt, set_fs (<[p := Dir]> (fs s)) s1)
          | Some (File _) => (inl NotADirectoryError, s1)
          | None => (inl FileNotFoundError, s1)
          end
      end
  end.
Proof.
  unfold path_mkdir, os_mkdir, bind, try, act, modify, get, raise, ret, is_dir.
  simpl.
  destruct (node_at (fs s) p) as [[| c] |] eqn:E; simpl; try rewrite E;
    try reflexivity.
  destruct (fault O p) as [e |]; simpl.
  - destruct e; simpl; try rewrite E; reflexivity.
  - destruct (node_at (fs s) (dirname p)) as [[| c] |]; simpl; try rewrite E;
      reflexivity.
Qed.

(** [Path(p).touch()] by cases on the host and on what is at [p]. *)
Lemma touch_eq O p s :
  touch O p s =
  let s1 := add_action (Touch p) s in
  match fault O p with
  | Some e => (inl e, s1)
  | None =>
      match node_at (fs s) p with
      | Some _ => (inr tt, s1)
      | None =>
          match node_at (fs s) (dirname p) with
          | Some Dir => (inr tt, set_fs (<[p := File EmptyString]> (fs s)) s1)
          | Some (File _) => (inl NotADirectoryError, s1)
          | None => (inl FileNotFoundError, s1)
          end
      end
  end.
Proof.
  unfold touch, bind, act, modify, get, raise, ret. simpl.
  destruct (fault O p) as [e |]; simpl; [reflexivity |].
  destruct (node_at (fs s) p) as [n |]; simpl; [reflexivity |].
  destruct (node_at (fs s) (dirname p)) as [[| c] |]; reflexivity.
Qed.

Lemma grown_by_refl allowed f : grown_by allowed f f.
Proof. intros q. left. reflexivity. Qed.

Lemma grown_by_trans allowed f1 f2 f3 :
  grown_by allowed f1 f2 -> grown_by allowed f2 f3 -> grown_by allowed f1 f3.
Proof.
  intros H12 H23 q. destruct (H12 q) as [E1 | [N1 I1]], (H23 q) as [E2 | [N2 I2]].
  - left. congruence.
  - right. split; [congruence | exact I2].
  - right. split; [exact N1 | rewrite E2; exact I1].
  - right. split; [exact N1 | exact I2].
Qed.

Lemma grown_by_insert allowed f p n :
  node_at f p = None -> In (p, Some n) allowed ->
  grown_by allowed f (<[p := n]> f).
Proof.
  intros Hn Hin q. destruct (decide (p = q)) as [<- | Hne].
  - right. rewrite lookup_insert_eq. split; [apply node_at_None, Hn | exact Hin].
  - left. apply lookup_insert_ne, Hne.
Qed.

Lemma grown_by_subseteq allowed f f' : grown_by allowed f f' -> f ⊆ f'.
Proof.
  intros H. apply map_subseteq_spec. intros i x Hi.
  destruct (H i) as [E | [N _]]; congruence.
Qed.

Ltac no_some :=
  match goal with
  | H : is_Some None |- _ => destruct H as [? ?]; congruence
  end.

(** What one [mkdir(exist_ok=True)] does to the file system. *)
Lemma path_mkdir_result O p s :
  let r := fst (path_mkdir O p s) in
  let s1 := snd (path_mkdir O p s) in
  (fs s1 = fs s
   \/ (node_at (fs s) p = None /\ r = inr tt /\ fs s1 = <[p := Dir]> (fs s)))
  /\ (r = inr tt -> node_at (fs s1) p = Some Dir)
  /\ (node_at (fs s) p = Some Dir -> r = inr tt /\ fs s1 = fs s)
  /\ msgq s1 = msgq s.
Proof.
  rewrite path_mkdir_eq. cbv zeta.
  destruct (node_at (fs s) p) as [[| c] |] eqn:E; simpl.
  - repeat split; auto.
  - split; [left; reflexivity |]. repeat split; auto; congruence.
  - destruct (fault O p) as [e |]; simpl.
    + split; [left; reflexivity |]. repeat split; auto; congruence.
    + destruct (node_at (fs s) (dirname p)) as [[| c] |]; simpl.
      * split; [right; auto |].
        split; [intros _; apply node_at_insert, E |].
        split; [congruence | reflexivity].
      * split; [left; reflexivity |]. repeat split; auto; congruence.
      * split; [left; reflexivity |]. repeat split; auto; congruence.
Qed.

(** What one [touch()] does to the file system. *)
Lemma touch_result O p s :
  let r := fst (touch O p s) in
  let s1 := snd (touch O p s) in
  (fs s1 = fs s
   \/ (node_at (fs s) p = None /\ r = inr tt
       /\ fs s1 = <[p := File EmptyString]> (fs s)))
  /\ (r = inr tt -> is_Some (node_at (fs s1) p))
  /\ (fault O p = None -> is_Some (node_at (fs s) p) ->
      r = inr tt /\ fs s1 = fs s)
  /\ msgq s1 = msgq s.
Proof.
  rewrite touch_eq. cbv zeta.
  destruct (fault O p) as [e |]; simpl.
  - split; [left; reflexivity |].
    repeat split; auto; congruence.
  - destruct (node_at (fs s) p) as [n |] eqn:E; simpl.
    + repeat split; eauto.
    + destruct (node_at (fs s) (dirname p)) as [[| c] |]; simpl.
      * split; [right; auto |].
        split; [intros _; rewrite node_at_insert by exact E; eauto |].
        split; [intros _ H; no_some | reflexivity].
      * split; [left; reflexivity |].
        repeat split; auto; try congruence; intros; no_some.
      * split; [left; reflexivity |].
        repeat split; auto; try congruence; intros; no_some.
Qed.

(** A [touch()] that returns was not faulted by the host. *)
Lemma touch_ok_no_fault O p s :
  fst (touch O p s) = inr tt -> fault O p = None.
Proof.
  rewrite touch_eq. cbv zeta.
  destruct (fault O p) as [e |]; simpl; [discriminate | reflexivity].
Qed.

(** One turn of the loop of [create_directory_structure]. *)
Lemma create_directories_cons O W d rest s :
  create_directories O W (d :: rest) s =
  match path_mkdir O (path_join (project_dir W) d) s with
  | (inl e, s1) => (inl e, s1)
  | (inr _, s1) =>
      let s2 := add_event (Log ("Created directory: " ++ d ++ "/")) s1 in
      if is_init_directory d then
        match touch O (init_path W d) s2 with
        | (inl e, s3) => (inl e, s3)
        | (inr _, s3) => create_directories O W rest s3
        end
      else create_directories O W rest s2
  end.
Proof.
  change (create_directories O W (d :: rest))
    with (path_mkdir O (path_join (project_dir W) d) ;;
          post (Log ("Created directory: " ++ d ++ "/")) ;;
          (if is_init_directory d then touch O (init_path W d) else ret tt) ;;
          create_directories O W rest).
  unfold bind at 1.
  destruct (path_mkdir O (path_join (project_dir W) d) s) as [[e | []] s1];
    [reflexivity |].
  unfold bind at 1. unfold post at 1, modify at 1. cbv zeta.
  destruct (is_init_directory d).
  - unfold bind at 1.
    destruct (touch O _ _) as [[e | []] s3]; reflexivity.
  - reflexivity.
Qed.

Section LayoutLoop.

Variable O : oracle.
Variable W : worker.

Let dir_path (d : string) : string := path_join (project_dir W) d.

(** The loop only adds nodes, and only those it is meant to add. *)
Lemma create_directories_grown allowed ds :
  (forall d, In d ds ->
             In (dir_path d, Some Dir) allowed
             /\ (is_init_directory d = true ->
                 In (init_path W d, Some (File EmptyString)) allowed)) ->
  forall s, grown_by allowed (fs s) (fs (snd (create_directories O W ds s))).
Proof.
  induction ds as [| d rest IH]; intros Hall s.
  - apply grown_by_refl.
  - rewrite create_directories_cons.
    destruct (Hall d (or_introl eq_refl)) as [Hdir Hinit].
    assert (Hrest : forall d', In d' rest ->
              In (dir_path d', Some Dir) allowed
              /\ (is_init_directory d' = true ->
                  In (init_path W d', Some (File EmptyString)) allowed))
      by (intros d' Hd'; apply Hall; right; exact Hd').
    specialize (IH Hrest).
    pose proof (path_mkdir_result O (dir_path d) s) as (Hd & _).
    fold (dir_path d).
    destruct (path_mkdir O (dir_path d) s) as [[e | []] s1]; simpl in Hd.
    + simpl. destruct Hd as [-> | (_ & Habs & _)];
        [apply grown_by_refl | discriminate Habs].
    + assert (G1 : grown_by allowed (fs s) (fs s1)).
      { destruct Hd as [-> | (Hn & _ & ->)];
          [apply grown_by_refl | apply grown_by_insert; assumption]. }
      cbv zeta. destruct (is_init_directory d) eqn:Hi.
      * set (s2 := add_event _ s1).
        pose proof (touch_result O (init_path W d) s2) as (Ht & _).
        destruct (touch O (init_path W d) s2) as [[e | []] s3]; simpl in Ht.
        -- simpl. destruct Ht as [-> | (_ & Habs & _)];
             [exact G1 | discriminate Habs].
        -- eapply grown_by_trans; [exact G1 |].
           eapply grown_by_trans; [| apply IH].
           destruct Ht as [-> | (Hn & _ & ->)];
             [apply grown_by_refl | apply grown_by_insert; auto].
      * eapply grown_by_trans; [exact G1 | apply (IH (add_event _ s1))].
Qed.

Lemma create_directories_subseteq ds s :
  fs s ⊆ fs (snd (create_directories O W ds s)).
Proof.
  apply (grown_by_subseteq
           (map (fun d => (dir_path d, Some Dir)) ds
            ++ map (fun d => (init_path W d, Some (File EmptyString))) ds)%list).
  apply create_directories_grown. intros d Hd. split.
  - apply in_or_app. left.
    apply (in_map (fun d => (dir_path d, Some Dir)) ds d Hd).
  - intros _. apply in_or_app. right.
    apply (in_map (fun d => (init_path W d, Some (File EmptyString))) ds d Hd).
Qed.

(** When the loop completes, every directory of the list is there, with
    the package marker of those that get one. *)
Lemma create_directories_present ds :
  forall s,
    fst (create_directories O W ds s) = inr tt ->
    forall d, In d ds ->
      node_at (fs (snd (create_directories O W ds s))) (dir_path d) = Some Dir
      /\ (is_init_directory d = true ->
          is_Some (node_at (fs (snd (create_directories O W ds s)))
                           (init_path W d))).
Proof.
  induction ds as [| d0 rest IH]; intros s Hok d Hin; [destruct Hin |].
  revert Hok. rewrite create_directories_cons.
  pose proof (path_mkdir_result O (dir_path d0) s) as (_ & Hd & _).
  fold (dir_path d0).
  destruct (path_mkdir O (dir_path d0) s) as [[e | []] s1]; simpl in Hd;
    [discriminate |].
  specialize (Hd eq_refl). cbv zeta.
  destruct (is_init_directory d0) eqn:Hi.
  - set (s2 := add_event _ s1).
    pose proof (touch_result O (init_path W d0) s2) as (_ & Ht & _).
    destruct (touch O (init_path W d0) s2) as [[e | []] s3] eqn:Et;
      simpl in Ht; [discriminate |].
    specialize (Ht eq_refl). intros Hok.
    assert (Hsub1 : fs s1 ⊆ fs s3).
    { pose proof (touch_result O (init_path W d0) s2) as (Hg & _).
      rewrite Et in Hg. simpl in Hg.
      destruct Hg as [-> | (Hn & _ & ->)]; [reflexivity |].
      apply insert_subseteq, node_at_None, Hn. }
    pose proof (create_directories_subseteq rest s3) as Hsub.
    destruct Hin as [<- | Hin].
    + split.
      * eapply node_at_mono; [exact Hsub |].
        eapply node_at_mono; [exact Hsub1 | exact Hd].
      * intros _. destruct Ht as [n Hn]. exists n.
        eapply node_at_mono; [exact Hsub | exact Hn].
    + apply IH; assumption.
  - intros Hok.
    pose proof (create_directories_subseteq rest
                  (add_event (Log ("Created directory: " ++ d0 ++ "/")) s1))
      as Hsub.
    destruct Hin as [<- | Hin].
    + split; [| congruence].
      eapply node_at_mono; [exact Hsub | exact Hd].
    + apply IH; assumption.
Qed.

(** On a file system that already has the layout, and a host that lets the
    markers be touched, the loop completes and changes nothing. *)
Lemma create_directories_stable ds :
  markers_touchable O W ->
  forall s,
    (forall d, In d ds ->
       node_at (fs s) (dir_path d) = Some Dir
       /\ (is_init_directory d = true ->
           is_Some (node_at (fs s) (init_path W d)))) ->
    fst (create_directories O W ds s) = inr tt
    /\ fs (snd (create_directories O W ds s)) = fs s.
Proof.
  intros Hmark. induction ds as [| d rest IH]; intros s Hall; [auto |].
  rewrite create_directories_cons.
  destruct (Hall d (or_introl eq_refl)) as [Hdir Hinit].
  pose proof (path_mkdir_result O (dir_path d) s) as (_ & _ & Hd & _).
  fold (dir_path d).
  destruct (path_mkdir O (dir_path d) s) as [[e | []] s1]; simpl in Hd;
    destruct (Hd Hdir) as [Hr Hfs]; [discriminate |].
  cbv zeta. destruct (is_init_directory d) eqn:Hi.
  - set (s2 := add_event _ s1).
    pose proof (touch_result O (init_path W d) s2) as (_ & _ & Ht & _).
    assert (Hpre : is_Some (node_at (fs s2) (init_path W d)))
      by (simpl; rewrite Hfs; auto).
    destruct (touch O (init_path W d) s2) as [[e | []] s3]; simpl in Ht;
      destruct (Ht (Hmark d Hi) Hpre) as [Hr3 Hfs3]; [discriminate |].
    destruct (IH s3) as [H1 H2].
    + intros d' Hd'. rewrite Hfs3. simpl. rewrite Hfs. apply Hall. right. auto.
    + split; [exact H1 |]. rewrite H2, Hfs3. simpl. exact Hfs.
  - destruct (IH (add_event (Log ("Created directory: " ++ d ++ "/")) s1))
      as [H1 H2].
    + intros d' Hd'. simpl. rewrite Hfs. apply Hall. right. auto.
    + split; [exact H1 |]. rewrite H2. simpl. exact Hfs.
Qed.

(** A loop that completes has touched the marker of every package
    directory of its list, so the host faults on none of them. *)
Lemma create_directories_touchable ds :
  forall s,
    fst (create_directories O W ds s) = inr tt ->
    forall d, In d ds -> is_init_directory d = true ->
      fault O (init_path W d) = None.
Proof.
  induction ds as [| d0 rest IH]; intros s Hok d Hin Hi; [destruct Hin |].
  revert Hok. rewrite create_directories_cons.
  destruct (path_mkdir O (path_join (project_dir W) d0) s) as [[e | []] s1];
    [discriminate |].
  cbv zeta. destruct (is_init_directory d0) eqn:Hi0.
  - set (s2 := add_event _ s1).
    pose proof (touch_ok_no_fault O (init_path W d0) s2) as Ht.
    destruct (touch O (init_path W d0) s2) as [[e | []] s3]; simpl in Ht;
      [discriminate |].
    intros Hok. destruct Hin as [<- | Hin]; [exact (Ht eq_refl) |].
    exact (IH s3 Hok d Hin Hi).
  - intros Hok. destruct Hin as [<- | Hin]; [congruence |].
    exact (IH _ Hok d Hin Hi).
Qed.

End LayoutLoop.


Lemma create_directory_structure_eq O W s :
  create_directory_structure O W s
  = create_directories O W directories
      (add_action (Enter "create_directory_structure") s).
Proof. reflexivity. Qed.

Lemma init_directory_is_directory d :
  In d init_directories -> In d directories /\ is_init_directory d = true.
Proof.
  intros [<- | [<- | []]]; (split; [simpl; auto | reflexivity]).
Qed.

Lemma markers_touchable_of_list O W :
  (forall d, In d init_directories -> fault O (init_path W d) = None) ->
  markers_touchable O W.
Proof.
  intros H d Hi. apply H. unfold is_init_directory in Hi.
  apply existsb_exists in Hi. destruct Hi as (x & Hx & Heq).
  apply String.eqb_eq in Heq. subst x. exact Hx.
Qed.

(** A layout step that completes shows that the host lets the package
    markers be touched. *)
Lemma layout_done_markers_touchable O W s :
  fst (create_directory_structure O W s) = inr tt -> markers_touchable O W.
Proof.
  intros Hok d Hi.
  apply (create_directories_touchable O W directories
           (add_action (Enter "create_directory_structure") s) Hok d);
    [| exact Hi].
  unfold is_init_directory in Hi. apply existsb_exists in Hi.
  destruct Hi as (x & Hx & Heq). apply String.eqb_eq in Heq. subst x.
  apply (proj1 (init_directory_is_directory d Hx)).
Qed.

(** No package marker has the path of a layout directory. *)
Lemma init_path_not_directory W d d' :
  In d init_directories -> In d' directories ->
  init_path W d <> path_join (project_dir W) d'.
Proof.
  unfold init_path, path_join. intros Hd Hd' H.
  rewrite append_assoc_s in H. apply append_cancel_l in H.
  simpl in Hd, Hd'.
  repeat (destruct Hd as [<- | Hd]);
    repeat (destruct Hd' as [<- | Hd']);
    try contradiction; discriminate H.
Qed.

Lemma layout_nodes_allowed W d :
  In d directories ->
  In (path_join (project_dir W) d, Some Dir) (layout_nodes W)
  /\ (is_init_directory d = true ->
      In (init_path W d, Some (File EmptyString)) (layout_nodes W)).
Proof.
  intros Hd. unfold layout_nodes. split.
  - apply in_or_app. left.
    apply (in_map (fun d => (path_join (project_dir W) d, Some Dir))
                  directories d Hd).
  - intros Hi. apply in_or_app. right.
    apply (in_map (fun d => (init_path W d, Some (File EmptyString)))
                  init_directories d).
    unfold is_init_directory in Hi. apply existsb_exists in Hi.
    destruct Hi as (x & Hx & Heq). apply String.eqb_eq in Heq. subst x.
    exact Hx.
Qed.

Lemma layout_grown O W s :
  grown_by (layout_nodes W) (fs s)
           (fs (snd (create_directory_structure O W s))).
Proof.
  rewrite create_directory_structure_eq.
  apply (create_directories_grown O W (layout_nodes W) directories
           (layout_nodes_allowed W)
           (add_action (Enter "create_directory_structure") s)).
Qed.

Lemma init_path_proper W d fs0 :
  node_at fs0 (init_path W d) = fs0 !! init_path W d.
Proof. apply node_at_join. discriminate. Qed.

(** C10. Whenever the layout step completes, the seven directories are
    there and [src] and [tests] each hold an [__init__.py]: an empty file
    where there was nothing, the node that was there otherwise (touched,
    not truncated). *)
Theorem layout_creates_package_markers O W s :
  fst (create_directory_structure O W s) = inr tt ->
  (forall d, In d directories ->
     node_at (fs (snd (create_directory_structure O W s)))
             (path_join (project_dir W) d) = Some Dir)
  /\ (forall d, In d init_directories ->
        (node_at (fs s) (init_path W d) = None ->
         fs (snd (create_directory_structure O W s)) !! init_path W d
         = Some (File EmptyString))
        /\ (forall n, node_at (fs s) (init_path W d) = Some n ->
              node_at (fs (snd (create_directory_structure O W s)))
                      (init_path W d) = Some n)).
Proof.
  intros Hok.
  pose proof (layout_grown O W s) as Hg.
  rewrite create_directory_structure_eq in *.
  set (s0 := add_action (Enter "create_directory_structure") s) in *.
  pose proof (create_directories_present O W directories s0 Hok) as Hp.
  split; [intros d Hd; apply (Hp d Hd) |].
  intros d Hd. destruct (init_directory_is_directory d Hd) as [Hdir Hi].
  destruct (Hp d Hdir) as [_ Hinit]. specialize (Hinit Hi).
  rewrite init_path_proper in Hinit. split.
  - intros Hn. apply node_at_None in Hn.
    destruct (Hg (init_path W d)) as [E | [_ Hin]].
    + rewrite E, Hn in Hinit. destruct Hinit; congruence.
    + destruct Hinit as [n Hn']. rewrite Hn' in *.
      unfold layout_nodes in Hin. apply in_app_or in Hin.
      destruct Hin as [Hin | Hin]; apply in_map_iff in Hin;
        destruct Hin as (d' & Heq & Hd'); injection Heq as Hpath Hnode.
      * exfalso. eapply init_path_not_directory; eauto.
      * congruence.
  - intros n Hn.
    eapply node_at_mono; [| exact Hn].
    apply (create_directories_subseteq O W directories s0).
Qed.

Lemma layout_creates_package_markers_witness :
  fs (snd (create_directory_structure (host None (always 0))
             (mk_worker demo_dir [] (opts false false false))
             (init_state fs_folder)))
  !! init_path (mk_worker demo_dir [] (opts false false false)) "src"
  = Some (File EmptyString).
Proof.
  destruct (proj2 (layout_creates_package_markers (host None (always 0))
                     (mk_worker demo_dir [] (opts false false false))
                     (init_state fs_folder) eq_refl)
                  "src" (or_introl eq_refl)) as [H _].
  apply H. reflexivity.
Defined.

(* ===================================================================== *)
(** ** The run: catch-all and finalisation                                *)
(* ===================================================================== *)

(** [run] is its [try] body followed by the catch-all and the [finally]
    block. *)
Lemma run_eq O W s :
  run O W s =
  (inr tt,
   let s1 := snd (run_try O W s) in
   let s2 := match fst (run_try O W s) with
             | inr _ => s1
             | inl e =>
                 add_event (Error (format_exc O e))
                   (add_event (Error ("Unexpected error: " ++ exn_text e)) s1)
             end in
   add_event ProgressComplete
     (if success s2 then s2 else add_event (Done fail_text) s2)).
Proof.
  unfold run. unfold bind at 1. rewrite try_eq.
  destruct (run_try O W s) as [[e | []] s1]; simpl.
  - unfold bind, post, modify, get, ret. simpl.
    destruct (success s1); reflexivity.
  - unfold bind, post, modify, get, ret. simpl.
    destruct (success s1); reflexivity.
Qed.

(** The body of the [try] of [run], by cases on the outcome of its steps
    up to the environment. *)
Lemma run_try_eq O W s0 :
  run_try O W s0 =
  let venv := path_join (project_dir W) "venv" in
  match path_mkdir_parents O (rev (ancestors (project_dir W)))
                           (project_dir W) s0 with
  | (inl e, s1) =>
      (inr tt,
       add_event (Error ("Cannot create project folder: " ++ exn_text e)) s1)
  | (inr _, s1) =>
      match create_directory_structure O W (after_folder W s1) with
      | (inl e, s2) => (inl e, s2)
      | (inr _, s2) =>
          let s3 := set_venv_path venv s2 in
          if path_exists (fs s3) venv then
            install_and_finish O W venv
              (add_event (Warn "venv already exists ‚Äî reusing.") s3)
          else
            match create_venv O W venv s3 with
            | (inl e, s4) => (inl e, s4)
            | (inr true, s4) => install_and_finish O W venv s4
            | (inr false, s4) => _cleanup_partial O W s4
            end
      end
  end.
Proof.
  unfold run_try, after_folder. unfold bind, try, post, modify, get, ret.
  destruct (path_mkdir_parents O _ _ s0) as [[e | []] s1]; [reflexivity |].
  destruct (create_directory_structure O W _) as [[e | []] s2];
    [reflexivity |].
  cbv zeta. destruct (path_exists _ _); [reflexivity |].
  destruct (create_venv O W _ _) as [[e | [|]] s4]; reflexivity.
Qed.

Lemma run_try_layout_fault O W s0 s1 e s2 :
  path_mkdir_parents O (rev (ancestors (project_dir W))) (project_dir W) s0
  = (inr tt, s1) ->
  create_directory_structure O W (after_folder W s1) = (inl e, s2) ->
  run_try O W s0 = (inl e, s2).
Proof. intros H1 H2. rewrite run_try_eq, H1, H2. reflexivity. Qed.




(* ===================================================================== *)
(** ** Further properties of the process runner                           *)
(* ===================================================================== *)

(** The loop never raises; it kills the child only when it returns 1 for a
    cancellation, and touches neither [success] nor [venv_path]. *)
Lemma stream_outcome O ch :
  forall rs s,
    exists rc,
      fst (stream O ch rs s) = inr rc
      /\ (trace (snd (stream O ch rs s)) = trace s
          \/ (trace (snd (stream O ch rs s)) = (trace s ++ [Kill])%list
              /\ rc = 1%Z)).
Proof.
  induction rs as [| line rest IH]; intros s.
  - destruct (stop_seen O s) eqn:Hb.
    + rewrite stream_stop by exact Hb. exists 1%Z. simpl. auto.
    + rewrite stream_end by exact Hb. exists (returncode ch). simpl. auto.
  - destruct (stop_seen O s) eqn:Hb.
    + rewrite stream_stop by exact Hb. exists 1%Z. simpl. auto.
    + rewrite stream_next by exact Hb.
      destruct (String.eqb line EmptyString).
      * destruct (IH (tick_stop s)) as (rc & H1 & H2). exists rc. auto.
      * destruct (IH (add_event (Log (rstrip line)) (tick_stop s)))
          as (rc & H1 & H2).
        exists rc. auto.
Qed.

(** [run_command_stream] by cases on the launch and on the loop. *)
Lemma run_command_stream_eq O cmd s :
  run_command_stream O cmd s =
  match popen O cmd s with
  | inl e =>
      (inr 1%Z,
       add_action (Run cmd 1%Z)
         (add_event (Error ("Failed to run command: " ++ str_list cmd ++ nl
                            ++ "Error: " ++ exn_text e)) s))
  | inr ch =>
      match stream O ch (reads ch) s with
      | (inl e, s1) => (inl e, s1)
      | (inr rc, s1) => (inr rc, add_action (Run cmd rc) s1)
      end
  end.
Proof.
  unfold run_command_stream. unfold bind at 1, get.
  destruct (popen O cmd s) as [e | ch]; [reflexivity |].
  unfold bind at 1.
  destruct (stream O ch (reads ch) s) as [[e | rc] s1]; reflexivity.
Qed.

(** X1. [run_command_stream] never raises: every call returns a code,
    whether the launch fails, the child exits or the run is cancelled. The
    call is recorded once, with the code it returned, and the child is
    killed at most once, only on the way to returning 1. A launch that
    fails reads no stop flag, leaves the file system alone and posts one
    error. *)
Theorem run_command_stream_never_raises O cmd s :
  exists rc kills,
    fst (run_command_stream O cmd s) = inr rc
    /\ trace (snd (run_command_stream O cmd s))
       = (trace s ++ kills ++ [Run cmd rc])%list
    /\ (kills = [] \/ (kills = [Kill] /\ rc = 1%Z))
    /\ (forall e, popen O cmd s = inl e ->
          rc = 1%Z /\ kills = []
          /\ fs (snd (run_command_stream O cmd s)) = fs s
          /\ stop_reads (snd (run_command_stream O cmd s)) = stop_reads s
          /\ msgq (snd (run_command_stream O cmd s))
             = (msgq s
                ++ [Error ("Failed to run command: " ++ str_list cmd ++ nl
                           ++ "Error: " ++ exn_text e)])%list).
Proof.
  rewrite run_command_stream_eq.
  destruct (popen O cmd s) as [e | ch] eqn:Hp.
  - exists 1%Z, [].
    split; [reflexivity |]. split; [reflexivity |].
    split; [left; reflexivity |].
    intros e' He'. injection He' as <-. auto.
  - destruct (stream_outcome O ch (reads ch) s) as (rc & H1 & H2).
    destruct (stream O ch (reads ch) s) as [[e | rc'] s1]; simpl in H1, H2;
      [discriminate |].
    injection H1 as ->.
    destruct H2 as [H2 | [H2 ->]].
    + exists rc, []. simpl. rewrite H2.
      split; [reflexivity |]. split; [reflexivity |].
      split; [left; reflexivity |]. intros e' He'. discriminate He'.
    + exists 1%Z, [Kill]. simpl. rewrite H2, <- app_assoc.
      split; [reflexivity |]. split; [reflexivity |].
      split; [right; auto |]. intros e' He'. discriminate He'.
Qed.

(** The loop without cancellation, in full: what it logs, what it returns,
    what the child did and how often the flag was read. *)
Lemma stream_uncancelled_state O ch :
  cancelled_from O = None ->
  forall rs s,
    stream O ch rs s
    = (inr (returncode ch),
       mk_state (on_exit ch (fs s)) (msgq s ++ logs_of rs)%list (trace s)
                (stop_reads s + List.length rs + 1) (success s) (venv_path s)
                (project_size s)).
Proof.
  intros Hk.
  assert (Hs : forall s, stop_seen O s = false)
    by (intros s; unfold stop_seen; rewrite Hk; reflexivity).
  induction rs as [| line rest IH]; intros s.
  - rewrite stream_end by apply Hs. unfold set_fs, tick_stop. simpl.
    rewrite app_nil_r. repeat f_equal. lia.
  - rewrite stream_next by apply Hs. simpl logs_of.
    destruct (String.eqb line EmptyString) eqn:Hl; rewrite IH; simpl.
    + repeat f_equal. lia.
    + rewrite <- app_assoc. simpl. repeat f_equal. lia.
Qed.

(** X2. Without a cancellation the runner streams the whole output: it
    posts one ["log"] item for each read that returned text, in the order of
    the reads and with the trailing white space removed, nothing else; it
    returns the exit code of the child, leaves the file system as the child
    left it, and has read the stop flag once before each read. *)
Theorem run_command_stream_streams_every_line O cmd s ch :
  cancelled_from O = None ->
  popen O cmd s = inr ch ->
  run_command_stream O cmd s
  = (inr (returncode ch),
     mk_state (on_exit ch (fs s)) (msgq s ++ logs_of (reads ch))%list
              (trace s ++ [Run cmd (returncode ch)])%list
              (stop_reads s + List.length (reads ch) + 1)
              (success s) (venv_path s) (project_size s)).
Proof.
  intros Hk Hp. rewrite run_command_stream_eq, Hp.
  rewrite (stream_uncancelled_state O ch Hk). reflexivity.
Qed.

Lemma run_command_stream_streams_every_line_witness :
  msgq (snd (run_command_stream (host None (always 3)) ["pip"; "install"; "aa"]
               (init_state fs_folder)))
  = [Log "Collecting"; Log "done"].
Proof.
  rewrite (run_command_stream_streams_every_line (host None (always 3))
             ["pip"; "install"; "aa"] (init_state fs_folder) (plain_child 3)
             eq_refl eq_refl).
  reflexivity.
Defined.

Lemma run_command_stream_never_raises_witness :
  exists rc,
    fst (run_command_stream no_launch_host ["pip"; "install"; "aa"]
           (init_state fs_folder)) = inr rc
    /\ rc = 1%Z.
Proof.
  destruct (run_command_stream_never_raises no_launch_host
              ["pip"; "install"; "aa"] (init_state fs_folder))
    as (rc & kills & H1 & H2 & H3 & H4).
  exists rc. split; [exact H1 |].
  apply (H4 FileNotFoundError eq_refl).
Defined.

(* ===================================================================== *)
(** ** The installer                                                      *)
(* ===================================================================== *)

(** The outcome of one call of the runner, for the callers' proofs. *)
Lemma run_command_stream_outcome O cmd s :
  exists rc kills,
    fst (run_command_stream O cmd s) = inr rc
    /\ trace (snd (run_command_stream O cmd s))
       = (trace s ++ kills ++ [Run cmd rc])%list
    /\ (kills = [] \/ (kills = [Kill] /\ rc = 1%Z)).
Proof.
  rewrite run_command_stream_eq.
  destruct (popen O cmd s) as [e | ch] eqn:Hp.
  - exists 1%Z, []. auto.
  - destruct (stream_outcome O ch (reads ch) s) as (rc & H1 & H2).
    destruct (stream O ch (reads ch) s) as [[e | rc'] s1]; simpl in H1, H2;
      [discriminate |].
    injection H1 as ->.
    destruct H2 as [H2 | [H2 ->]].
    + exists rc, []. simpl. rewrite H2. auto.
    + exists 1%Z, [Kill]. simpl. rewrite H2, <- app_assoc. auto.
Qed.

Lemma stream_incidental O ch :
  forall rs s,
    exists evs,
      msgq (snd (stream O ch rs s)) = (msgq s ++ evs)%list
      /\ forallb incidental evs = true.
Proof.
  induction rs as [| line rest IH]; intros s.
  - destruct (stop_seen O s) eqn:Hb.
    + rewrite stream_stop by exact Hb. exists [Warn cancelled_text]. auto.
    + rewrite stream_end by exact Hb. exists []. simpl.
      rewrite app_nil_r. auto.
  - destruct (stop_seen O s) eqn:Hb.
    + rewrite stream_stop by exact Hb. exists [Warn cancelled_text]. auto.
    + rewrite stream_next by exact Hb.
      destruct (String.eqb line EmptyString).
      * destruct (IH (tick_stop s)) as (evs & H1 & H2). exists evs. auto.
      * destruct (IH (add_event (Log (rstrip line)) (tick_stop s)))
          as (evs & H1 & H2).
        exists (Log (rstrip line) :: evs). rewrite H1. simpl.
        rewrite <- app_assoc. auto.
Qed.

Lemma run_command_stream_incidental O cmd s :
  exists evs,
    msgq (snd (run_command_stream O cmd s)) = (msgq s ++ evs)%list
    /\ forallb incidental evs = true.
Proof.
  rewrite run_command_stream_eq.
  destruct (popen O cmd s) as [e | ch].
  - eexists. simpl. split; [reflexivity | reflexivity].
  - destruct (stream_incidental O ch (reads ch) s) as (evs & H1 & H2).
    destruct (stream O ch (reads ch) s) as [[e | rc] s1]; simpl in *;
      exists evs; auto.
Qed.

#[local] Arguments is_valid : simpl never.
#[local] Arguments skip_notice : simpl never.

Lemma validate_all_cons pkg rest :
  validate_all (pkg :: rest)
  = ((if is_valid pkg then ret tt else post (skip_notice pkg)) ;;
     valid <- validate_all rest ;;
     ret (if is_valid pkg then pkg :: valid else valid)).
Proof.
  unfold is_valid, skip_notice. simpl validate_all.
  destruct (validate_package_name pkg) as [v m]. reflexivity.
Qed.

(** The validation loop, as one equation. *)
Lemma validate_all_eq pkgs s :
  validate_all pkgs s
  = (inr (List.filter is_valid pkgs),
     mk_state (fs s)
       (msgq s ++ map skip_notice (List.filter (fun p => negb (is_valid p)) pkgs))%list
       (trace s) (stop_reads s) (success s) (venv_path s) (project_size s)).
Proof.
  revert s. induction pkgs as [| pkg rest IH]; intros s.
  - simpl. rewrite app_nil_r. destruct s; reflexivity.
  - rewrite validate_all_cons. unfold bind at 1.
    destruct (is_valid pkg) eqn:Hv.
    + unfold ret at 1. unfold bind at 1. rewrite IH.
      simpl. rewrite Hv. reflexivity.
    + unfold post at 1, modify at 1. unfold bind at 1. rewrite IH.
      simpl. rewrite Hv. simpl. rewrite <- app_assoc. reflexivity.
Qed.

(** X3. The validation loop of the batch installer keeps exactly the
    packages the predicate accepts, in their order, and posts one skip
    notice for each package it rejects, in their order; it does nothing
    else (no process, no file, no read of the stop flag) and never
    raises. *)
Theorem validate_all_filters_and_reports pkgs s :
  validate_all pkgs s
  = (inr (List.filter is_valid pkgs),
     mk_state (fs s)
       (msgq s ++ map skip_notice (List.filter (fun p => negb (is_valid p)) pkgs))%list
       (trace s) (stop_reads s) (success s) (venv_path s) (project_size s)).
Proof. apply validate_all_eq. Qed.

Lemma filter_is_valid_id pkgs :
  forallb is_valid pkgs = true -> List.filter is_valid pkgs = pkgs.
Proof.
  induction pkgs as [| p rest IH]; simpl; [reflexivity |].
  intros H. apply andb_prop in H. destruct H as [Hp Hr].
  rewrite Hp. f_equal. apply IH, Hr.
Qed.

Lemma filter_invalid_nil pkgs :
  forallb is_valid pkgs = true ->
  List.filter (fun p => negb (is_valid p)) pkgs = [].
Proof.
  induction pkgs as [| p rest IH]; simpl; [reflexivity |].
  intros H. apply andb_prop in H. destruct H as [Hp Hr].
  rewrite Hp. simpl. apply IH, Hr.
Qed.

Lemma incidental_filters evs :
  forallb incidental evs = true ->
  List.filter is_progress evs = [] /\ List.filter is_skip_notice evs = [].
Proof.
  induction evs as [| e evs IH]; simpl; [auto |].
  intros H. apply andb_prop in H. destruct H as [He Hr].
  unfold incidental in He. apply andb_prop in He. destruct He as [H1 H2].
  apply negb_true_iff in H1, H2. rewrite H1, H2. apply IH, Hr.
Qed.

Lemma run_cmds_app a b : run_cmds (a ++ b)%list = (run_cmds a ++ run_cmds b)%list.
Proof. apply flat_map_app. Qed.

Lemma run_codes_app a b :
  run_codes (a ++ b)%list = (run_codes a ++ run_codes b)%list.
Proof. apply flat_map_app. Qed.

(** One turn of the loop of [install_packages_individual]. *)
Lemma install_each_cons O pip total idx pkg rest n s :
  install_each O pip total idx (pkg :: rest) n s =
  if stop_seen O s then (inr None, tick_stop s)
  else
    match run_command_stream O (install_cmd pip pkg)
            (add_event (Log ("Installing [" ++ str_nat idx ++ "/"
                             ++ str_nat total ++ "]: " ++ pkg ++ " ..."))
                       (tick_stop s)) with
    | (inl e, s2) => (inl e, s2)
    | (inr rc, s2) =>
        install_each O pip total (S idx) rest
          (if Z.eqb rc 0 then S n else n)
          (add_event (Progress idx total)
             (if Z.eqb rc 0 then s2
              else add_event (Error ("Failed to install: " ++ pkg)) s2))
    end.
Proof.
  change (install_each O pip total idx (pkg :: rest) n)
    with (stop <- is_set O ;;
          if stop then ret None
          else
            post (Log ("Installing [" ++ str_nat idx ++ "/" ++ str_nat total
                       ++ "]: " ++ pkg ++ " ...")) ;;
            rc <- run_command_stream O [pip; "install"; pkg] ;;
            (if Z.eqb rc 0 then ret tt
             else post (Error ("Failed to install: " ++ pkg))) ;;
            post (Progress idx total) ;;
            install_each O pip total (S idx) rest
              (if Z.eqb rc 0 then S n else n)).
  unfold bind at 1. rewrite is_set_eq.
  destruct (stop_seen O s); [reflexivity |].
  unfold bind at 1. unfold post at 1, modify at 1. unfold bind at 1.
  unfold install_cmd.
  destruct (run_command_stream O [pip; "install"; pkg] _) as [[e | rc] s2];
    [reflexivity |].
  destruct (Z.eqb rc 0); reflexivity.
Qed.

(** The loop of the fallback, whatever the cancellation schedule: it
    attempts the packages of a prefix of the list, each once and in order,
    posts the progress of each attempt, and gives the number of zero codes
    when it got through the list, [None] when a check stopped it. *)
Lemma install_each_spec O pip total :
  forall pkgs idx n s,
    exists m acts evs,
      m <= List.length pkgs
      /\ trace (snd (install_each O pip total idx pkgs n s))
         = (trace s ++ acts)%list
      /\ msgq (snd (install_each O pip total idx pkgs n s))
         = (msgq s ++ evs)%list
      /\ run_cmds acts = map (install_cmd pip) (firstn m pkgs)
      /\ List.length (run_codes acts) = m
      /\ List.filter is_progress evs
         = map (fun i => Progress i total) (seq idx m)
      /\ List.filter is_skip_notice evs = []
      /\ (cancelled_from O = None -> m = List.length pkgs)
      /\ ((m = List.length pkgs
           /\ fst (install_each O pip total idx pkgs n s)
              = inr (Some (n + count_zero (run_codes acts))))
          \/ (m < List.length pkgs
              /\ fst (install_each O pip total idx pkgs n s) = inr None)).
Proof.
  induction pkgs as [| pkg rest IH]; intros idx n s.
  - exists 0, [], []. simpl. rewrite !app_nil_r, Nat.add_0_r.
    repeat split; auto.
  - rewrite install_each_cons.
    destruct (stop_seen O s) eqn:Hb.
    + exists 0, [], []. simpl. rewrite !app_nil_r.
      split; [lia |]. do 6 (split; [reflexivity |]).
      split.
      * intros Hn. unfold stop_seen in Hb. rewrite Hn in Hb. discriminate Hb.
      * right. split; [lia | reflexivity].
    + set (s1 := add_event _ (tick_stop s)).
      destruct (run_command_stream_outcome O (install_cmd pip pkg) s1)
        as (rc & kills & H1 & H2 & H3).
      destruct (run_command_stream_incidental O (install_cmd pip pkg) s1)
        as (evr & H4 & H5).
      destruct (run_command_stream O (install_cmd pip pkg) s1)
        as [[e | rc'] s2]; simpl in H1, H2, H4; [discriminate |].
      injection H1 as ->.
      set (s4 := add_event (Progress idx total) _).
      destruct (IH (S idx) (if Z.eqb rc 0 then S n else n) s4)
        as (m & acts & evs & Hm & Ht & Hq & Hc & Hl & Hp & Hk & Hn & Hr).
      assert (Hkills : run_cmds kills = [] /\ run_codes kills = [])
        by (destruct H3 as [-> | [-> _]]; auto).
      destruct Hkills as [Hk1 Hk2].
      destruct (incidental_filters evr H5) as [Hf1 Hf2].
      exists (S m), (kills ++ [Run (install_cmd pip pkg) rc] ++ acts)%list.
      exists ([Log ("Installing [" ++ str_nat idx ++ "/" ++ str_nat total
                    ++ "]: " ++ pkg ++ " ...")]
              ++ evr
              ++ (if Z.eqb rc 0 then []
                  else [Error ("Failed to install: " ++ pkg)])
              ++ [Progress idx total] ++ evs)%list.
      split; [simpl; lia |].
      split.
      { rewrite Ht. unfold s4. destruct (Z.eqb rc 0); simpl; rewrite H2;
          subst s1; simpl; rewrite <- !app_assoc; reflexivity. }
      split.
      { rewrite Hq. unfold s4. destruct (Z.eqb rc 0); simpl; rewrite H4;
          subst s1; simpl; rewrite <- !app_assoc; reflexivity. }
      split.
      { rewrite !run_cmds_app, Hk1, Hc. reflexivity. }
      split.
      { rewrite !run_codes_app, Hk2. simpl. rewrite Hl. reflexivity. }
      split.
      { rewrite !List.filter_app, Hf1, Hp.
        destruct (Z.eqb rc 0); reflexivity. }
      split.
      { rewrite !List.filter_app, Hf2, Hk.
        destruct (Z.eqb rc 0); reflexivity. }
      split.
      { intros Hnone. simpl. rewrite (Hn Hnone). reflexivity. }
      rewrite !run_codes_app, Hk2. simpl run_codes. simpl app.
      destruct Hr as [[Hm' Hr] | [Hm' Hr]].
      * left. split; [simpl; lia |]. rewrite Hr. unfold count_zero. simpl.
        destruct (Z.eqb rc 0); simpl; repeat f_equal; lia.
      * right. split; [simpl; lia | exact Hr].
Qed.

(** The reads of the stop event made by one call of the runner: none when
    the launch fails, otherwise those of the loop. *)
Lemma run_command_stream_schedule O cmd s :
  exists rc kills,
    fst (run_command_stream O cmd s) = inr rc
    /\ trace (snd (run_command_stream O cmd s))
       = (trace s ++ kills ++ [Run cmd rc])%list
    /\ stop_reads s <= stop_reads (snd (run_command_stream O cmd s))
    /\ ((kills = []
         /\ forall k, cancelled_from O = Some k ->
              stop_reads (snd (run_command_stream O cmd s))
              <= Nat.max k (stop_reads s))
        \/ (kills = [Kill] /\ rc = 1%Z
            /\ exists k, cancelled_from O = Some k
                 /\ stop_reads (snd (run_command_stream O cmd s))
                    = Nat.max k (stop_reads s) + 1))
    /\ (forall e, popen O cmd s = inl e ->
          stop_reads (snd (run_command_stream O cmd s)) = stop_reads s)
    /\ (forall ch, popen O cmd s = inr ch ->
          stop_reads s < stop_reads (snd (run_command_stream O cmd s))
          /\ stop_reads (snd (run_command_stream O cmd s))
             <= stop_reads s + S (List.length (reads ch))).
Proof.
  rewrite run_command_stream_eq.
  destruct (popen O cmd s) as [e | ch] eqn:Hp.
  - exists 1%Z, []. cbn [fst snd trace stop_reads add_action add_event app].
    split; [reflexivity |]. split; [reflexivity |]. split; [lia |].
    split; [left; split; [reflexivity | intros; lia] |].
    split; [reflexivity | discriminate].
  - destruct (stream_schedule O ch (reads ch) s)
      as [(H1 & H2 & H3 & H4) | (H1 & H2 & k & Hk & Hle & H3)];
      destruct (stream O ch (reads ch) s) as [[e | rc] s1];
      cbn [fst snd] in *; try discriminate; injection H1 as ->.
    + exists (returncode ch), [].
      cbn [fst snd trace stop_reads add_action app].
      split; [reflexivity |]. split; [rewrite H2; reflexivity |].
      split; [lia |].
      split; [left; split; [reflexivity |]; intros k Hk;
              specialize (H4 k Hk); lia |].
      split; [discriminate |]. intros ch' [= <-]. lia.
    + exists 1%Z, [Kill].
      cbn [fst snd trace stop_reads add_action app].
      split; [reflexivity |].
      split; [rewrite H2, <- app_assoc; reflexivity |].
      split; [lia |].
      split; [right; split; [reflexivity |]; split; [reflexivity |];
              exists k; auto |].
      split; [discriminate |]. intros ch' [= <-]. lia.
Qed.

(** The loop of the fallback and the stop event. A check at the top of a
    turn that finds the event set ends the loop at once. The loop ends
    early only so. A child killed by the runner is the last the loop has
    launched. And the event is read once at the top of each turn, besides
    the reads of the runner. *)
Lemma install_each_schedule O pip total :
  forall pkgs idx n s,
    exists acts,
      trace (snd (install_each O pip total idx pkgs n s))
      = (trace s ++ acts)%list
      /\ (forall k, cancelled_from O = Some k -> k <= stop_reads s ->
            pkgs <> [] ->
            install_each O pip total idx pkgs n s = (inr None, tick_stop s))
      /\ (fst (install_each O pip total idx pkgs n s) = inr None ->
          exists k, cancelled_from O = Some k
                    /\ k < stop_reads (snd (install_each O pip total idx
                                              pkgs n s)))
      /\ (In Kill acts ->
          exists acts' p,
            acts = (acts' ++ [Kill; Run (install_cmd pip p) 1%Z])%list)
      /\ (forall k, cancelled_from O = Some k ->
            stop_reads (snd (install_each O pip total idx pkgs n s))
            <= Nat.max k (stop_reads s) + 2)
      /\ (forall R, reads_bounded O R ->
            stop_reads (snd (install_each O pip total idx pkgs n s))
            <= stop_reads s + (R + 2) * List.length (run_cmds acts) + 1).
Proof.
  induction pkgs as [| pkg rest IH]; intros idx n s.
  - exists []. cbn [install_each]. unfold ret. cbn [fst snd].
    rewrite app_nil_r. split; [reflexivity |].
    split; [intros k _ _ N; congruence |].
    split; [discriminate |]. split; [intros []|].
    split; intros; lia.
  - rewrite install_each_cons.
    destruct (stop_seen O s) eqn:Hb.
    + exists []. cbn [fst snd trace stop_reads tick_stop].
      rewrite app_nil_r. split; [reflexivity |].
      split; [reflexivity |].
      unfold stop_seen in Hb.
      destruct (cancelled_from O) as [k |]; [| discriminate].
      apply Nat.leb_le in Hb.
      split; [intros _; exists k; split; [reflexivity | lia] |].
      split; [intros [] |].
      split; [intros k' [= <-]; lia | intros; lia].
    + set (s1 := add_event _ (tick_stop s)).
      assert (R1 : stop_reads s1 = S (stop_reads s)) by reflexivity.
      destruct (run_command_stream_schedule O (install_cmd pip pkg) s1)
        as (rc & kills & H1 & H2 & H3 & H4 & H5 & H6).
      destruct (run_command_stream O (install_cmd pip pkg) s1)
        as [[e | rc'] s2] eqn:Es2; cbn [fst snd] in *; [discriminate |].
      injection H1 as ->.
      set (s4 := add_event (Progress idx total) _).
      assert (R4 : stop_reads s4 = stop_reads s2)
        by (unfold s4; destruct (Z.eqb rc 0); reflexivity).
      assert (T4 : trace s4 = trace s2)
        by (unfold s4; destruct (Z.eqb rc 0); reflexivity).
      destruct (IH (S idx) (if Z.eqb rc 0 then S n else n) s4)
        as (acts & Ht & HA & HD & HC & HB & HR).
      assert (Unseen : forall k, cancelled_from O = Some k ->
                                 stop_reads s < k).
      { intros k Hk. unfold stop_seen in Hb. rewrite Hk in Hb.
        apply Nat.leb_gt in Hb. exact Hb. }
      assert (After : forall k, cancelled_from O = Some k ->
                        k <= stop_reads s4 ->
                        acts = []
                        /\ stop_reads (snd (install_each O pip total (S idx)
                                              rest
                                              (if Z.eqb rc 0 then S n else n)
                                              s4))
                           <= stop_reads s4 + 1).
      { intros k Hk Hle. destruct rest as [| p' rest'].
        - revert Ht. cbn [install_each]. unfold ret. cbn [snd].
          intros Ht. split; [| lia].
          apply (app_inv_head (trace s4)). rewrite app_nil_r. symmetry.
          exact Ht.
        - revert Ht. rewrite (HA k Hk Hle) by discriminate.
          cbn [snd trace stop_reads tick_stop]. intros Ht. split; [| lia].
          apply (app_inv_head (trace s4)). rewrite app_nil_r. symmetry.
          exact Ht. }
      exists (kills ++ [Run (install_cmd pip pkg) rc] ++ acts)%list.
      split.
      { rewrite Ht, T4, H2. simpl. rewrite <- !app_assoc. reflexivity. }
      split.
      { intros k Hk Hle _. specialize (Unseen k Hk). lia. }
      split; [exact HD |].
      split.
      { intros Hin. apply in_app_or in Hin.
        destruct Hin as [Hin | Hin].
        - destruct H4 as [[-> _] | (-> & -> & k & Hk & Hr)];
            [destruct Hin |].
          destruct (After k Hk) as (-> & _); [lia |].
          exists [], pkg. reflexivity.
        - destruct Hin as [Hin | Hin]; [discriminate Hin |].
          destruct (HC Hin) as (acts' & p & ->).
          exists (kills ++ [Run (install_cmd pip pkg) rc] ++ acts')%list, p.
          rewrite <- !app_assoc. reflexivity. }
      split.
      { intros k Hk. specialize (Unseen k Hk).
        destruct H4 as [[_ Hn] | (_ & _ & k' & Hk' & Hr)].
        - specialize (Hn k Hk). specialize (HB k Hk). lia.
        - assert (k' = k) by congruence. subst k'.
          destruct (After k Hk) as (_ & Hle); lia. }
      intros R HR'.
      assert (Hcmd : stop_reads s2 <= stop_reads s1 + S R).
      { destruct (popen O (install_cmd pip pkg) s1) as [e | ch] eqn:Hp.
        - rewrite (H5 e eq_refl). lia.
        - destruct (H6 ch eq_refl) as (_ & Hle).
          specialize (HR' _ _ _ Hp). lia. }
      specialize (HR R HR').
      assert (Hk1 : run_cmds kills = [])
        by (destruct H4 as [[-> _] | (-> & _)]; reflexivity).
      rewrite !run_cmds_app, Hk1. cbn [run_cmds flat_map app List.length].
      nia.
Qed.

(** [install_packages_individual] by cases on the outcome of its loop. *)
Lemma install_packages_individual_eq O pip pkgs s :
  install_packages_individual O pip pkgs s =
  let total := List.length pkgs in
  match install_each O pip total 1 pkgs 0
          (add_action (Enter "install_packages_individual") s) with
  | (inl e, s1) => (inl e, s1)
  | (inr None, s1) => (inr false, s1)
  | (inr (Some k), s1) =>
      (inr (Nat.eqb k total || Nat.ltb 0 k),
       add_event (fallback_verdict k total) s1)
  end.
Proof.
  unfold install_packages_individual. unfold bind at 1.
  unfold enter, act, modify at 1. cbv zeta. unfold bind at 1.
  destruct (install_each O pip (List.length pkgs) 1 pkgs 0 _)
    as [[e | [k |]] s1]; try reflexivity.
  unfold fallback_verdict.
  destruct (Nat.eqb k (List.length pkgs)); [reflexivity |].
  destruct (Nat.ltb 0 k); reflexivity.
Qed.

Lemma fallback_verdict_incidental k total :
  incidental (fallback_verdict k total) = true.
Proof.
  unfold fallback_verdict.
  destruct (Nat.eqb k total); [reflexivity |].
  destruct (Nat.ltb 0 k); reflexivity.
Qed.

(** The fallback as a whole, for the proofs about its callers. *)
Lemma install_packages_individual_spec O pip pkgs s :
  exists m acts evs b,
    m <= List.length pkgs
    /\ fst (install_packages_individual O pip pkgs s) = inr b
    /\ trace (snd (install_packages_individual O pip pkgs s))
       = (trace s ++ Enter "install_packages_individual" :: acts)%list
    /\ msgq (snd (install_packages_individual O pip pkgs s))
       = (msgq s ++ evs)%list
    /\ run_cmds acts = map (install_cmd pip) (firstn m pkgs)
    /\ List.length (run_codes acts) = m
    /\ List.filter is_progress evs
       = map (fun i => Progress i (List.length pkgs)) (seq 1 m)
    /\ List.filter is_skip_notice evs = []
    /\ (cancelled_from O = None -> m = List.length pkgs)
    /\ (m < List.length pkgs -> b = false)
    /\ (m = List.length pkgs ->
        b = (Nat.eqb (count_zero (run_codes acts)) (List.length pkgs)
             || Nat.ltb 0 (count_zero (run_codes acts)))
        /\ exists evs0,
             evs = (evs0 ++ [fallback_verdict (count_zero (run_codes acts))
                                              (List.length pkgs)])%list).
Proof.
  rewrite install_packages_individual_eq. cbv zeta.
  set (s0 := add_action (Enter "install_packages_individual") s).
  destruct (install_each_spec O pip (List.length pkgs) pkgs 1 0 s0)
    as (m & acts & evs & Hm & Ht & Hq & Hc & Hl & Hp & Hk & Hn & Hr).
  destruct (install_each O pip (List.length pkgs) 1 pkgs 0 s0)
    as [[e | [k |]] s1]; simpl in Ht, Hq, Hr.
  - destruct Hr as [[_ Hr] | [_ Hr]]; discriminate Hr.
  - destruct Hr as [[Hm' Hr] | [_ Hr]]; [| discriminate Hr].
    injection Hr as ->.
    exists m, acts,
      (evs ++ [fallback_verdict (count_zero (run_codes acts))
                                (List.length pkgs)])%list.
    eexists. split; [exact Hm |]. split; [reflexivity |].
    split; [simpl; rewrite Ht; subst s0; simpl; rewrite <- app_assoc;
            reflexivity |].
    split; [simpl; rewrite Hq; subst s0; simpl; rewrite <- app_assoc;
            reflexivity |].
    split; [exact Hc |]. split; [exact Hl |].
    pose proof (fallback_verdict_incidental
                  (count_zero (run_codes acts)) (List.length pkgs)) as Hv.
    unfold incidental in Hv. apply andb_prop in Hv. destruct Hv as [Hv1 Hv2].
    apply negb_true_iff in Hv1, Hv2.
    split; [rewrite List.filter_app; simpl; rewrite Hv2, app_nil_r; exact Hp |].
    split; [rewrite List.filter_app; simpl; rewrite Hv1, app_nil_r; exact Hk |].
    split; [exact Hn |]. split; [lia |].
    intros _. split; [reflexivity |]. exists evs. reflexivity.
  - destruct Hr as [[_ Hr] | [Hm' _]]; [discriminate Hr |].
    exists m, acts, evs, false. split; [exact Hm |]. split; [reflexivity |].
    split; [simpl; rewrite Ht; subst s0; simpl; rewrite <- app_assoc;
            reflexivity |].
    split; [simpl; rewrite Hq; reflexivity |].
    split; [exact Hc |]. split; [exact Hl |].
    split; [exact Hp |]. split; [exact Hk |].
    split; [exact Hn |]. split; [reflexivity |]. lia.
Qed.

(** X4. The per-package fallback never raises and attempts the packages
    one at a time in the order of the list, each at most once: the commands
    it launched are [pip install p] for the packages [p] of a prefix of the
    list, and it posts the progress [i / total] of each attempt, in order.
    Each turn starts with a check of the stop flag: a check that finds the
    flag set ends the loop at once, nothing done; one that does not is
    followed by the command of the package and the next turn. The fallback
    ends before the end of the list only so, the flag being set by its last
    read, and then reports failure whatever was installed before; without a
    cancellation it attempts every package. With the flag set on entry
    nothing is attempted. A child killed by the runner is the last the
    fallback launches, and once the flag is set it is read twice at most. *)
Theorem fallback_attempts_a_prefix_in_order O pip pkgs s :
  (exists m acts evs b,
     m <= List.length pkgs
     /\ fst (install_packages_individual O pip pkgs s) = inr b
     /\ trace (snd (install_packages_individual O pip pkgs s))
        = (trace s ++ Enter "install_packages_individual" :: acts)%list
     /\ msgq (snd (install_packages_individual O pip pkgs s))
        = (msgq s ++ evs)%list
     /\ run_cmds acts = map (install_cmd pip) (firstn m pkgs)
     /\ List.filter is_progress evs
        = map (fun i => Progress i (List.length pkgs)) (seq 1 m)
     /\ (m < List.length pkgs -> b = false)
     /\ (cancelled_from O = None -> m = List.length pkgs)
     /\ (m < List.length pkgs ->
         exists k, cancelled_from O = Some k
                   /\ k < stop_reads (snd (install_packages_individual O pip
                                             pkgs s)))
     /\ (forall k, cancelled_from O = Some k -> k <= stop_reads s ->
           pkgs <> [] ->
           m = 0 /\ acts = [] /\ evs = [] /\ b = false
           /\ stop_reads (snd (install_packages_individual O pip pkgs s))
              = S (stop_reads s))
     /\ (In Kill acts ->
         exists acts' p,
           acts = (acts' ++ [Kill; Run (install_cmd pip p) 1%Z])%list)
     /\ (forall k, cancelled_from O = Some k ->
           stop_reads (snd (install_packages_individual O pip pkgs s))
           <= Nat.max k (stop_reads s) + 2))
  /\ (forall total idx pkg rest n t,
        stop_seen O t = true ->
        install_each O pip total idx (pkg :: rest) n t
        = (inr None, tick_stop t))
  /\ (forall total idx pkg rest n t,
        stop_seen O t = false ->
        exists rc t',
          run_command_stream O (install_cmd pip pkg)
            (add_event (Log ("Installing [" ++ str_nat idx ++ "/"
                             ++ str_nat total ++ "]: " ++ pkg ++ " ..."))
                       (tick_stop t)) = (inr rc, t')
          /\ install_each O pip total idx (pkg :: rest) n t
             = install_each O pip total (S idx) rest
                 (if Z.eqb rc 0 then S n else n)
                 (add_event (Progress idx total)
                    (if Z.eqb rc 0 then t'
                     else add_event (Error ("Failed to install: " ++ pkg))
                                    t'))).
Proof.
  split; [| split].
  - destruct (install_packages_individual_spec O pip pkgs s)
      as (m & acts & evs & b & H1 & H2 & H3 & H4 & H5 & H6 & H7 & H8 & H9
          & H10 & H11).
    exists m, acts, evs, b.
    do 8 (split; [assumption |]).
    revert H2 H3 H4. rewrite install_packages_individual_eq. cbv zeta.
    set (s0 := add_action (Enter "install_packages_individual") s).
    destruct (install_each_spec O pip (List.length pkgs) pkgs 1 0 s0)
      as (m' & acts' & evs' & Hm' & Ht' & Hq' & _ & Hl' & _ & _ & _ & Hr').
    destruct (install_each_schedule O pip (List.length pkgs) pkgs 1 0 s0)
      as (acts2 & Ht2 & HA & HD & HC & HB & _).
    destruct (install_each O pip (List.length pkgs) 1 pkgs 0 s0)
      as [[e | [cnt |]] s1] eqn:E; cbn [fst snd] in *.
    + destruct Hr' as [[_ Hr'] | [_ Hr']]; discriminate Hr'.
    + destruct Hr' as [[Hr' _] | [_ Hr']]; [| discriminate Hr'].
      cbn [trace stop_reads add_event]. intros H2 H3 H4.
      assert (Ea : acts2 = acts).
      { apply (app_inv_head (trace s0)). rewrite <- Ht2, H3. unfold s0.
        cbn [trace add_action]. rewrite <- app_assoc. reflexivity. }
      assert (Ea' : acts' = acts).
      { apply (app_inv_head (trace s0)). rewrite <- Ht', H3. unfold s0.
        cbn [trace add_action]. rewrite <- app_assoc. reflexivity. }
      subst acts2 acts'.
      assert (Em : m = List.length pkgs) by congruence.
      split; [intros N; lia |].
      split.
      { intros k Hk Hle Hne. specialize (HA k Hk Hle Hne). discriminate HA. }
      split; [exact HC | exact HB].
    + destruct Hr' as [[_ Hr'] | [Hr' _]]; [discriminate Hr' |].
      intros H2 H3 H4.
      assert (Ea : acts2 = acts).
      { apply (app_inv_head (trace s0)). rewrite <- Ht2, H3. unfold s0.
        cbn [trace add_action]. rewrite <- app_assoc. reflexivity. }
      subst acts2.
      split; [intros _; apply HD; reflexivity |].
      split.
      { intros k Hk Hle Hne. specialize (HA k Hk Hle Hne).
        injection HA as ->.
        assert (acts = []).
        { apply (app_inv_head (trace s0)). rewrite app_nil_r.
          rewrite <- Ht2. reflexivity. }
        assert (evs = []).
        { apply (app_inv_head (msgq s)). rewrite app_nil_r.
          rewrite <- H4. reflexivity. }
        subst acts evs. injection H2 as <-.
        split; [| auto].
        destruct pkgs as [| p0 ps]; [congruence |].
        destruct m as [| m0]; [reflexivity | discriminate H5]. }
      split; [exact HC | exact HB].
  - intros total idx pkg rest n t Hb. rewrite install_each_cons, Hb.
    reflexivity.
  - intros total idx pkg rest n t Hb. rewrite install_each_cons, Hb.
    destruct (run_command_stream_outcome O (install_cmd pip pkg)
                (add_event (Log ("Installing [" ++ str_nat idx ++ "/"
                                 ++ str_nat total ++ "]: " ++ pkg ++ " ..."))
                           (tick_stop t))) as (rc & kills & H1 & _).
    destruct (run_command_stream O (install_cmd pip pkg) _)
      as [[e | rc'] t']; cbn [fst] in H1; [discriminate |].
    injection H1 as ->. exists rc, t'. split; reflexivity.
Qed.

(** X5. The aggregation policy of the fallback. When every package of a
    non-empty list was attempted, the fallback succeeds exactly when at
    least one command returned zero, and its last event is the verdict:
    the success notice when all returned zero, the warning with the count
    installed over the count requested when only some did, the error when
    none did. *)
Theorem fallback_aggregation_policy O pip pkgs s :
  pkgs <> [] ->
  exists acts evs,
    trace (snd (install_packages_individual O pip pkgs s))
    = (trace s ++ Enter "install_packages_individual" :: acts)%list
    /\ (List.length (run_codes acts) = List.length pkgs ->
        fst (install_packages_individual O pip pkgs s)
        = inr (Nat.ltb 0 (count_zero (run_codes acts)))
        /\ msgq (snd (install_packages_individual O pip pkgs s))
           = (msgq s ++ evs
              ++ [fallback_verdict (count_zero (run_codes acts))
                                   (List.length pkgs)])%list).
Proof.
  intros Hne.
  destruct (install_packages_individual_spec O pip pkgs s)
    as (m & acts & evs & b & H1 & H2 & H3 & H4 & H5 & H6 & H7 & H8 & H9
        & H10 & H11).
  destruct (Nat.eq_dec m (List.length pkgs)) as [Hm | Hm].
  - destruct (H11 Hm) as (Hb & evs0 & He).
    exists acts, evs0. split; [exact H3 |]. intros _.
    split.
    + rewrite H2, Hb. f_equal.
      destruct (Nat.eqb_spec (count_zero (run_codes acts)) (List.length pkgs))
        as [E | E]; [| reflexivity].
      rewrite E. simpl. symmetry. apply Nat.ltb_lt.
      destruct pkgs; [congruence | simpl; lia].
    + rewrite H4, He. reflexivity.
  - exists acts, []. split; [exact H3 |]. intros Hl. lia.
Qed.

Lemma fallback_aggregation_policy_witness :
  fst (install_packages_individual (host None only_aa) demo_pip ["aa"; "bb"]
         (init_state fs_with_venv)) = inr true.
Proof.
  destruct (fallback_aggregation_policy (host None only_aa) demo_pip
              ["aa"; "bb"] (init_state fs_with_venv))
    as (acts & evs & Ht & H); [discriminate |].
  assert (Ha : acts = [Run [demo_pip; "install"; "aa"] 0%Z;
                       Run [demo_pip; "install"; "bb"] 1%Z]).
  { apply (app_inv_head (trace (init_state fs_with_venv))).
    apply (f_equal (fun l => tl l)) in Ht.
    vm_compute in Ht. vm_compute. congruence. }
  subst acts. destruct (H eq_refl) as [Hr _]. exact Hr.
Defined.

(** [install_packages_batch] by cases on its steps. *)
Lemma install_packages_batch_eq O W pip s :
  install_packages_batch O W pip s =
  let s0 := add_action (Enter "install_packages_batch") s in
  match packages W with
  | [] => (inr true, s0)
  | _ =>
      let s1 := add_event (Log ("Installing "
                                ++ str_nat (List.length (packages W))
                                ++ " package(s) in batch...")) s0 in
      let s2 :=
        mk_state (fs s1)
          (msgq s1
           ++ map skip_notice
                (List.filter (fun p => negb (is_valid p)) (packages W)))%list
          (trace s1) (stop_reads s1) (success s1) (venv_path s1)
          (project_size s1) in
      match List.filter is_valid (packages W) with
      | [] => (inr true, add_event (Log "No valid packages to install.") s2)
      | valid =>
          match run_command_stream O ([pip; "install"] ++ valid)%list s2 with
          | (inl e, s3) => (inl e, s3)
          | (inr rc, s3) =>
              if Z.eqb rc 0 then
                (inr true, add_event (Ok "Batch installation successful.") s3)
              else
                install_packages_individual O pip valid
                  (add_event
                     (Warn "Batch installation failed, trying individual packages...")
                     s3)
          end
      end
  end.
Proof.
  unfold install_packages_batch. unfold bind at 1.
  unfold enter, act, modify at 1. cbv zeta.
  destruct (packages W) as [| p0 rest] eqn:Hp; [reflexivity |].
  unfold bind at 1. unfold post at 1, modify at 1.
  unfold bind at 1. rewrite validate_all_eq. cbv zeta.
  destruct (List.filter is_valid (p0 :: rest)) as [| v vs]; [reflexivity |].
  unfold bind at 1.
  destruct (run_command_stream O _ _) as [[e | rc] s3]; [reflexivity |].
  destruct (Z.eqb rc 0); reflexivity.
Qed.

Lemma prefix_nil s : String.prefix EmptyString s = true.
Proof. destruct s; reflexivity. Qed.

Lemma skip_notice_is_skip_notice p : is_skip_notice (skip_notice p) = true.
Proof.
  unfold skip_notice, is_skip_notice. cbv [String.append]. simpl.
  apply prefix_nil.
Qed.

Lemma filter_skip_notices l :
  List.filter is_skip_notice (map skip_notice l) = map skip_notice l.
Proof.
  induction l as [| p l IH]; [reflexivity |].
  change (map skip_notice (p :: l)) with (skip_notice p :: map skip_notice l).
  assert (E : forall x l',
             List.filter is_skip_notice (x :: l')
             = if is_skip_notice x then x :: List.filter is_skip_notice l'
               else List.filter is_skip_notice l') by reflexivity.
  rewrite E, skip_notice_is_skip_notice, IH. reflexivity.
Qed.

Lemma in_firstn {A : Type} (x : A) m (l : list A) : In x (firstn m l) -> In x l.
Proof.
  revert m. induction l as [| y l IH]; intros [| m]; simpl;
    try (intros []; fail); try tauto.
  intros [H | H]; [auto | right; eapply IH; eauto].
Qed.

(** The batch installer as a whole, for the proofs about its callers. *)
Lemma install_packages_batch_spec O W pip s :
  exists acts evs b,
    fst (install_packages_batch O W pip s) = inr b
    /\ trace (snd (install_packages_batch O W pip s))
       = (trace s ++ Enter "install_packages_batch" :: acts)%list
    /\ msgq (snd (install_packages_batch O W pip s)) = (msgq s ++ evs)%list
    /\ (forall cmd, In cmd (run_cmds acts) ->
          exists args,
            cmd = (pip :: "install" :: args)%list
            /\ forall a, In a args ->
                 is_valid a = true /\ In a (packages W))
    /\ List.filter is_skip_notice evs
       = map skip_notice
           (List.filter (fun p => negb (is_valid p)) (packages W))
    /\ (packages W = [] -> b = true /\ acts = [] /\ evs = []).
Proof.
  rewrite install_packages_batch_eq. cbv zeta.
  destruct (packages W) as [| p0 rest] eqn:Hp.
  - exists [], [], true. simpl. rewrite app_nil_r.
    repeat split; auto. intros cmd [].
  - set (pkgs := (p0 :: rest)) in *.
    set (s2 := mk_state _ _ _ _ _ _ _).
    assert (Hvalid : forall a, In a (List.filter is_valid pkgs) ->
                       is_valid a = true /\ In a pkgs).
    { intros a Ha. apply filter_In in Ha. tauto. }
    destruct (List.filter is_valid pkgs) as [| v vs] eqn:Hf.
    + exists [], ([Log ("Installing " ++ str_nat (List.length pkgs)
                         ++ " package(s) in batch...")]
                  ++ map skip_notice
                       (List.filter (fun p => negb (is_valid p)) pkgs)
                  ++ [Log "No valid packages to install."])%list, true.
      split; [reflexivity |]. split; [reflexivity |].
      split; [simpl; rewrite <- !app_assoc; reflexivity |].
      split; [intros cmd [] |].
      split; [| discriminate].
      simpl. rewrite List.filter_app, filter_skip_notices. simpl.
      apply app_nil_r.
    + set (cmd0 := ([pip; "install"] ++ v :: vs)%list).
      destruct (run_command_stream_outcome O cmd0 s2)
        as (rc & kills & H1 & H2 & H3).
      destruct (run_command_stream_incidental O cmd0 s2) as (evr & H4 & H5).
      destruct (incidental_filters evr H5) as [_ Hf2].
      assert (Hkills : run_cmds kills = [])
        by (destruct H3 as [-> | [-> _]]; auto).
      destruct (run_command_stream O cmd0 s2) as [[e | rc'] s3];
        simpl in H1, H2, H4; [discriminate |].
      injection H1 as ->.
      destruct (Z.eqb rc 0).
      * exists (kills ++ [Run cmd0 rc])%list,
          ([Log ("Installing " ++ str_nat (List.length pkgs)
                 ++ " package(s) in batch...")]
           ++ map skip_notice (List.filter (fun p => negb (is_valid p)) pkgs)
           ++ evr ++ [Ok "Batch installation successful."])%list, true.
        split; [reflexivity |].
        split; [simpl; rewrite H2; subst s2; simpl; rewrite <- !app_assoc;
                reflexivity |].
        split; [simpl; rewrite H4; subst s2; simpl; rewrite <- !app_assoc;
                reflexivity |].
        split.
        { intros cmd Hc. rewrite run_cmds_app, Hkills in Hc. simpl in Hc.
          destruct Hc as [<- | []]. exists (v :: vs). auto. }
        split; [| discriminate].
        simpl. rewrite !List.filter_app, filter_skip_notices, Hf2. simpl.
        rewrite app_nil_r. reflexivity.
      * set (s4 := add_event _ s3).
        destruct (install_packages_individual_spec O pip (v :: vs) s4)
          as (m & acts & evs & b & G1 & G2 & G3 & G4 & G5 & G6 & G7 & G8 & _).
        exists (kills ++ [Run cmd0 rc]
                ++ Enter "install_packages_individual" :: acts)%list,
          ([Log ("Installing " ++ str_nat (List.length pkgs)
                 ++ " package(s) in batch...")]
           ++ map skip_notice (List.filter (fun p => negb (is_valid p)) pkgs)
           ++ evr
           ++ [Warn "Batch installation failed, trying individual packages..."]
           ++ evs)%list, b.
        split; [exact G2 |].
        split; [rewrite G3; subst s4; simpl; rewrite H2; subst s2; simpl;
                rewrite <- !app_assoc; reflexivity |].
        split; [rewrite G4; subst s4; simpl; rewrite H4; subst s2; simpl;
                rewrite <- !app_assoc; reflexivity |].
        split.
        { intros cmd Hc. rewrite !run_cmds_app, Hkills in Hc. simpl in Hc.
          destruct Hc as [<- | Hc]; [exists (v :: vs); auto |].
          rewrite G5 in Hc. apply in_map_iff in Hc.
          destruct Hc as (a & <- & Ha). exists [a]. split; [reflexivity |].
          intros a' [<- | []]. apply Hvalid. eapply in_firstn; eauto. }
        split; [| discriminate].
        rewrite !List.filter_app, filter_skip_notices, Hf2, G8. simpl.
        rewrite app_nil_r. reflexivity.
Qed.

(** X6. The batch installer never hands a rejected package to a process:
    every command it launches, in the batch attempt or in the fallback, is
    the installer followed by [install] and by packages of the request that
    the predicate accepts. Each rejected package of the request is reported
    by exactly one skip notice, in the order of the request; the installer
    never raises, and with an empty request it launches nothing and posts
    nothing. *)
Theorem batch_installer_launches_only_valid_packages O W pip s :
  exists acts evs b,
    fst (install_packages_batch O W pip s) = inr b
    /\ trace (snd (install_packages_batch O W pip s))
       = (trace s ++ Enter "install_packages_batch" :: acts)%list
    /\ msgq (snd (install_packages_batch O W pip s)) = (msgq s ++ evs)%list
    /\ (forall cmd, In cmd (run_cmds acts) ->
          exists args,
            cmd = (pip :: "install" :: args)%list
            /\ forall a, In a args ->
                 is_valid a = true /\ In a (packages W))
    /\ List.filter is_skip_notice evs
       = map skip_notice
           (List.filter (fun p => negb (is_valid p)) (packages W))
    /\ (packages W = [] -> b = true /\ acts = [] /\ evs = []).
Proof. apply install_packages_batch_spec. Qed.

Lemma batch_installer_launches_only_valid_packages_witness :
  exists acts evs b,
    fst (install_packages_batch (host None (always 0)) (demo [] false false false)
           demo_pip (init_state fs_with_venv)) = inr b
    /\ b = true /\ acts = ([] : list action) /\ evs = ([] : list event).
Proof.
  destruct (batch_installer_launches_only_valid_packages
              (host None (always 0)) (demo [] false false false) demo_pip
              (init_state fs_with_venv))
    as (acts & evs & b & H1 & _ & _ & _ & _ & H6).
  exists acts, evs, b. split; [exact H1 |]. apply H6. reflexivity.
Defined.

(* ===================================================================== *)
(** ** The run as a whole                                                 *)
(* ===================================================================== *)

Lemma within_progressed forb quiet s s' :
  within forb quiet s s' -> progressed forb quiet s s'.
Proof. intros (H1 & _ & H3 & H4 & H5). unfold progressed. auto. Qed.

Lemma progressed_refl forb quiet s : progressed forb quiet s s.
Proof.
  unfold progressed. repeat split.
  - exists []. rewrite app_nil_r. auto.
  - exists []. rewrite app_nil_r. auto.
  - destruct quiet; lia.
Qed.

Lemma progressed_trans forb quiet s1 s2 s3 :
  progressed forb quiet s1 s2 -> progressed forb quiet s2 s3 ->
  progressed forb quiet s1 s3.
Proof.
  intros (Ha & (e1 & He1 & Hp1) & (a1 & Ha1 & Hq1) & Hr1)
         (Hc & (e2 & He2 & Hp2) & (a2 & Ha2 & Hq2) & Hr2).
  unfold progressed. repeat split.
  - congruence.
  - exists (e1 ++ e2)%list. rewrite He2, He1, app_assoc.
    split; [reflexivity | apply forallb_app_true; assumption].
  - exists (a1 ++ a2)%list. rewrite Ha2, Ha1, app_assoc.
    split; [reflexivity | apply forallb_app_true; assumption].
  - destruct quiet; lia.
Qed.

Lemma progressed_event forb quiet e s :
  plain e = true -> progressed forb quiet s (add_event e s).
Proof.
  intros He. unfold progressed. simpl. repeat split.
  - exists [e]. simpl. rewrite He. auto.
  - exists []. rewrite app_nil_r. auto.
  - destruct quiet; lia.
Qed.

Lemma progressed_set_venv_path forb quiet v s :
  progressed forb quiet s (set_venv_path v s).
Proof.
  unfold progressed. simpl. repeat split.
  - exists []. rewrite app_nil_r. auto.
  - exists []. rewrite app_nil_r. auto.
  - destruct quiet; lia.
Qed.

Section RunFrames.

Variable O : oracle.
Variable W : worker.
Variable forb : list string.

Hypothesis free_layout : may_enter forb "create_directory_structure".
Hypothesis free_batch : may_enter forb "install_packages_batch".
Hypothesis free_individual : may_enter forb "install_packages_individual".
Hypothesis free_cleanup : may_enter forb "_cleanup_partial".
Hypothesis free_requirements : may_enter forb "write_requirements".
Hypothesis free_readme : may_enter forb "create_readme".
Hypothesis free_git : may_enter forb "create_git_repo".
Hypothesis free_size : may_enter forb "calculate_project_size".

Lemma finish_prefix_keeps quiet : keeps forb quiet (finish_prefix O W).
Proof.
  unfold finish_prefix. keeps_auto;
    first [ apply write_requirements_keeps; assumption
          | apply create_readme_keeps; assumption
          | apply create_git_repo_keeps; assumption
          | apply calculate_project_size_keeps; assumption ].
Qed.

Lemma install_step_keeps pip_exec use_python :
  keeps forb false (install_step O W pip_exec use_python).
Proof.
  unfold install_step. keeps_auto;
    first [ apply run_command_stream_keeps
          | apply install_packages_batch_keeps; assumption
          | apply keeps_weaken, cleanup_partial_keeps; assumption ].
Qed.

End RunFrames.

Lemma bind_assoc_at {A B C : Type} (m : M A) (k : A -> M B) (h : B -> M C) s :
  bind (bind m k) h s = bind m (fun a => bind (k a) h) s.
Proof. unfold bind. destruct (m s) as [[e | a] s1]; reflexivity. Qed.

Lemma bind_ext_at {A B : Type} (m : M A) (k1 k2 : A -> M B) s :
  (forall a s1, k1 a s1 = k2 a s1) -> bind m k1 s = bind m k2 s.
Proof. intros H. unfold bind. destruct (m s) as [[e | a] s1]; auto. Qed.

(** Steps 5 to 9 are steps 5 to 8 followed by the closing step. *)
Lemma finish_steps_eq O W s :
  finish_steps O W s =
  match finish_prefix O W s with
  | (inl e, sm) => (inl e, sm)
  | (inr size_str, sm) => (inr tt, closing W size_str sm)
  end.
Proof.
  transitivity
    (bind (finish_prefix O W)
          (fun size_str =>
             modify (set_success true) ;;
             post (Done (ok_text W)) ;;
             post (Summary (project_dir W) size_str
                           (List.length (packages W))
                           (options_get W "create_git" false))) s).
  - unfold finish_steps, finish_prefix.
    repeat (rewrite bind_assoc_at; apply bind_ext_at; intros ? ?).
    reflexivity.
  - unfold bind at 1.
    destruct (finish_prefix O W s) as [[e | size_str] sm]; reflexivity.
Qed.

Lemma cleanup_partial_never_raises O W s : fst (_cleanup_partial O W s) = inr tt.
Proof.
  unfold _cleanup_partial. unfold bind at 1. unfold enter, act, modify at 1.
  unfold bind at 1. unfold get at 1.
  set (s0 := add_action (Enter "_cleanup_partial") s).
  destruct (venv_path s0) as [v |]; [| reflexivity].
  destruct (cleanup_on_cancel W && path_exists (fs s0) v); [| reflexivity].
  unfold bind. rewrite try_eq.
  destruct (fst (rmtree O v s0)); reflexivity.
Qed.

(** Locating the installer and steps 4 to 9, by cases. *)
Lemma install_and_finish_eq O W venv s :
  install_and_finish O W venv s =
  if path_exists (fs s) (which_pip_in_venv O venv) then
    match install_step O W (which_pip_in_venv O venv) false s with
    | (inl e, s1) => (inl e, s1)
    | (inr true, s1) => finish_steps O W s1
    | (inr false, s1) => (inr tt, s1)
    end
  else if path_exists (fs s) (which_python_in_venv O venv) then
    match install_step O W (which_python_in_venv O venv) true
            (add_event (Log "Using python -m pip (pip binary not found).") s)
    with
    | (inl e, s1) => (inl e, s1)
    | (inr true, s1) => finish_steps O W s1
    | (inr false, s1) => (inr tt, s1)
    end
  else
    _cleanup_partial O W
      (add_event (Error "Cannot locate pip in venv. Aborting.") s).
Proof.
  unfold install_and_finish. unfold bind at 1. unfold get at 1.
  destruct (path_exists (fs s) (which_pip_in_venv O venv)).
  - unfold bind at 1.
    destruct (install_step O W _ false s) as [[e | [|]] s1]; reflexivity.
  - destruct (path_exists (fs s) (which_python_in_venv O venv)).
    + unfold bind at 1. unfold post at 1, modify at 1. unfold bind at 1.
      destruct (install_step O W _ true _) as [[e | [|]] s1]; reflexivity.
    + reflexivity.
Qed.

Section RunEnds.

Variable O : oracle.
Variable W : worker.
Variable forb : list string.

Hypothesis free_batch : may_enter forb "install_packages_batch".
Hypothesis free_individual : may_enter forb "install_packages_individual".
Hypothesis free_cleanup : may_enter forb "_cleanup_partial".
Hypothesis free_requirements : may_enter forb "write_requirements".
Hypothesis free_readme : may_enter forb "create_readme".
Hypothesis free_git : may_enter forb "create_git_repo".
Hypothesis free_size : may_enter forb "calculate_project_size".

Lemma finish_steps_ends s :
  ends W forb s (fst (finish_steps O W s)) (snd (finish_steps O W s)).
Proof.
  rewrite finish_steps_eq.
  pose proof (finish_prefix_keeps O W forb free_requirements free_readme
                free_git free_size false s) as K.
  apply within_progressed in K.
  destruct (finish_prefix O W s) as [[e | sz] sm]; simpl in K |- *.
  - exists sm. auto.
  - exists sm. split; [exact K |]. right. eauto.
Qed.

Lemma ends_after s s1 r s' :
  progressed forb false s s1 -> ends W forb s1 r s' -> ends W forb s r s'.
Proof.
  intros H (sm & Hp & Hs). exists sm.
  split; [eapply progressed_trans; eauto | exact Hs].
Qed.

Lemma ends_here s r s' : progressed forb false s s' -> ends W forb s r s'.
Proof. intros H. exists s'. auto. Qed.

Lemma install_and_finish_ends venv s :
  ends W forb s (fst (install_and_finish O W venv s))
       (snd (install_and_finish O W venv s)).
Proof.
  rewrite install_and_finish_eq.
  destruct (path_exists (fs s) (which_pip_in_venv O venv)).
  - pose proof (install_step_keeps O W forb free_batch free_individual
                  free_cleanup (which_pip_in_venv O venv) false s) as K.
    apply within_progressed in K.
    destruct (install_step O W _ false s) as [[e | [|]] s1]; simpl in K |- *.
    + apply ends_here, K.
    + eapply ends_after; [exact K | apply finish_steps_ends].
    + apply ends_here, K.
  - destruct (path_exists (fs s) (which_python_in_venv O venv)).
    + set (s0 := add_event _ s).
      pose proof (install_step_keeps O W forb free_batch free_individual
                    free_cleanup (which_python_in_venv O venv) true s0) as K.
      apply within_progressed in K.
      assert (K0 : progressed forb false s s0)
        by (apply progressed_event; reflexivity).
      destruct (install_step O W _ true s0) as [[e | [|]] s1]; simpl in K |- *.
      * apply ends_here. eapply progressed_trans; eauto.
      * eapply ends_after; [eapply progressed_trans; eauto |].
        apply finish_steps_ends.
      * apply ends_here. eapply progressed_trans; eauto.
    + set (s0 := add_event _ s).
      pose proof (cleanup_partial_keeps O W forb false free_cleanup s0) as K.
      apply within_progressed in K.
      apply ends_here. eapply progressed_trans; [| exact K].
      apply progressed_event. reflexivity.
Qed.

Hypothesis free_layout : may_enter forb "create_directory_structure".
Hypothesis free_venv : may_enter forb "create_venv".

Lemma run_try_ends s :
  ends W forb s (fst (run_try O W s)) (snd (run_try O W s)).
Proof.
  rewrite run_try_eq. cbv zeta.
  pose proof (path_mkdir_parents_keeps O forb false
                (rev (ancestors (project_dir W))) (project_dir W) s) as K1.
  apply within_progressed in K1.
  destruct (path_mkdir_parents O _ _ s) as [[e | []] s1]; simpl in K1 |- *.
  - apply ends_here. eapply progressed_trans; [exact K1 |].
    apply progressed_event. reflexivity.
  - pose proof (create_directory_structure_keeps O W forb false free_layout
                  (after_folder W s1)) as K2.
    apply within_progressed in K2.
    assert (K12 : progressed forb false s (after_folder W s1)).
    { eapply progressed_trans; [exact K1 |].
      apply progressed_event. reflexivity. }
    destruct (create_directory_structure O W (after_folder W s1))
      as [[e | []] s2]; simpl in K2 |- *.
    + apply ends_here. eapply progressed_trans; eauto.
    + set (venv := path_join (project_dir W) "venv").
      set (s3 := set_venv_path venv s2).
      assert (K3 : progressed forb false s s3).
      { eapply progressed_trans; [exact K12 |].
        eapply progressed_trans; [exact K2 |].
        apply progressed_set_venv_path. }
      destruct (path_exists (fs s2) venv).
      * eapply ends_after; [| apply install_and_finish_ends].
        eapply progressed_trans; [exact K3 |].
        apply progressed_event. reflexivity.
      * pose proof (create_venv_keeps O W forb venv free_venv s3) as K4.
        apply within_progressed in K4.
        destruct (create_venv O W venv s3) as [[e | [|]] s4];
          simpl in K4 |- *.
        -- apply ends_here. eapply progressed_trans; eauto.
        -- eapply ends_after; [| apply install_and_finish_ends].
           eapply progressed_trans; eauto.
        -- pose proof (cleanup_partial_keeps O W forb false free_cleanup s4)
             as K5.
           apply within_progressed in K5.
           apply ends_here.
           eapply progressed_trans; [exact K3 |].
           eapply progressed_trans; eauto.
Qed.

End RunEnds.

Lemma done_succeeded_ok_text W : done_succeeded (ok_text W) = true.
Proof.
  unfold done_succeeded, ok_text, ok_mark. cbv [String.append]. simpl.
  reflexivity.
Qed.

Lemma done_succeeded_fail_text : done_succeeded fail_text = false.
Proof. reflexivity. Qed.

Lemma summary_counts_app a b :
  summary_counts (a ++ b)%list = (summary_counts a ++ summary_counts b)%list.
Proof. apply flat_map_app. Qed.

Lemma plain_no_summary evs :
  forallb plain evs = true -> summary_counts evs = [].
Proof.
  induction evs as [| e evs IH]; simpl; [reflexivity |].
  intros H. apply andb_prop in H. destruct H as [He Hr].
  rewrite (IH Hr). destruct e; simpl in *; try reflexivity; discriminate.
Qed.

Lemma finalize_failed s2 :
  success s2 = false ->
  let s' := add_event ProgressComplete
              (if success s2 then s2 else add_event (Done fail_text) s2) in
  success s' = false
  /\ msgq s' = (msgq s2 ++ [Done fail_text; ProgressComplete])%list
  /\ trace s' = trace s2 /\ fs s' = fs s2.
Proof.
  intros H. rewrite H. simpl. rewrite <- app_assoc. auto.
Qed.

Lemma finalize_succeeded s2 :
  success s2 = true ->
  let s' := add_event ProgressComplete
              (if success s2 then s2 else add_event (Done fail_text) s2) in
  success s' = true
  /\ msgq s' = (msgq s2 ++ [ProgressComplete])%list
  /\ trace s' = trace s2 /\ fs s' = fs s2.
Proof.
  intros H. rewrite H. simpl. auto.
Qed.

(** The shape of the queue after [run], for a worker whose [success]
    attribute is still [False]. *)
Lemma run_shape O W s :
  success s = false ->
  exists evs,
    forallb plain evs = true
    /\ ((success (snd (run O W s)) = true
         /\ exists size_str,
              msgq (snd (run O W s))
              = (msgq s ++ evs
                 ++ [Done (ok_text W);
                     Summary (project_dir W) size_str
                             (List.length (packages W))
                             (options_get W "create_git" false);
                     ProgressComplete])%list)
        \/ (success (snd (run O W s)) = false
            /\ msgq (snd (run O W s))
               = (msgq s ++ evs ++ [Done fail_text; ProgressComplete])%list)).
Proof.
  intros Hs. rewrite run_eq. cbv zeta. cbv [snd].
  destruct (run_try_ends O W [] eq_refl eq_refl eq_refl eq_refl eq_refl
              eq_refl eq_refl eq_refl eq_refl s)
    as (sm & (Hsucc & (evs & He & Hpl) & _) & Hend).
  destruct (run_try O W s) as [r s1]. simpl in Hend.
  destruct Hend as [-> | (-> & sz & ->)].
  - destruct r as [e | []].
    + exists (evs ++ [Error ("Unexpected error: " ++ exn_text e);
                      Error (format_exc O e)])%list.
      split; [apply forallb_app_true; [exact Hpl | reflexivity] |].
      right.
      destruct (finalize_failed
                  (add_event (Error (format_exc O e))
                     (add_event (Error ("Unexpected error: " ++ exn_text e))
                                sm)))
        as (F1 & F2 & _); [simpl; congruence |].
      split; [exact F1 |]. etransitivity; [exact F2 |]. simpl.
      rewrite He, <- !app_assoc. reflexivity.
    + exists evs. split; [exact Hpl |]. right.
      destruct (finalize_failed sm) as (F1 & F2 & _); [congruence |].
      split; [exact F1 |]. etransitivity; [exact F2 |].
      rewrite He, <- !app_assoc. reflexivity.
  - exists evs. split; [exact Hpl |]. left.
    destruct (finalize_succeeded (closing W sz sm)) as (F1 & F2 & _);
      [reflexivity |].
    split; [exact F1 |]. exists sz. etransitivity; [exact F2 |]. simpl.
    rewrite He, <- !app_assoc. reflexivity.
Qed.

(** X7. Every run ends its stream of events in the same way, and never
    raises. A run that succeeds ends with the ["done"] item that carries the
    success mark, then the summary, then ["progress_complete"]; a run that
    fails ends with the ["done"] item that carries the failure mark, then
    ["progress_complete"], and posts no summary. Before these items the
    stream holds none of the three kinds: there is one ["done"] per run, and
    its mark agrees with the worker's [success] attribute. *)
Theorem run_closes_its_event_stream O W fs0 :
  fst (run O W (init_state fs0)) = inr tt
  /\ done_succeeded (ok_text W) = true
  /\ done_succeeded fail_text = false
  /\ exists evs,
       forallb plain evs = true
       /\ ((success (run_worker O W fs0) = true
            /\ exists size_str,
                 msgq (run_worker O W fs0)
                 = (evs ++ [Done (ok_text W);
                            Summary (project_dir W) size_str
                                    (List.length (packages W))
                                    (options_get W "create_git" false);
                            ProgressComplete])%list)
           \/ (success (run_worker O W fs0) = false
               /\ msgq (run_worker O W fs0)
                  = (evs ++ [Done fail_text; ProgressComplete])%list)).
Proof.
  split; [rewrite run_eq; reflexivity |].
  split; [apply done_succeeded_ok_text |].
  split; [reflexivity |].
  unfold run_worker.
  destruct (run_shape O W (init_state fs0) eq_refl) as (evs & Hp & H).
  exists evs. split; [exact Hp |]. exact H.
Qed.

(** X8. The package count of the summary is the number of packages
    requested: a run that succeeds posts exactly one summary, whose count is
    the length of the worker's package list whatever the installer skipped
    or failed to install; a run that fails posts none. *)
Theorem summary_counts_requested_packages O W fs0 :
  summary_counts (msgq (run_worker O W fs0))
  = if success (run_worker O W fs0) then [List.length (packages W)] else [].
Proof.
  unfold run_worker.
  destruct (run_shape O W (init_state fs0) eq_refl)
    as (evs & Hp & [(Hs & sz & Hm) | (Hs & Hm)]);
    rewrite Hs, Hm, !summary_counts_app, (plain_no_summary evs Hp);
    reflexivity.
Qed.

Lemma act_ok_forbidden forb quiet m acts :
  forallb (act_ok forb quiet) acts = true ->
  existsb (String.eqb m) forb = true ->
  ~ In (Enter m) acts.
Proof.
  intros Hall Hm Hin. rewrite forallb_forall in Hall.
  specialize (Hall _ Hin). simpl in Hall. rewrite Hm in Hall. discriminate.
Qed.

(** [install_step] by cases on the request and on the path taken. *)
Lemma install_step_eq O W pip_exec use_python s :
  install_step O W pip_exec use_python s =
  match packages W with
  | [] => (inr true, add_event (Log "No packages to install.") s)
  | _ =>
      if use_python then
        match run_command_stream O
                ([pip_exec; "-m"; "pip"] ++ ["install"] ++ packages W)%list s
        with
        | (inl e, s1) => (inl e, s1)
        | (inr rc, s1) =>
            if Z.eqb rc 0 then (inr true, s1)
            else
              (inr false,
               snd (_cleanup_partial O W
                      (add_event (Error "Package installation failed.") s1)))
        end
      else
        match install_packages_batch O W pip_exec s with
        | (inl e, s1) => (inl e, s1)
        | (inr true, s1) => (inr true, s1)
        | (inr false, s1) => (inr false, snd (_cleanup_partial O W s1))
        end
  end.
Proof.
  unfold install_step.
  destruct (packages W) as [| p0 rest]; [reflexivity |].
  destruct use_python.
  - unfold bind at 1.
    destruct (run_command_stream O _ s) as [[e | rc] s1]; [reflexivity |].
    destruct (Z.eqb rc 0); [reflexivity |].
    unfold bind at 1. unfold post at 1, modify at 1. unfold bind at 1.
    pose proof (cleanup_partial_never_raises O W
                  (add_event (Error "Package installation failed.") s1)) as H.
    destruct (_cleanup_partial O W _) as [r s2]. simpl in H. subst r.
    reflexivity.
  - unfold bind at 1.
    destruct (install_packages_batch O W pip_exec s) as [[e | [|]] s1];
      try reflexivity.
    unfold bind at 1.
    pose proof (cleanup_partial_never_raises O W s1) as H.
    destruct (_cleanup_partial O W s1) as [r s2]. simpl in H. subst r.
    reflexivity.
Qed.

Section RunCompleted.

Variable O : oracle.
Variable W : worker.
Variable forb : list string.

Hypothesis free_layout : may_enter forb "create_directory_structure".
Hypothesis free_venv : may_enter forb "create_venv".
Hypothesis free_batch : may_enter forb "install_packages_batch".
Hypothesis free_individual : may_enter forb "install_packages_individual".
Hypothesis free_requirements : may_enter forb "write_requirements".
Hypothesis free_readme : may_enter forb "create_readme".
Hypothesis free_git : may_enter forb "create_git_repo".
Hypothesis free_size : may_enter forb "calculate_project_size".

(** When step 4 lets the run go on it has not called the clean-up. *)
Lemma install_step_true_keeps pip_exec use_python s :
  fst (install_step O W pip_exec use_python s) = inr true ->
  within forb false s (snd (install_step O W pip_exec use_python s)).
Proof.
  rewrite install_step_eq.
  destruct (packages W) as [| p0 rest] eqn:Hp.
  - intros _. apply (keeps_post forb false (Log "No packages to install.")
                       eq_refl s).
  - destruct use_python.
    + pose proof (run_command_stream_keeps O forb
                    ([pip_exec; "-m"; "pip"] ++ ["install"] ++ p0 :: rest)%list
                    s) as K.
      destruct (run_command_stream O _ s) as [[e | rc] s1]; simpl in K |- *;
        [discriminate |].
      destruct (Z.eqb rc 0); simpl; [auto | discriminate].
    + pose proof (install_packages_batch_keeps O W forb pip_exec free_batch
                    free_individual s) as K.
      destruct (install_packages_batch O W pip_exec s) as [[e | [|]] s1];
        simpl in K |- *; [discriminate | auto | discriminate].
Qed.

Lemma install_step_success pip_exec use_python s :
  success (snd (install_step O W pip_exec use_python s)) = success s.
Proof.
  apply (install_step_keeps O W [] eq_refl eq_refl eq_refl
           pip_exec use_python s).
Qed.

Lemma finish_writes_keeps quiet : keeps forb quiet (finish_writes O W).
Proof.
  unfold finish_writes. keeps_auto;
    first [ apply write_requirements_keeps; assumption
          | apply create_readme_keeps; assumption
          | apply create_git_repo_keeps; assumption ].
Qed.

Lemma finish_prefix_eq s :
  finish_prefix O W s =
  match finish_writes O W s with
  | (inl e, s1) => (inl e, s1)
  | (inr _, s1) =>
      let size := tree_size (project_dir W) (fs s1) in
      (inr (format_size size),
       add_event (Info ("Project size: " ++ format_size size))
         (set_project_size size
            (add_action (Enter "calculate_project_size") s1)))
  end.
Proof.
  transitivity
    (bind (finish_writes O W)
          (fun _ =>
             size <- calculate_project_size W ;;
             modify (set_project_size size) ;;
             post (Info ("Project size: " ++ format_size size)) ;;
             ret (format_size size)) s).
  - unfold finish_prefix, finish_writes.
    repeat (rewrite bind_assoc_at; apply bind_ext_at; intros ? ?).
    reflexivity.
  - unfold bind at 1.
    destruct (finish_writes O W s) as [[e | []] s1]; reflexivity.
Qed.

Lemma write_requirements_entered s :
  exists acts,
    trace (snd (write_requirements O W s))
    = (trace s ++ Enter "write_requirements" :: acts)%list.
Proof.
  unfold write_requirements. unfold bind at 1.
  unfold enter, act, modify at 1. cbv zeta.
  set (s0 := add_action (Enter "write_requirements") s).
  match goal with
  | |- context [bind ?m ?k s0] =>
      assert (K : within [] true s0 (snd (bind m k s0)))
  end.
  { apply keeps_bind; [apply keeps_try, write_file_keeps |].
    intros r. destruct r; keeps_auto. }
  destruct K as (_ & _ & _ & (acts & Ht & _) & _).
  exists acts. rewrite Ht. subst s0. simpl. rewrite <- app_assoc. reflexivity.
Qed.

Lemma finish_writes_entered s :
  In (Enter "write_requirements") (trace (snd (finish_writes O W s))).
Proof.
  unfold finish_writes. unfold bind at 1.
  destruct (write_requirements_entered s) as (acts & Ht).
  destruct (write_requirements O W s) as [[e | b] s1]; simpl in Ht |- *.
  - rewrite Ht. apply in_or_app. right. left. reflexivity.
  - match goal with
    | |- context [snd (?m s1)] => assert (K : keeps [] true m)
    end.
    { keeps_auto;
        first [ apply create_readme_keeps; reflexivity
              | apply create_git_repo_keeps; reflexivity ]. }
    destruct (K s1) as (_ & _ & _ & (acts' & Ht' & _) & _).
    rewrite Ht', Ht. apply in_or_app. left.
    apply in_or_app. right. left. reflexivity.
Qed.

Lemma finish_steps_completed s :
  success s = false ->
  success (snd (finish_steps O W s)) = true ->
  completed W forb s (snd (finish_steps O W s)).
Proof.
  intros Hs. rewrite finish_steps_eq, finish_prefix_eq.
  pose proof (finish_writes_keeps false s) as K.
  pose proof (finish_writes_entered s) as Hin.
  destruct (finish_writes O W s) as [[e | []] s1]; simpl in K, Hin |- *.
  - destruct K as (K & _). congruence.
  - intros _.
    set (size := tree_size (project_dir W) (fs s1)).
    exists (add_event (Info ("Project size: " ++ format_size size))
              (set_project_size size
                 (add_action (Enter "calculate_project_size") s1))),
      (format_size size).
    split; [reflexivity |]. split.
    + eapply progressed_trans; [apply within_progressed, K |].
      apply within_progressed.
      apply (keeps_bind forb false
               (act (Enter "calculate_project_size"))
               (fun _ => modify (set_project_size size) ;;
                         post (Info ("Project size: " ++ format_size size)))).
      * apply keeps_enter, free_size.
      * intros _. keeps_auto.
    + simpl. split.
      * apply in_or_app. left. exact Hin.
      * apply in_or_app. right. left. reflexivity.
Qed.

Lemma completed_after s s1 s' :
  progressed forb false s s1 -> completed W forb s1 s' -> completed W forb s s'.
Proof.
  intros H (sm & sz & H1 & H2 & H3 & H4). exists sm, sz.
  split; [exact H1 |]. split; [eapply progressed_trans; eauto | auto].
Qed.

Lemma install_and_finish_completed venv s :
  success s = false ->
  success (snd (install_and_finish O W venv s)) = true ->
  completed W forb s (snd (install_and_finish O W venv s)).
Proof.
  intros Hs. rewrite install_and_finish_eq.
  destruct (path_exists (fs s) (which_pip_in_venv O venv)).
  - pose proof (install_step_true_keeps (which_pip_in_venv O venv) false s)
      as K.
    pose proof (install_step_success (which_pip_in_venv O venv) false s) as S1.
    destruct (install_step O W _ false s) as [[e | [|]] s1];
      simpl in K, S1 |- *; try congruence.
    intros H. eapply completed_after;
      [apply within_progressed, K; reflexivity |].
    apply finish_steps_completed; congruence.
  - destruct (path_exists (fs s) (which_python_in_venv O venv)).
    + set (s0 := add_event _ s).
      pose proof (install_step_true_keeps (which_python_in_venv O venv) true
                    s0) as K.
      pose proof (install_step_success (which_python_in_venv O venv) true s0)
        as S1.
      destruct (install_step O W _ true s0) as [[e | [|]] s1];
        simpl in K, S1 |- *; try congruence.
      intros H. eapply completed_after.
      * apply (progressed_trans forb false s s0 s1);
          [subst s0; apply progressed_event; reflexivity
          | apply within_progressed, K; reflexivity].
      * apply finish_steps_completed; congruence.
    + set (s0 := add_event _ s).
      pose proof (cleanup_partial_keeps O W [] false eq_refl s0) as (K & _).
      simpl in K. congruence.
Qed.

Lemma run_try_completed s :
  success s = false ->
  success (snd (run_try O W s)) = true ->
  completed W forb s (snd (run_try O W s)).
Proof.
  intros Hs. rewrite run_try_eq. cbv zeta.
  pose proof (path_mkdir_parents_keeps O forb false
                (rev (ancestors (project_dir W))) (project_dir W) s) as K1.
  destruct (path_mkdir_parents O _ _ s) as [[e | []] s1]; simpl in K1 |- *.
  - destruct K1 as (K1 & _). congruence.
  - pose proof (create_directory_structure_keeps O W forb false free_layout
                  (after_folder W s1)) as K2.
    assert (K12 : progressed forb false s (after_folder W s1)).
    { eapply progressed_trans; [apply within_progressed, K1 |].
      apply progressed_event. reflexivity. }
    destruct (create_directory_structure O W (after_folder W s1))
      as [[e | []] s2]; simpl in K2 |- *.
    + destruct K1 as (K1 & _), K2 as (K2 & _). simpl in K2. congruence.
    + set (venv := path_join (project_dir W) "venv").
      set (s3 := set_venv_path venv s2).
      assert (K3 : progressed forb false s s3).
      { eapply progressed_trans; [exact K12 |].
        eapply progressed_trans; [apply within_progressed, K2 |].
        apply progressed_set_venv_path. }
      assert (S3 : success s3 = false)
        by (destruct K3 as (K3 & _); congruence).
      destruct (path_exists (fs s2) venv).
      * intros H. eapply completed_after;
          [| apply install_and_finish_completed; [exact S3 | exact H]].
        eapply progressed_trans; [exact K3 |].
        apply progressed_event. reflexivity.
      * pose proof (create_venv_keeps O W forb venv free_venv s3) as K4.
        destruct (create_venv O W venv s3) as [[e | [|]] s4];
          simpl in K4 |- *.
        -- destruct K4 as (K4 & _). congruence.
        -- intros H. eapply completed_after;
             [| apply install_and_finish_completed; [| exact H]].
           ++ eapply progressed_trans; [exact K3 |].
              apply within_progressed, K4.
           ++ destruct K4 as (K4 & _). congruence.
        -- pose proof (cleanup_partial_keeps O W [] false eq_refl s4)
             as (K5 & _).
           destruct K4 as (K4 & _). congruence.
Qed.

End RunCompleted.

(** The catch-all and the [finally] block post events only. *)
Lemma run_final O W s :
  success (snd (run O W s)) = success (snd (run_try O W s))
  /\ trace (snd (run O W s)) = trace (snd (run_try O W s))
  /\ fs (snd (run O W s)) = fs (snd (run_try O W s))
  /\ stop_reads (snd (run O W s)) = stop_reads (snd (run_try O W s))
  /\ venv_path (snd (run O W s)) = venv_path (snd (run_try O W s)).
Proof.
  rewrite run_eq. cbv zeta.
  destruct (run_try O W s) as [[e | []] s1]; simpl;
    destruct (success s1) eqn:E; simpl; rewrite ?E; auto.
Qed.

(** X9. Clean-up and success exclude each other. A run that succeeds has
    entered the manifest step and the size step and has never called
    [_cleanup_partial]; so a run that calls [_cleanup_partial] ends as
    failed. *)
Theorem successful_run_never_cleans_up O W fs0 :
  (success (run_worker O W fs0) = true ->
   In (Enter "write_requirements") (trace (run_worker O W fs0))
   /\ In (Enter "calculate_project_size") (trace (run_worker O W fs0))
   /\ ~ In (Enter "_cleanup_partial") (trace (run_worker O W fs0)))
  /\ (In (Enter "_cleanup_partial") (trace (run_worker O W fs0)) ->
      success (run_worker O W fs0) = false).
Proof.
  assert (H : success (run_worker O W fs0) = true ->
              In (Enter "write_requirements") (trace (run_worker O W fs0))
              /\ In (Enter "calculate_project_size")
                    (trace (run_worker O W fs0))
              /\ ~ In (Enter "_cleanup_partial") (trace (run_worker O W fs0))).
  { unfold run_worker.
    destruct (run_final O W (init_state fs0)) as (F1 & F2 & _).
    rewrite F1, F2. intros Hs.
    destruct (run_try_completed O W ["_cleanup_partial"] eq_refl eq_refl
                eq_refl eq_refl eq_refl eq_refl eq_refl eq_refl
                (init_state fs0) eq_refl Hs)
      as (sm & sz & -> & (_ & _ & (acts & Ht & Hok) & _) & Hw & Hc).
    simpl. split; [exact Hw |]. split; [exact Hc |].
    rewrite Ht. simpl. eapply act_ok_forbidden; [exact Hok | reflexivity]. }
  split; [exact H |].
  intros Hin. destruct (success (run_worker O W fs0)) eqn:Hs; [| reflexivity].
  destruct (H eq_refl) as (_ & _ & Hn). contradiction.
Qed.

Lemma successful_run_never_cleans_up_witness :
  ~ In (Enter "_cleanup_partial")
       (trace (run_worker (host None (always 0)) (demo ["aa"] true false true)
                 fs_folder)).
Proof.
  apply (proj1 (successful_run_never_cleans_up (host None (always 0))
                  (demo ["aa"] true false true) fs_folder)).
  vm_compute. reflexivity.
Defined.

(* ===================================================================== *)
(** ** The folder step and the reuse of an environment                    *)
(* ===================================================================== *)

Lemma only_mkdirs_refl s : only_mkdirs s s.
Proof.
  unfold only_mkdirs. repeat split; auto.
  exists []. rewrite app_nil_r. auto.
Qed.

Lemma only_mkdirs_trans s1 s2 s3 :
  only_mkdirs s1 s2 -> only_mkdirs s2 s3 -> only_mkdirs s1 s3.
Proof.
  intros (A1 & A2 & A3 & a & A4 & A5) (B1 & B2 & B3 & b & B4 & B5).
  unfold only_mkdirs. repeat split; try congruence.
  - etransitivity; eauto.
  - exists (a ++ b)%list. rewrite B4, A4, app_assoc.
    split; [reflexivity | apply forallb_app_true; assumption].
Qed.

(** [os.mkdir(p)] by cases on what is at [p]. *)
Lemma os_mkdir_eq O p s :
  os_mkdir O p s =
  let s1 := add_action (Mkdir p) s in
  match node_at (fs s) p with
  | Some _ => (inl FileExistsError, s1)
  | None =>
      match fault O p with
      | Some e => (inl e, s1)
      | None =>
          match node_at (fs s) (dirname p) with
          | Some Dir => (inr tt, set_fs (<[p := Dir]> (fs s)) s1)
          | Some (File _) => (inl NotADirectoryError, s1)
          | None => (inl FileNotFoundError, s1)
          end
      end
  end.
Proof.
  unfold os_mkdir, bind, act, modify, get, raise. simpl.
  destruct (node_at (fs s) p) as [n |]; [reflexivity |].
  destruct (fault O p) as [e |]; [reflexivity |].
  destruct (node_at (fs s) (dirname p)) as [[| c] |]; reflexivity.
Qed.

Lemma os_mkdir_only_mkdirs O p s : only_mkdirs s (snd (os_mkdir O p s)).
Proof.
  rewrite os_mkdir_eq. cbv zeta. unfold only_mkdirs.
  destruct (node_at (fs s) p) as [n |] eqn:E; simpl.
  - repeat split; auto. exists [Mkdir p]. auto.
  - destruct (fault O p) as [e |]; simpl.
    + repeat split; auto. exists [Mkdir p]. auto.
    + destruct (node_at (fs s) (dirname p)) as [[| c] |]; simpl;
        repeat split; auto; try (exists [Mkdir p]; auto).
      apply insert_subseteq, node_at_None, E.
Qed.

Lemma path_mkdir_only_mkdirs O p s : only_mkdirs s (snd (path_mkdir O p s)).
Proof.
  rewrite path_mkdir_eq. cbv zeta. unfold only_mkdirs.
  destruct (node_at (fs s) p) as [[| c] |] eqn:E; simpl.
  - repeat split; auto. exists [Mkdir p]. auto.
  - repeat split; auto. exists [Mkdir p]. auto.
  - destruct (fault O p) as [e |]; simpl.
    + repeat split; auto. exists [Mkdir p]. auto.
    + destruct (node_at (fs s) (dirname p)) as [[| c] |]; simpl;
        repeat split; auto; try (exists [Mkdir p]; auto).
      apply insert_subseteq, node_at_None, E.
Qed.

Lemma path_mkdir_parents_only_mkdirs O anc :
  forall p s, only_mkdirs s (snd (path_mkdir_parents O anc p s)).
Proof.
  induction anc as [| q anc IH]; intros p s.
  - simpl. unfold bind at 1. rewrite try_eq.
    pose proof (os_mkdir_only_mkdirs O p s) as K.
    destruct (os_mkdir O p s) as [[e | []] s1]; simpl in K |- *;
      [| exact K].
    destruct e; simpl; try exact K;
      unfold bind, get; simpl; destruct (is_dir (fs s1) p); exact K.
  - simpl. unfold bind at 1. rewrite try_eq.
    pose proof (os_mkdir_only_mkdirs O p s) as K.
    destruct (os_mkdir O p s) as [[e | []] s1]; simpl in K |- *;
      [| exact K].
    destruct e; simpl;
      try (unfold bind, get; simpl; destruct (is_dir (fs s1) p); exact K).
    unfold bind at 1. pose proof (IH q s1) as K2.
    destruct (path_mkdir_parents O anc q s1) as [[e | []] s2];
      simpl in K2 |- *.
    + eapply only_mkdirs_trans; eauto.
    + eapply only_mkdirs_trans; [exact K |].
      eapply only_mkdirs_trans; [exact K2 |].
      apply path_mkdir_only_mkdirs.
Qed.

Lemma run_messages O W s :
  exists tail,
    msgq (snd (run O W s)) = (msgq (snd (run_try O W s)) ++ tail)%list.
Proof.
  rewrite run_eq. cbv zeta.
  destruct (run_try O W s) as [[e | []] s1]; simpl;
    destruct (success s1) eqn:E; simpl; rewrite ?E; simpl;
    eexists; rewrite <- ?app_assoc; reflexivity.
Qed.

(** X10. When the project folder cannot be created the run stops at once:
    it posts the folder error, the failure ["done"] item and
    ["progress_complete"], these three and nothing else; all it has done is
    to try to create directories on the way to the project folder: no
    layout, no environment, no process, no clean-up, and the stop flag was
    never read. *)
Theorem folder_fault_stops_the_run O W fs0 e s1 :
  folder_step O W (init_state fs0) = (inl e, s1) ->
  msgq (run_worker O W fs0)
  = [Error ("Cannot create project folder: " ++ exn_text e);
     Done fail_text; ProgressComplete]
  /\ success (run_worker O W fs0) = false
  /\ forallb is_mkdir (trace (run_worker O W fs0)) = true
  /\ stop_reads (run_worker O W fs0) = 0
  /\ venv_path (run_worker O W fs0) = None.
Proof.
  intros Hf. unfold run_worker. rewrite run_eq. cbv zeta.
  pose proof (path_mkdir_parents_only_mkdirs O
                (rev (ancestors (project_dir W))) (project_dir W)
                (init_state fs0)) as K.
  pose proof (path_mkdir_parents_keeps O [] true
                (rev (ancestors (project_dir W))) (project_dir W)
                (init_state fs0)) as K'.
  rewrite run_try_eq. unfold folder_step in Hf. rewrite Hf in *.
  simpl in K, K'.
  destruct K as (K1 & K2 & _ & acts & K4 & K5).
  destruct K' as (K6 & K7 & _).
  simpl. rewrite K6. simpl. rewrite K6. simpl. rewrite K1, K4, K2, K7.
  simpl. auto.
Qed.

Lemma folder_fault_stops_the_run_witness :
  msgq (run_worker readonly_host (demo ["aa"] true true true) ∅)
  = [Error "Cannot create project folder: [Errno 13] Permission denied";
     Done fail_text; ProgressComplete].
Proof.
  refine (proj1 (folder_fault_stops_the_run readonly_host
                   (demo ["aa"] true true true) ∅ PermissionError
                   (snd (folder_step readonly_host (demo ["aa"] true true true)
                           (init_state ∅))) _)).
  vm_compute. reflexivity.
Defined.

Lemma layout_reached_subseteq O W s s1 s2 :
  path_mkdir_parents O (rev (ancestors (project_dir W))) (project_dir W) s
  = (inr tt, s1) ->
  create_directory_structure O W (after_folder W s1) = (inr tt, s2) ->
  fs s ⊆ fs s2.
Proof.
  intros H1 H2.
  pose proof (path_mkdir_parents_only_mkdirs O
                (rev (ancestors (project_dir W))) (project_dir W) s) as K.
  rewrite H1 in K. destruct K as (_ & _ & K & _). simpl in K.
  etransitivity; [exact K |].
  rewrite create_directory_structure_eq in H2.
  pose proof (create_directories_subseteq O W directories
                (add_action (Enter "create_directory_structure")
                            (after_folder W s1))) as K2.
  rewrite H2 in K2. exact K2.
Qed.

Lemma path_exists_mono (f f' : gmap string node) p :
  f ⊆ f' -> path_exists f p = true -> path_exists f' p = true.
Proof.
  unfold path_exists. intros Hs.
  destruct (node_at f p) as [n |] eqn:E; [| discriminate].
  rewrite (node_at_mono f f' p n Hs E). reflexivity.
Qed.

Lemma ends_messages W forb s r s' e :
  ends W forb s r s' -> In e (msgq s) -> In e (msgq s').
Proof.
  intros (sm & (_ & (evs & Hm & _) & _) & Hs) Hin.
  assert (Hsm : In e (msgq sm)) by (rewrite Hm; apply in_or_app; auto).
  destruct Hs as [-> | (_ & sz & ->)]; [exact Hsm |].
  unfold closing. simpl. apply in_or_app. left. apply in_or_app. auto.
Qed.

Lemma ends_trace W forb s r s' :
  ends W forb s r s' ->
  exists acts, trace s' = (trace s ++ acts)%list
               /\ forallb (act_ok forb false) acts = true.
Proof.
  intros (sm & (_ & _ & (acts & Ht & Ha) & _) & Hs).
  exists acts. destruct Hs as [-> | (_ & sz & ->)]; auto.
Qed.

Section RunReuse.

Variable O : oracle.
Variable W : worker.
Variable forb : list string.

Hypothesis free_batch : may_enter forb "install_packages_batch".
Hypothesis free_individual : may_enter forb "install_packages_individual".
Hypothesis free_cleanup : may_enter forb "_cleanup_partial".
Hypothesis free_requirements : may_enter forb "write_requirements".
Hypothesis free_readme : may_enter forb "create_readme".
Hypothesis free_git : may_enter forb "create_git_repo".
Hypothesis free_size : may_enter forb "calculate_project_size".
Hypothesis free_layout : may_enter forb "create_directory_structure".

(** With the environment's path taken at the start, the body of [run]
    needs no leave to enter [create_venv]; and either it stops before the
    environment step, or it posts the reuse notice. *)
Lemma run_try_reuse s :
  path_exists (fs s) (venv_of W) = true ->
  ends W forb s (fst (run_try O W s)) (snd (run_try O W s))
  /\ (venv_path (snd (run_try O W s)) = venv_path s
      \/ In reuse_notice (msgq (snd (run_try O W s)))).
Proof.
  intros Hex. rewrite run_try_eq. cbv zeta.
  pose proof (path_mkdir_parents_keeps O forb false
                (rev (ancestors (project_dir W))) (project_dir W) s) as K1.
  pose proof (layout_reached_subseteq O W s) as G.
  destruct (path_mkdir_parents O _ _ s) as [[e | []] s1]; simpl in K1 |- *.
  - split.
    + apply ends_here. eapply progressed_trans;
        [apply within_progressed; exact K1 |].
      apply progressed_event. reflexivity.
    + left. apply K1.
  - pose proof (create_directory_structure_keeps O W forb false free_layout
                  (after_folder W s1)) as K2.
    assert (K12 : progressed forb false s (after_folder W s1)).
    { eapply progressed_trans; [apply within_progressed; exact K1 |].
      apply progressed_event. reflexivity. }
    specialize (G s1).
    destruct (create_directory_structure O W (after_folder W s1))
      as [[e | []] s2]; simpl in K2 |- *.
    + split.
      * apply ends_here. eapply progressed_trans;
          [exact K12 | apply within_progressed; exact K2].
      * left. destruct K2 as (_ & -> & _). simpl. apply K1.
    + fold (venv_of W).
      rewrite (path_exists_mono (fs s) (fs s2) (venv_of W)
                 (G s2 eq_refl eq_refl) Hex).
      set (s3 := add_event _ (set_venv_path (venv_of W) s2)).
      pose proof (install_and_finish_ends O W forb free_batch free_individual
                    free_cleanup free_requirements free_readme free_git
                    free_size (venv_of W) s3) as E.
      split.
      * eapply ends_after; [| exact E].
        eapply progressed_trans; [exact K12 |].
        eapply progressed_trans; [apply within_progressed; exact K2 |].
        eapply progressed_trans; [apply progressed_set_venv_path |].
        apply progressed_event. reflexivity.
      * right. eapply ends_messages; [exact E |].
        unfold s3. simpl. apply in_or_app. right. left. reflexivity.
Qed.

End RunReuse.

Lemma existing_environment_reused_lemma O W fs0 :
  path_exists fs0 (venv_of W) = true ->
  ~ In (Enter "create_venv") (trace (run_worker O W fs0))
  /\ (venv_path (run_worker O W fs0) = None
      \/ In reuse_notice (msgq (run_worker O W fs0))).
Proof.
  intros Hex. unfold run_worker.
  destruct (run_final O W (init_state fs0)) as (_ & Ht & _ & _ & Hv).
  destruct (run_messages O W (init_state fs0)) as (tail & Hm).
  assert (M : forall m, may_enter ["create_venv"] m \/ m = "create_venv").
  { intros m. unfold may_enter. simpl.
    destruct (String.eqb_spec m "create_venv"); auto. }
  destruct (run_try_reuse O W ["create_venv"] eq_refl eq_refl eq_refl eq_refl
              eq_refl eq_refl eq_refl eq_refl (init_state fs0) Hex)
    as (E & N).
  split.
  - rewrite Ht. destruct (ends_trace _ _ _ _ _ E) as (acts & Ha & Hok).
    rewrite Ha. simpl. intros Hin.
    rewrite forallb_forall in Hok. specialize (Hok _ Hin). discriminate.
  - rewrite Hv, Hm. destruct N as [N | N]; [left; exact N |].
    right. apply in_or_app. auto.
Qed.

(** X11. A project whose [venv] path is already taken is never given a new
    environment: [create_venv] is not entered, whatever else happens; and
    unless the run stops before its environment step, it warns that the
    existing environment is reused. *)
Theorem existing_environment_is_reused O W fs0 :
  path_exists fs0 (venv_of W) = true ->
  ~ In (Enter "create_venv") (trace (run_worker O W fs0))
  /\ (venv_path (run_worker O W fs0) = None
      \/ In reuse_notice (msgq (run_worker O W fs0))).
Proof.
  apply existing_environment_reused_lemma.
Qed.

Lemma existing_environment_is_reused_witness :
  ~ In (Enter "create_venv")
       (trace (run_worker (host None (always 0)) (demo ["aa"] true false true)
                          fs_with_venv)).
Proof.
  refine (proj1 (existing_environment_is_reused (host None (always 0))
                   (demo ["aa"] true false true) fs_with_venv _)).
  vm_compute. reflexivity.
Defined.

(* ===================================================================== *)
(** ** The footprint of a run                                             *)
(* ===================================================================== *)

Lemma contains_sep_app a b : contains "/" (a ++ "/" ++ b) = true.
Proof.
  induction a as [| c a IH].
  { change (contains "/" (String "/" b) = true).
    cbn [contains String.prefix].
    destruct (ascii_dec "/" "/") as [_ | N]; [| congruence].
    rewrite prefix_nil. reflexivity. }
  change (contains "/" (String c (a ++ "/" ++ b)) = true).
  cbn [contains]. rewrite IH. apply orb_true_r.
Qed.

Lemma before_last_sep_join a b :
  contains "/" b = false -> before_last_sep (a ++ "/" ++ b) = a.
Proof.
  intros Hb. induction a as [| c a IH].
  - change (before_last_sep (String "/" b) = EmptyString).
    cbn [before_last_sep]. rewrite Hb. reflexivity.
  - change (before_last_sep (String c (a ++ "/" ++ b)) = String c a).
    cbn [before_last_sep]. rewrite contains_sep_app, IH. reflexivity.
Qed.

(** The parent of [a / b] is [a], for a name [b] and a directory [a] other
    than the current one. *)
Lemma dirname_path_join a b :
  a <> EmptyString -> contains "/" b = false -> dirname (path_join a b) = a.
Proof.
  intros Ha Hb. unfold dirname, path_join.
  rewrite (before_last_sep_join a b Hb).
  destruct a as [| c a]; [congruence | reflexivity].
Qed.

Lemma probe_in_project_folder W :
  project_dir W <> EmptyString ->
  probe_of W = path_join (project_dir W) ".write_test".
Proof.
  intros H. unfold probe_of, venv_of.
  rewrite dirname_path_join; auto.
Qed.

Lemma tidy_refl W s : tidy W s s.
Proof.
  intros H. split; [exact H |]. exists []. rewrite app_nil_r. auto.
Qed.

Lemma tidy_trans W s1 s2 s3 : tidy W s1 s2 -> tidy W s2 s3 -> tidy W s1 s3.
Proof.
  intros H12 H23 H1.
  destruct (H12 H1) as (H2 & a & Ha & Hpa).
  destruct (H23 H2) as (H3 & b & Hb & Hpb).
  split; [exact H3 |]. exists (a ++ b)%list.
  rewrite Hb, Ha, app_assoc.
  split; [reflexivity | apply forallb_app_true; assumption].
Qed.

Section Tidily.

Variable W : worker.

Lemma tidily_ret {A : Type} (a : A) : tidily W (ret a).
Proof. intros s. apply tidy_refl. Qed.

Lemma tidily_raise {A : Type} (e : exn) : tidily W (@raise A e).
Proof. intros s. apply tidy_refl. Qed.

Lemma tidily_get : tidily W get.
Proof. intros s. apply tidy_refl. Qed.

Lemma tidily_bind {A B : Type} (m : M A) (k : A -> M B) :
  tidily W m -> (forall a, tidily W (k a)) -> tidily W (bind m k).
Proof.
  intros Hm Hk s. unfold bind. specialize (Hm s).
  destruct (m s) as [[e | a] s1]; simpl in *; [exact Hm |].
  eapply tidy_trans; [exact Hm | apply Hk].
Qed.

Lemma tidily_try {A : Type} (m : M A) : tidily W m -> tidily W (try m).
Proof. intros Hm s. rewrite try_eq. apply Hm. Qed.

(** A change of the state that leaves the trace and [venv_path] alone. *)
Lemma tidily_modify (f : state -> state) :
  (forall s, venv_path (f s) = venv_path s) ->
  (forall s, trace (f s) = trace s) ->
  tidily W (modify f).
Proof.
  intros Hv Ht s H. simpl. split.
  - unfold venv_ok. rewrite Hv. exact H.
  - exists []. rewrite app_nil_r, Ht. auto.
Qed.

Lemma tidily_post (e : event) : tidily W (post e).
Proof. apply tidily_modify; intros; reflexivity. Qed.

Lemma tidily_act (a : action) : footprint W a = true -> tidily W (act a).
Proof.
  intros Ha s H. simpl. split; [exact H |].
  exists [a]. simpl. rewrite Ha. auto.
Qed.

Lemma tidily_set_venv_path : tidily W (modify (set_venv_path (venv_of W))).
Proof.
  intros s H. simpl. split; [right; reflexivity |].
  exists []. rewrite app_nil_r. auto.
Qed.

Lemma tidily_is_set O : tidily W (is_set O).
Proof.
  intros s H. simpl. split; [exact H |].
  exists []. rewrite app_nil_r. auto.
Qed.

End Tidily.

(** One step of the decomposition of a piece of worker code. *)
Ltac tidily_step :=
  match goal with
  | |- tidily _ (bind _ _) => apply tidily_bind; [| intros ?]
  | |- tidily _ (ret _) => apply tidily_ret
  | |- tidily _ (raise _) => apply tidily_raise
  | |- tidily _ get => apply tidily_get
  | |- tidily _ (try _) => apply tidily_try
  | |- tidily _ (post _) => apply tidily_post
  | |- tidily _ (enter _) => apply tidily_act; reflexivity
  | H : footprint ?W ?a = true |- tidily ?W (act ?a) =>
      exact (tidily_act W a H)
  | |- tidily _ (act (Run _ _)) => apply tidily_act; reflexivity
  | |- tidily _ (act Kill) => apply tidily_act; reflexivity
  | |- tidily _ (act (SubprocessRun _)) => apply tidily_act; reflexivity
  | |- tidily _ (modify (set_venv_path _)) => apply tidily_set_venv_path
  | |- tidily _ (modify _) => apply tidily_modify; intros; reflexivity
  | |- tidily _ (is_set _) => apply tidily_is_set
  | |- tidily _ (match ?x with _ => _ end) => destruct x
  end.

Ltac tidily_auto := repeat tidily_step.

Lemma rmtree_eq O p s :
  rmtree O p s =
  let s1 := add_action (Rmtree p) s in
  match node_at (fs s) p with
  | Some Dir =>
      match rmtree_fault O p (fs s) with
      | None => (inr tt, set_fs (remove_tree p (fs s)) s1)
      | Some (e, removed) =>
          (inl e, set_fs (remove_part p removed (fs s)) s1)
      end
  | Some (File _) => (inl NotADirectoryError, s1)
  | None => (inl FileNotFoundError, s1)
  end.
Proof.
  unfold rmtree, bind, act, modify, get, raise. simpl.
  destruct (node_at (fs s) p) as [[| c] |]; try reflexivity.
  destruct (rmtree_fault O p (fs s)) as [[e removed] |]; reflexivity.
Qed.

(** [_cleanup_partial] by cases: what it removes and what it posts. *)
Lemma cleanup_partial_eq O W s :
  _cleanup_partial O W s =
  let s0 := add_action (Enter "_cleanup_partial") s in
  match venv_path s with
  | Some venv =>
      if cleanup_on_cancel W && path_exists (fs s) venv then
        match rmtree O venv s0 with
        | (inr _, s1) =>
            (inr tt, add_event (Log "Cleaned up partial virtual environment.") s1)
        | (inl e, s1) =>
            (inr tt, add_event (Warn ("Failed to cleanup: " ++ exn_text e)) s1)
        end
      else (inr tt, s0)
  | None => (inr tt, s0)
  end.
Proof.
  unfold _cleanup_partial. unfold bind at 1. unfold enter, act, modify at 1.
  cbv zeta. unfold bind at 1. unfold get at 1. simpl.
  destruct (venv_path s) as [v |]; [| reflexivity].
  destruct (cleanup_on_cancel W && path_exists (fs s) v); [| reflexivity].
  unfold bind at 1. rewrite try_eq.
  destruct (rmtree O v _) as [[e | []] s1]; reflexivity.
Qed.

Section Footprint.

Variable O : oracle.
Variable W : worker.

Lemma os_mkdir_tidily p :
  footprint W (Mkdir p) = true -> tidily W (os_mkdir O p).
Proof. intros H. unfold os_mkdir. tidily_auto. Qed.

Lemma path_mkdir_tidily p :
  footprint W (Mkdir p) = true -> tidily W (path_mkdir O p).
Proof.
  intros H. unfold path_mkdir. tidily_auto; apply os_mkdir_tidily, H.
Qed.

Lemma path_mkdir_parents_tidily anc :
  forall p, (forall q, In q (p :: anc) -> footprint W (Mkdir q) = true) ->
            tidily W (path_mkdir_parents O anc p).
Proof.
  induction anc as [| q anc IH]; intros p H; simpl; tidily_auto;
    first [ apply os_mkdir_tidily, H; left; reflexivity
          | apply path_mkdir_tidily, H; left; reflexivity
          | apply IH; intros r Hr; apply H; right; exact Hr ].
Qed.

Lemma touch_tidily p : footprint W (Touch p) = true -> tidily W (touch O p).
Proof. intros H. unfold touch. tidily_auto. Qed.

Lemma unlink_tidily p : footprint W (Unlink p) = true -> tidily W (unlink O p).
Proof. intros H. unfold unlink. tidily_auto. Qed.

Lemma write_file_tidily p c :
  footprint W (WriteFile p) = true -> tidily W (write_file O p c).
Proof. intros H. unfold write_file. tidily_auto. Qed.

Lemma sub_run_tidily cmd : tidily W (sub_run O cmd).
Proof. unfold sub_run. tidily_auto. Qed.

Lemma stream_tidily ch rs : tidily W (stream O ch rs).
Proof.
  induction rs as [| line rest IH]; rewrite stream_unfold; tidily_auto.
  exact IH.
Qed.

Lemma run_command_stream_tidily cmd : tidily W (run_command_stream O cmd).
Proof. unfold run_command_stream. tidily_auto. apply stream_tidily. Qed.

Lemma footprint_layout_directory d :
  In d directories -> footprint W (Mkdir (path_join (project_dir W) d)) = true.
Proof.
  intros H. unfold footprint. apply orb_true_iff. right.
  apply existsb_exists. exists d. split; [exact H | apply String.eqb_refl].
Qed.

Lemma footprint_package_marker d :
  existsb (String.eqb d) init_directories = true ->
  footprint W (Touch (path_join (path_join (project_dir W) d) "__init__.py"))
  = true.
Proof.
  intros H. apply existsb_exists in H. destruct H as (d' & Hin & He).
  apply String.eqb_eq in He. subst d'.
  unfold footprint. apply orb_true_iff. right.
  apply existsb_exists. exists d. split; [exact Hin | apply String.eqb_refl].
Qed.

Lemma create_directories_tidily ds :
  (forall d, In d ds -> In d directories) ->
  tidily W (create_directories O W ds).
Proof.
  induction ds as [| d ds IH]; intros H; cbn [create_directories];
    [apply tidily_ret |].
  apply tidily_bind;
    [apply path_mkdir_tidily, footprint_layout_directory, H; left; reflexivity |].
  intros _. apply tidily_bind; [apply tidily_post |]. intros _.
  apply tidily_bind.
  - destruct (existsb (String.eqb d) init_directories) eqn:E;
      [apply touch_tidily, footprint_package_marker, E | apply tidily_ret].
  - intros _. apply IH. intros d' Hd. apply H. right. exact Hd.
Qed.

Lemma create_directory_structure_tidily :
  tidily W (create_directory_structure O W).
Proof.
  unfold create_directory_structure. tidily_auto.
  apply create_directories_tidily. auto.
Qed.

Lemma footprint_probe_touch : footprint W (Touch (probe_of W)) = true.
Proof. unfold footprint. rewrite String.eqb_refl. reflexivity. Qed.

Lemma footprint_probe_unlink : footprint W (Unlink (probe_of W)) = true.
Proof. unfold footprint. apply String.eqb_refl. Qed.

Lemma create_venv_tidily : tidily W (create_venv O W (venv_of W)).
Proof.
  unfold create_venv. fold (probe_of W). tidily_auto;
    first [ apply touch_tidily, footprint_probe_touch
          | apply unlink_tidily, footprint_probe_unlink
          | apply run_command_stream_tidily ].
Qed.

Lemma install_each_tidily pip total pkgs :
  forall idx n, tidily W (install_each O pip total idx pkgs n).
Proof.
  induction pkgs as [| pkg rest IH]; intros idx n; simpl; tidily_auto;
    first [apply run_command_stream_tidily | apply IH].
Qed.

Lemma install_packages_individual_tidily pip pkgs :
  tidily W (install_packages_individual O pip pkgs).
Proof.
  unfold install_packages_individual. tidily_auto. apply install_each_tidily.
Qed.

Lemma validate_all_tidily pkgs : tidily W (validate_all pkgs).
Proof.
  induction pkgs as [| pkg rest IH]; simpl; tidily_auto. exact IH.
Qed.

Lemma install_packages_batch_tidily pip :
  tidily W (install_packages_batch O W pip).
Proof.
  unfold install_packages_batch. tidily_auto;
    first [ apply validate_all_tidily | apply run_command_stream_tidily
          | apply install_packages_individual_tidily ].
Qed.

Lemma footprint_written n :
  In n written_names ->
  footprint W (WriteFile (path_join (project_dir W) n)) = true.
Proof.
  intros H. unfold footprint. apply existsb_exists. exists n.
  split; [exact H | apply String.eqb_refl].
Qed.

Lemma write_requirements_tidily : tidily W (write_requirements O W).
Proof.
  unfold write_requirements. tidily_auto.
  apply write_file_tidily, footprint_written. simpl. auto.
Qed.

Lemma create_readme_tidily : tidily W (create_readme O W).
Proof.
  unfold create_readme. tidily_auto.
  apply write_file_tidily, footprint_written. simpl. auto.
Qed.

Lemma create_git_repo_tidily : tidily W (create_git_repo O W).
Proof.
  unfold create_git_repo. tidily_auto;
    first [ apply sub_run_tidily
          | apply write_file_tidily, footprint_written; simpl; auto ].
Qed.

Lemma calculate_project_size_tidily : tidily W (calculate_project_size W).
Proof. unfold calculate_project_size. tidily_auto. Qed.

Lemma cleanup_partial_tidily : tidily W (_cleanup_partial O W).
Proof.
  intros s Hok. rewrite cleanup_partial_eq. cbv zeta.
  assert (Enter_only :
            venv_ok W (add_action (Enter "_cleanup_partial") s)
            /\ exists acts,
                 trace (add_action (Enter "_cleanup_partial") s)
                 = (trace s ++ acts)%list
                 /\ forallb (footprint W) acts = true).
  { split; [exact Hok |]. exists [Enter "_cleanup_partial"]. auto. }
  destruct (venv_path s) as [v |] eqn:Ev; [| exact Enter_only].
  destruct (cleanup_on_cancel W) eqn:Ec; [| exact Enter_only].
  destruct (path_exists (fs s) v); [| exact Enter_only].
  assert (v = venv_of W) as -> by (destruct Hok; congruence).
  simpl. rewrite rmtree_eq. cbv zeta.
  assert (F : footprint W (Rmtree (venv_of W)) = true).
  { unfold footprint. rewrite Ec, String.eqb_refl. reflexivity. }
  assert (OK : forall s1,
             venv_path s1 = venv_path s ->
             trace s1 = (trace s ++ [Enter "_cleanup_partial";
                                     Rmtree (venv_of W)])%list ->
             venv_ok W s1
             /\ exists acts, trace s1 = (trace s ++ acts)%list
                             /\ forallb (footprint W) acts = true).
  { intros s1 Hv Ht. split.
    - unfold venv_ok. rewrite Hv. exact Hok.
    - eexists. split; [exact Ht |]. cbn [forallb]. rewrite F. reflexivity. }
  destruct (node_at _ (venv_of W)) as [[| c] |]; simpl;
    [destruct (rmtree_fault O _ _) as [[e removed] |]; simpl | |];
    apply OK; simpl; try reflexivity; rewrite <- app_assoc; reflexivity.
Qed.

Lemma finish_steps_tidily : tidily W (finish_steps O W).
Proof.
  unfold finish_steps. tidily_auto;
    first [ apply write_requirements_tidily | apply create_readme_tidily
          | apply create_git_repo_tidily
          | apply calculate_project_size_tidily ].
Qed.

Lemma install_step_tidily pip use_python :
  tidily W (install_step O W pip use_python).
Proof.
  unfold install_step. tidily_auto;
    first [ apply run_command_stream_tidily | apply cleanup_partial_tidily
          | apply install_packages_batch_tidily ].
Qed.

Lemma install_and_finish_tidily :
  tidily W (install_and_finish O W (venv_of W)).
Proof.
  unfold install_and_finish. tidily_auto;
    first [ apply install_step_tidily | apply finish_steps_tidily
          | apply cleanup_partial_tidily ].
Qed.

Lemma footprint_folder q :
  In q (project_dir W :: rev (ancestors (project_dir W))) ->
  footprint W (Mkdir q) = true.
Proof.
  intros H. unfold footprint. apply orb_true_iff. left.
  apply existsb_exists. exists q. split; [| apply String.eqb_refl].
  destruct H as [<- | H]; [left; reflexivity |].
  right. apply in_rev. exact H.
Qed.

Lemma run_try_tidily : tidily W (run_try O W).
Proof.
  unfold run_try. fold (venv_of W). tidily_auto;
    first [ apply path_mkdir_parents_tidily, footprint_folder
          | apply create_directory_structure_tidily
          | apply install_and_finish_tidily
          | apply create_venv_tidily
          | apply cleanup_partial_tidily ].
Qed.

Lemma run_tidily : tidily W (run O W).
Proof. unfold run. tidily_auto. apply run_try_tidily. Qed.

End Footprint.

(** X12. The footprint of a run. Whatever the host answers, the worker's
    own code creates directories only on the way to the project folder and
    for the seven layout directories, touches only its write probe and the
    two package markers, writes only [requirements.txt], [README.md] and
    [.gitignore] of the project folder, unlinks only its write probe, and
    removes a tree only when the clean-up option is set, and then only the
    project's [venv]. The write probe is the file [.write_test] of the
    project folder. *)
Theorem run_stays_within_its_footprint O W fs0 :
  forallb (footprint W) (trace (run_worker O W fs0)) = true
  /\ (project_dir W <> EmptyString ->
      probe_of W = path_join (project_dir W) ".write_test").
Proof.
  split; [| apply probe_in_project_folder].
  destruct (run_tidily O W (init_state fs0)) as (_ & acts & Ht & Hf).
  - left. reflexivity.
  - unfold run_worker. rewrite Ht. exact Hf.
Qed.

(* ===================================================================== *)
(** ** The clean-up                                                       *)
(* ===================================================================== *)

(** What [shutil.rmtree(d)] leaves of each path. *)
Lemma remove_tree_lookup d (f : gmap string node) p :
  remove_tree d f !! p = if in_tree d p then None else f !! p.
Proof.
  unfold remove_tree, in_tree.
  destruct (String.eqb p d || below d p) eqn:E.
  - apply map_lookup_filter_None. right. intros x _. simpl. rewrite E.
    discriminate.
  - destruct (f !! p) as [x |] eqn:Ep.
    + apply map_lookup_filter_Some. split; [exact Ep |]. simpl. rewrite E.
      reflexivity.
    + apply map_lookup_filter_None. left. exact Ep.
Qed.

Lemma cleanup_partial_idle O W s :
  venv_path s = None \/ cleanup_on_cancel W = false
  \/ (exists v, venv_path s = Some v /\ path_exists (fs s) v = false) ->
  _cleanup_partial O W s = (inr tt, add_action (Enter "_cleanup_partial") s).
Proof.
  intros H. rewrite cleanup_partial_eq. cbv zeta.
  destruct (venv_path s) as [v |]; [| reflexivity].
  destruct H as [H | [-> | (v' & Hv & He)]]; [discriminate | reflexivity |].
  injection Hv as <-. rewrite He, andb_false_r. reflexivity.
Qed.

Lemma cleanup_partial_active O W s v :
  venv_path s = Some v -> cleanup_on_cancel W = true ->
  path_exists (fs s) v = true ->
  let s0 := add_action (Rmtree v) (add_action (Enter "_cleanup_partial") s) in
  _cleanup_partial O W s =
  if is_dir (fs s) v then
    match rmtree_fault O v (fs s) with
    | None =>
        (inr tt,
         add_event (Log "Cleaned up partial virtual environment.")
                   (set_fs (remove_tree v (fs s)) s0))
    | Some (e, removed) =>
        (inr tt,
         add_event (Warn ("Failed to cleanup: " ++ exn_text e))
                   (set_fs (remove_part v removed (fs s)) s0))
    end
  else
    (inr tt,
     add_event (Warn ("Failed to cleanup: "
                      ++ exn_text NotADirectoryError)) s0).
Proof.
  intros Hv Hc He. rewrite cleanup_partial_eq. cbv zeta.
  rewrite Hv, Hc, He. simpl. rewrite rmtree_eq. cbv zeta. simpl.
  unfold path_exists in He. unfold is_dir.
  destruct (node_at (fs s) v) as [[| c] |]; [| reflexivity | discriminate].
  destruct (rmtree_fault O v (fs s)) as [[e removed] |]; reflexivity.
Qed.

(** A removal that fails half way takes away entries strictly below the
    root only, and adds or changes nothing. *)
Lemma remove_part_lookup d removed f p :
  remove_part d removed f !! p
  = if below d p && removed p then None else f !! p.
Proof.
  unfold remove_part.
  destruct (below d p && removed p) eqn:E.
  - apply map_lookup_filter_None. right. intros x _. simpl. rewrite E.
    discriminate.
  - destruct (f !! p) as [x |] eqn:Ep.
    + apply map_lookup_filter_Some. split; [exact Ep |]. simpl. rewrite E.
      reflexivity.
    + apply map_lookup_filter_None. left. exact Ep.
Qed.

Lemma remove_part_outside d removed f p :
  below d p = false -> remove_part d removed f !! p = f !! p.
Proof. intros H. rewrite remove_part_lookup, H. reflexivity. Qed.

Lemma below_irrefl d : below d d = false.
Proof.
  unfold below. induction d as [| c d IH]; [reflexivity |].
  cbn [append String.prefix]. destruct (ascii_dec c c); [exact IH | reflexivity].
Qed.

(** X13. [_cleanup_partial] never raises and never touches a path outside
    the tree of [venv_path]. It does nothing at all unless the clean-up
    option is set, [venv_path] is set and exists. When it acts it calls
    [shutil.rmtree] on [venv_path], once, and ends in one of two ways. Either
    the removal went through: the tree is gone, every path in it, and the
    log says so. Or the removal raised: a warning that starts with
    ["Failed to cleanup: "] is posted instead of the log line, the root of
    the tree is still there, entries strictly below it may be gone, and
    nothing was added or changed. The removal goes through whenever the path
    is a directory and the host lets all of it be removed; a path that is
    not a directory is left as it is. *)
Theorem cleanup_removes_the_environment_tree_only O W s :
  fst (_cleanup_partial O W s) = inr tt
  /\ (forall v p, venv_path s = Some v -> in_tree v p = false ->
        fs (snd (_cleanup_partial O W s)) !! p = fs s !! p)
  /\ (venv_path s = None \/ cleanup_on_cancel W = false
      \/ (exists v, venv_path s = Some v /\ path_exists (fs s) v = false) ->
      fs (snd (_cleanup_partial O W s)) = fs s
      /\ msgq (snd (_cleanup_partial O W s)) = msgq s
      /\ trace (snd (_cleanup_partial O W s))
         = (trace s ++ [Enter "_cleanup_partial"])%list)
  /\ (forall v, venv_path s = Some v -> cleanup_on_cancel W = true ->
        path_exists (fs s) v = true ->
        trace (snd (_cleanup_partial O W s))
        = (trace s ++ [Enter "_cleanup_partial"; Rmtree v])%list
        /\ ((msgq (snd (_cleanup_partial O W s))
             = (msgq s ++ [Log "Cleaned up partial virtual environment."])%list
             /\ forall p, fs (snd (_cleanup_partial O W s)) !! p
                          = if in_tree v p then None else fs s !! p)
            \/ (exists text,
                  msgq (snd (_cleanup_partial O W s))
                  = (msgq s ++ [Warn ("Failed to cleanup: " ++ text)])%list
                  /\ fs (snd (_cleanup_partial O W s)) !! v = fs s !! v
                  /\ (forall p, below v p = false ->
                        fs (snd (_cleanup_partial O W s)) !! p = fs s !! p)
                  /\ fs (snd (_cleanup_partial O W s)) ⊆ fs s))
        /\ (is_dir (fs s) v = true ->
            (rmtree_fault O v (fs s) = None ->
             fs (snd (_cleanup_partial O W s)) = remove_tree v (fs s)
             /\ msgq (snd (_cleanup_partial O W s))
                = (msgq s
                   ++ [Log "Cleaned up partial virtual environment."])%list)
            /\ (forall e removed,
                  rmtree_fault O v (fs s) = Some (e, removed) ->
                  fs (snd (_cleanup_partial O W s))
                  = remove_part v removed (fs s)
                  /\ msgq (snd (_cleanup_partial O W s))
                     = (msgq s ++ [Warn ("Failed to cleanup: "
                                         ++ exn_text e)])%list))
        /\ (is_dir (fs s) v = false ->
            fs (snd (_cleanup_partial O W s)) = fs s)).
Proof.
  split; [apply cleanup_partial_never_raises |].
  assert (Idle :
            venv_path s = None \/ cleanup_on_cancel W = false
            \/ (exists v, venv_path s = Some v /\ path_exists (fs s) v = false) ->
            _cleanup_partial O W s
            = (inr tt, add_action (Enter "_cleanup_partial") s))
    by apply cleanup_partial_idle.
  split; [| split].
  - intros v p Hv Hp.
    destruct (cleanup_on_cancel W) eqn:Hc;
      [| rewrite Idle by auto; reflexivity].
    destruct (path_exists (fs s) v) eqn:He;
      [| rewrite Idle by eauto; reflexivity].
    rewrite (cleanup_partial_active O W s v Hv Hc He).
    destruct (is_dir (fs s) v); [| reflexivity].
    destruct (rmtree_fault O v (fs s)) as [[e removed] |].
    + cbn [snd fs add_event set_fs add_action].
      apply remove_part_outside. unfold in_tree in Hp.
      apply orb_false_iff in Hp. apply Hp.
    + cbn [snd fs add_event set_fs add_action].
      rewrite remove_tree_lookup, Hp. reflexivity.
  - intros H. rewrite (Idle H). auto.
  - intros v Hv Hc He.
    rewrite (cleanup_partial_active O W s v Hv Hc He).
    destruct (is_dir (fs s) v).
    + destruct (rmtree_fault O v (fs s)) as [[e removed] |].
      * split; [cbn [snd trace add_event set_fs add_action];
                rewrite <- app_assoc; reflexivity |].
        split.
        { right. exists (exn_text e).
          cbn [snd fs msgq add_event set_fs add_action].
          split; [reflexivity |].
          split; [apply remove_part_outside, below_irrefl |].
          split; [intros p Hp; apply remove_part_outside, Hp |].
          apply map_filter_subseteq. }
        split; [| discriminate].
        intros _. split; [discriminate |].
        intros e' removed' [= <- <-]. split; reflexivity.
      * split; [cbn [snd trace add_event set_fs add_action];
                rewrite <- app_assoc; reflexivity |].
        split.
        { left. split; [reflexivity | intros p; apply remove_tree_lookup]. }
        split; [| discriminate].
        intros _. split; [intros _; split; reflexivity | discriminate].
    + split; [cbn [snd trace add_event set_fs add_action];
              rewrite <- app_assoc; reflexivity |].
      split.
      { right. exists (exn_text NotADirectoryError).
        cbn [snd fs msgq add_event set_fs add_action].
        split; [reflexivity |]. split; [reflexivity |].
        split; [reflexivity |]. reflexivity. }
      split; [discriminate | reflexivity].
Qed.

Lemma path_mkdir_parents_existing O anc p s :
  is_dir (fs s) p = true ->
  path_mkdir_parents O anc p s = (inr tt, add_action (Mkdir p) s).
Proof.
  intros H.
  assert (E : os_mkdir O p s = (inl FileExistsError, add_action (Mkdir p) s)).
  { rewrite os_mkdir_eq. cbv zeta. unfold is_dir in H.
    destruct (node_at (fs s) p) as [n |]; [reflexivity | discriminate]. }
  destruct anc as [| q anc]; simpl; unfold bind at 1; rewrite try_eq, E;
    simpl; unfold bind, get; simpl; rewrite H; reflexivity.
Qed.

Lemma venv_of_proper W f :
  node_at f (venv_of W) = f !! venv_of W.
Proof. apply node_at_join. discriminate. Qed.

(** X14. The clean-up does not ask who made the environment. Over a
    complete project whose [venv] directory exists before the run but holds
    neither [pip] nor the interpreter, on a host that lets the two package
    markers be touched, a run with the clean-up option set reuses the
    directory, fails to locate the installer, and calls [shutil.rmtree] on
    the directory it did not make. When the host lets the removal go
    through, what is left is the initial file system without the tree of
    [venv]: the directory is gone with everything in it. When the removal
    raises half way, what it had removed by then is gone all the same. *)
Theorem reused_environment_is_removed_on_failure O W fs0 :
  has_layout W fs0 ->
  markers_touchable O W ->
  is_dir fs0 (venv_of W) = true ->
  path_exists fs0 (which_pip_in_venv O (venv_of W)) = false ->
  path_exists fs0 (which_python_in_venv O (venv_of W)) = false ->
  cleanup_on_cancel W = true ->
  success (run_worker O W fs0) = false
  /\ In reuse_notice (msgq (run_worker O W fs0))
  /\ ~ In (Enter "create_venv") (trace (run_worker O W fs0))
  /\ In (Rmtree (venv_of W)) (trace (run_worker O W fs0))
  /\ (rmtree_fault O (venv_of W) fs0 = None ->
      fs (run_worker O W fs0) = remove_tree (venv_of W) fs0
      /\ (forall p, in_tree (venv_of W) p = true ->
            fs (run_worker O W fs0) !! p = None)
      /\ In (Log "Cleaned up partial virtual environment.")
            (msgq (run_worker O W fs0)))
  /\ (forall e removed,
        rmtree_fault O (venv_of W) fs0 = Some (e, removed) ->
        fs (run_worker O W fs0) = remove_part (venv_of W) removed fs0
        /\ In (Warn ("Failed to cleanup: " ++ exn_text e))
              (msgq (run_worker O W fs0))).
Proof.
  intros (Hfolder & Hlayout) Hmark Hvenv Hpip Hpy Hc.
  assert (Hex : path_exists fs0 (venv_of W) = true).
  { unfold path_exists. unfold is_dir in Hvenv.
    destruct (node_at fs0 (venv_of W)); [reflexivity | discriminate]. }
  destruct (existing_environment_reused_lemma O W fs0 Hex) as (Hno & _).
  assert (E : exists sA,
             success sA = false
             /\ In reuse_notice (msgq sA)
             /\ fs sA = fs0
             /\ venv_path sA = Some (venv_of W)
             /\ run_try O W (init_state fs0) = _cleanup_partial O W sA).
  { rewrite run_try_eq. cbv zeta.
    rewrite (path_mkdir_parents_existing O _ _ (init_state fs0) Hfolder).
    rewrite create_directory_structure_eq.
    set (s0 := add_action (Enter "create_directory_structure") _).
    destruct (create_directories_stable O W directories Hmark s0 Hlayout)
      as (Hr & Hfs2).
    pose proof (create_directories_keeps O W [] true directories s0)
      as (Hsucc & _).
    destruct (create_directories O W directories s0) as [r s2].
    simpl in Hr, Hfs2, Hsucc. subst r. fold (venv_of W).
    set (s3 := set_venv_path (venv_of W) s2).
    assert (Hfs3 : fs s3 = fs0) by exact Hfs2.
    rewrite Hfs3, Hex.
    set (s4 := add_event _ s3).
    rewrite install_and_finish_eq.
    assert (Hfs4 : fs s4 = fs0) by exact Hfs2.
    rewrite Hfs4, Hpip, Hpy.
    set (sA := add_event _ s4).
    exists sA. split; [exact Hsucc |]. split.
    - unfold sA, s4. simpl. apply in_or_app. left. apply in_or_app. right.
      left. reflexivity.
    - split; [exact Hfs2 |]. split; reflexivity. }
  destruct E as (sA & HsA & Hnotice & HfsA & HvA & E).
  assert (HexA : path_exists (fs sA) (venv_of W) = true)
    by (rewrite HfsA; exact Hex).
  pose proof (cleanup_partial_active O W sA (venv_of W) HvA Hc HexA) as A.
  cbv zeta in A. rewrite HfsA, Hvenv in A.
  destruct (run_final O W (init_state fs0)) as (Hs & Ht & Hfs & _ & _).
  destruct (run_messages O W (init_state fs0)) as (tail & Hm).
  revert Hno. unfold run_worker. rewrite Hs, Ht, Hfs, Hm, E.
  destruct (rmtree_fault O (venv_of W) fs0) as [[e removed] |];
    rewrite A; cbn [snd success fs msgq trace add_event set_fs add_action];
    intros Hno.
  - split; [exact HsA |]. split.
    { apply in_or_app. left. apply in_or_app. left. exact Hnotice. }
    split; [exact Hno |]. split.
    { apply in_or_app. right. left. reflexivity. }
    split; [discriminate |].
    intros e' removed' [= <- <-]. split; [reflexivity |].
    apply in_or_app. left. apply in_or_app. right. left. reflexivity.
  - split; [exact HsA |]. split.
    { apply in_or_app. left. apply in_or_app. left. exact Hnotice. }
    split; [exact Hno |]. split.
    { apply in_or_app. right. left. reflexivity. }
    split; [| discriminate].
    intros _. split; [reflexivity |]. split.
    { intros p Hp. rewrite remove_tree_lookup, Hp. reflexivity. }
    apply in_or_app. left. apply in_or_app. right. left. reflexivity.
Qed.

Lemma reused_environment_is_removed_on_failure_witness :
  fs (run_worker (host None (always 0)) (demo ["aa"] true false true)
        fs_project_with_notes)
  !! path_join demo_venv "notes.txt" = None.
Proof.
  refine (proj1 (proj2 (proj1 (proj2 (proj2 (proj2 (proj2
            (reused_environment_is_removed_on_failure (host None (always 0))
               (demo ["aa"] true false true) fs_project_with_notes
               _ _ _ _ _ _))))) eq_refl)) _ _).
  - split; [vm_compute; reflexivity |].
    intros d Hd. simpl in Hd.
    repeat (destruct Hd as [<- | Hd];
            [split; [vm_compute; reflexivity
                    | intros Hi; vm_compute in Hi;
                      first [discriminate Hi | vm_compute; eauto]] |]).
    destruct Hd.
  - intros d _. reflexivity.
  - vm_compute. reflexivity.
  - vm_compute. reflexivity.
  - vm_compute. reflexivity.
  - vm_compute. reflexivity.
  - vm_compute. reflexivity.
Defined.

(* ===================================================================== *)
(** ** Further properties of the layout step                              *)
(* ===================================================================== *)

(** The loop posts one line per directory it got past, in order, and
    nothing else. *)
Lemma create_directories_messages O W ds :
  forall s,
    exists k,
      k <= List.length ds
      /\ msgq (snd (create_directories O W ds s))
         = (msgq s ++ map created_log (firstn k ds))%list
      /\ (fst (create_directories O W ds s) = inr tt -> k = List.length ds).
Proof.
  induction ds as [| d rest IH]; intros s.
  - exists 0. simpl. rewrite app_nil_r. auto.
  - rewrite create_directories_cons.
    pose proof (path_mkdir_result O (path_join (project_dir W) d) s)
      as (_ & _ & _ & Hm).
    destruct (path_mkdir O (path_join (project_dir W) d) s) as [[e | []] s1];
      simpl in Hm.
    + exists 0. simpl. rewrite app_nil_r.
      split; [lia |]. split; [exact Hm | discriminate].
    + cbv zeta. fold (created_log d).
      set (s2 := add_event (created_log d) s1).
      assert (Hm2 : msgq s2 = (msgq s ++ [created_log d])%list)
        by (simpl; rewrite Hm; reflexivity).
      assert (Rest : forall s3,
                 msgq s3 = msgq s2 ->
                 exists k,
                   k <= List.length (d :: rest)
                   /\ msgq (snd (create_directories O W rest s3))
                      = (msgq s ++ map created_log (firstn k (d :: rest)))%list
                   /\ (fst (create_directories O W rest s3) = inr tt ->
                       k = List.length (d :: rest))).
      { intros s3 H3. destruct (IH s3) as (k & Hk & Hmsg & Hall).
        exists (S k). simpl. split; [lia |]. split.
        - rewrite Hmsg, H3, Hm2, <- app_assoc. reflexivity.
        - intros Hok. rewrite (Hall Hok). reflexivity. }
      destruct (is_init_directory d).
      * pose proof (touch_result O (init_path W d) s2) as (_ & _ & _ & Ht).
        destruct (touch O (init_path W d) s2) as [[e | []] s3]; simpl in Ht.
        -- exists 1. simpl. split; [lia |]. split; [| discriminate].
           rewrite Ht. exact Hm2.
        -- apply Rest. exact Ht.
      * apply Rest. reflexivity.
Qed.

(** X15. The layout step never overwrites and never removes: each path
    keeps the node it had, and a path that had none gets at most one of
    the nine layout nodes (the seven directories, an empty [__init__.py]
    in [src] and in [tests]); this holds also when the step fails half
    way. It posts one ["Created directory"] line for each directory it got
    past, in the order of the list, also for a directory that was already
    there, and all seven when it completes. It touches the two package
    markers also when they exist, so it completes only on a host that lets
    both be touched; over a complete layout, on such a host, it completes
    and changes nothing. *)
Theorem layout_step_only_adds O W s :
  grown_by (layout_nodes W) (fs s)
           (fs (snd (create_directory_structure O W s)))
  /\ (exists k,
        k <= 7
        /\ msgq (snd (create_directory_structure O W s))
           = (msgq s ++ map created_log (firstn k directories))%list
        /\ (fst (create_directory_structure O W s) = inr tt -> k = 7))
  /\ (fst (create_directory_structure O W s) = inr tt ->
      forall d, In d init_directories -> fault O (init_path W d) = None)
  /\ ((forall d, In d init_directories -> fault O (init_path W d) = None) ->
      (forall d, In d directories ->
         node_at (fs s) (path_join (project_dir W) d) = Some Dir
         /\ (is_init_directory d = true ->
             is_Some (node_at (fs s) (init_path W d)))) ->
      fst (create_directory_structure O W s) = inr tt
      /\ fs (snd (create_directory_structure O W s)) = fs s).
Proof.
  split; [apply layout_grown |].
  split; [| split].
  - rewrite create_directory_structure_eq.
    apply (create_directories_messages O W directories
             (add_action (Enter "create_directory_structure") s)).
  - intros Hok d Hd.
    apply (layout_done_markers_touchable O W s Hok).
    apply (proj2 (init_directory_is_directory d Hd)).
  - intros Hm H. rewrite create_directory_structure_eq.
    apply (create_directories_stable O W directories
             (markers_touchable_of_list O W Hm)
             (add_action (Enter "create_directory_structure") s) H).
Qed.

(** X16. A fault of the layout step is not absorbed. It leaves [run]'s
    [try] as an exception: the catch-all posts two error events, no later
    step runs (no environment, no installer, no manifest, no clean-up),
    [venv_path] is never set, and the run ends as failed, with the failure
    ["done"] item and ["progress_complete"]. *)
Theorem layout_fault_ends_the_run O W fs0 s1 e s2 :
  folder_step O W (init_state fs0) = (inr tt, s1) ->
  create_directory_structure O W (after_folder W s1) = (inl e, s2) ->
  success (run_worker O W fs0) = false
  /\ msgq (run_worker O W fs0)
     = (msgq s2
        ++ [Error ("Unexpected error: " ++ exn_text e);
            Error (format_exc O e); Done fail_text; ProgressComplete])%list
  /\ trace (run_worker O W fs0) = trace s2
  /\ fs (run_worker O W fs0) = fs s2
  /\ venv_path (run_worker O W fs0) = None.
Proof.
  intros H1 H2. unfold folder_step in H1.
  pose proof (run_try_layout_fault O W (init_state fs0) s1 e s2 H1 H2) as E.
  pose proof (path_mkdir_parents_keeps O [] true
                (rev (ancestors (project_dir W))) (project_dir W)
                (init_state fs0)) as K1.
  pose proof (create_directory_structure_keeps O W [] true eq_refl
                (after_folder W s1)) as K2.
  rewrite H1 in K1. rewrite H2 in K2. unfold after_folder in K2.
  simpl in K1, K2.
  destruct K1 as (S1 & V1 & _). destruct K2 as (S2 & V2 & _).
  assert (Hs2 : success s2 = false)
    by (etransitivity; [exact S2 | exact S1]).
  assert (Hv2 : venv_path s2 = None)
    by (etransitivity; [exact V2 | exact V1]).
  unfold run_worker. rewrite run_eq, E. simpl. rewrite Hs2. simpl.
  rewrite <- !app_assoc. auto.
Qed.

Lemma layout_fault_ends_the_run_witness :
  success (run_worker (host None (always 0)) (demo [] false false false)
             fs_docs_file) = false.
Proof.
  refine (proj1 (layout_fault_ends_the_run (host None (always 0))
                   (demo [] false false false) fs_docs_file
                   (snd (folder_step (host None (always 0))
                           (demo [] false false false)
                           (init_state fs_docs_file)))
                   FileExistsError
                   (snd (create_directory_structure (host None (always 0))
                           (demo [] false false false)
                           (after_folder (demo [] false false false)
                              (snd (folder_step (host None (always 0))
                                      (demo [] false false false)
                                      (init_state fs_docs_file))))))
                   _ _)).
  - vm_compute. reflexivity.
  - vm_compute. reflexivity.
Defined.

(* ===================================================================== *)
(** ** The validity pattern and the verdict of the predicate              *)
(* ===================================================================== *)

Lemma append_nil_r_s (s : string) : s ++ EmptyString = s.
Proof. induction s as [| c s IH]; simpl; [| rewrite IH]; reflexivity. Qed.

Lemma append_eq_nil (s1 s2 : string) :
  s1 ++ s2 = EmptyString -> s1 = EmptyString /\ s2 = EmptyString.
Proof. destruct s1; simpl; [auto | discriminate]. Qed.

Lemma nullable_matches r : nullable r = true <-> matches r EmptyString.
Proof.
  split.
  - induction r; simpl; intros H; try discriminate.
    + constructor.
    + apply andb_true_iff in H. destruct H as [H1 H2].
      change EmptyString with (EmptyString ++ EmptyString).
      constructor; auto.
    + apply orb_true_iff in H. destruct H; [apply matches_alt_l | apply matches_alt_r]; auto.
    + constructor.
  - intros H. remember EmptyString as s eqn:Es.
    induction H; simpl; try reflexivity; try discriminate.
    + apply append_eq_nil in Es. destruct Es as [-> ->].
      rewrite IHmatches1, IHmatches2; reflexivity.
    + rewrite IHmatches; auto.
    + rewrite IHmatches; auto. apply orb_true_r.
Qed.

Lemma deriv_sound c r : forall s, matches (deriv c r) s -> matches r (String c s).
Proof.
  induction r; simpl; intros s H.
  - inversion H.
  - inversion H.
  - destruct (p c) eqn:Hp; inversion H; subst. constructor. exact Hp.
  - destruct (nullable r1) eqn:Hn.
    + inversion H; subst.
      * match goal with Hc : matches (Cat _ _) _ |- _ => inversion Hc; subst end.
        change (String c (s1 ++ s2)) with (String c s1 ++ s2).
        constructor; auto.
      * change (String c s) with (EmptyString ++ String c s).
        constructor; [apply nullable_matches, Hn | auto].
    + inversion H; subst.
      change (String c (s1 ++ s2)) with (String c s1 ++ s2).
      constructor; auto.
  - inversion H; subst; [apply matches_alt_l | apply matches_alt_r]; auto.
  - inversion H; subst.
    change (String c (s1 ++ s2)) with (String c s1 ++ s2).
    constructor; auto.
Qed.

Lemma deriv_complete c r t :
  matches r t -> forall s, t = String c s -> matches (deriv c r) s.
Proof.
  induction 1; intros s0 E; simpl.
  - discriminate.
  - injection E as -> <-. rewrite H. constructor.
  - destruct s1 as [| c1 s1'].
    + simpl in E. subst s2.
      assert (Hn : nullable r1 = true) by (apply nullable_matches; assumption).
      rewrite Hn. apply matches_alt_r. apply IHmatches2. reflexivity.
    + simpl in E. injection E as -> <-.
      assert (Hc : matches (Cat (deriv c r1) r2) (s1' ++ s2))
        by (constructor; [apply IHmatches1; reflexivity | assumption]).
      destruct (nullable r1); [apply matches_alt_l |]; exact Hc.
  - apply matches_alt_l. auto.
  - apply matches_alt_r. auto.
  - discriminate.
  - destruct s1 as [| c1 s1'].
    + simpl in E. apply IHmatches2 in E. exact E.
    + simpl in E. injection E as -> <-.
      constructor; [apply IHmatches1; reflexivity | assumption].
Qed.

(** The matcher decides the language: [fullmatch] is what the regular
    expression means. *)
Lemma fullmatch_matches s : forall r, fullmatch r s = true <-> matches r s.
Proof.
  induction s as [| c s IH]; intros r; simpl.
  - apply nullable_matches.
  - rewrite IH. split.
    + apply deriv_sound.
    + intros H. eapply deriv_complete; eauto.
Qed.

Lemma matches_star_cls p s :
  matches (Star (Cls p)) s <-> all_chars p s = true.
Proof.
  split.
  - intros H. remember (Star (Cls p)) as r eqn:Er.
    induction H; try discriminate; [reflexivity |].
    injection Er as ->. inversion H; subst. simpl.
    rewrite IHmatches2 by reflexivity.
    match goal with Hp : p _ = true |- _ => rewrite Hp end. reflexivity.
  - induction s as [| c s IH]; simpl; intros H; [constructor |].
    apply andb_true_iff in H. destruct H as [Hc Hs].
    change (String c s) with (String c EmptyString ++ s).
    constructor; [constructor; exact Hc | auto].
Qed.

Lemma matches_dollar t : matches Dollar t <-> t = EmptyString \/ t = nl.
Proof.
  unfold Dollar, nl. split.
  - intros H. inversion H; subst.
    + match goal with He : matches Eps _ |- _ => inversion He end. auto.
    + match goal with Hc : matches (Cls _) _ |- _ => inversion Hc; subst end.
      match goal with Hn : Ascii.eqb newline _ = true |- _ =>
        apply Ascii.eqb_eq in Hn; subst end.
      auto.
  - intros [-> | ->].
    + apply matches_alt_l. constructor.
    + apply matches_alt_r. constructor. reflexivity.
Qed.

(** What the validity pattern accepts. *)
Lemma pattern_well_formed s : re_match pattern s = true <-> well_formed_name s.
Proof.
  unfold re_match. rewrite fullmatch_matches. unfold pattern, well_formed_name.
  split.
  - intros H. inversion H as [| | ? ? s1 s2 Ha Hb | | | |]; subst.
    inversion Ha; subst.
    inversion Hb as [| | ? ? m s3 Hm Hc | | | |]; subst.
    inversion Hc as [| | ? ? s4 t Hd Ht | | | |]; subst.
    inversion Hd; subst.
    apply matches_star_cls in Hm. apply matches_dollar in Ht.
    eexists _, m, _, t. simpl. repeat split; eauto.
  - intros (c1 & m & c2 & t & -> & H1 & Hm & H2 & Ht).
    change (String c1 (m ++ String c2 t))
      with (String c1 EmptyString ++ (m ++ (String c2 EmptyString ++ t))).
    constructor; [constructor; exact H1 |].
    constructor; [apply matches_star_cls; exact Hm |].
    constructor; [constructor; exact H2 | apply matches_dollar; exact Ht].
Qed.

Lemma all_chars_app p s1 s2 :
  all_chars p (s1 ++ s2) = all_chars p s1 && all_chars p s2.
Proof.
  induction s1 as [| c s1 IH]; simpl; [reflexivity |].
  rewrite IH, andb_assoc. reflexivity.
Qed.

Lemma all_chars_weaken (p q : ascii -> bool) s :
  (forall c, p c = true -> q c = true) ->
  all_chars p s = true -> all_chars q s = true.
Proof.
  intros Hpq. induction s as [| c s IH]; simpl; [auto |].
  intros H. apply andb_true_iff in H. destruct H as [Hc Hs].
  rewrite (Hpq c Hc), IH; auto.
Qed.

Lemma all_chars_prefix p pre s :
  String.prefix pre s = true -> all_chars p s = true -> all_chars p pre = true.
Proof.
  revert s. induction pre as [| c pre IH]; intros s Hp Hs; [reflexivity |].
  destruct s as [| d s]; simpl in Hp; [discriminate |].
  destruct (ascii_dec c d) as [<- | _]; [| discriminate].
  simpl in Hs |- *. apply andb_true_iff in Hs. destruct Hs as [Hc Hs].
  rewrite Hc. simpl. eapply IH; eauto.
Qed.

Lemma all_chars_contains p sub s :
  contains sub s = true -> all_chars p s = true -> all_chars p sub = true.
Proof.
  induction s as [| c s IH]; cbn [contains all_chars]; intros Hc Hs.
  - rewrite orb_false_r in Hc.
    apply (all_chars_prefix p sub EmptyString Hc). reflexivity.
  - apply orb_true_iff in Hc. destruct Hc as [Hc | Hc].
    + apply (all_chars_prefix p sub (String c s) Hc). exact Hs.
    + apply andb_true_iff in Hs. destruct Hs as [_ Hs]. auto.
Qed.

Lemma alnum_name_char c : alnum c = true -> name_char c = true.
Proof. intros H. unfold name_char. rewrite H. reflexivity. Qed.

(** A text the pattern accepts is made of name characters and line ends. *)
Lemma well_formed_chars s :
  well_formed_name s -> all_chars name_or_newline s = true.
Proof.
  intros (c1 & m & c2 & t & -> & H1 & Hm & H2 & Ht).
  assert (N : forall c, name_char c = true -> name_or_newline c = true)
    by (intros c Hc; unfold name_or_newline; rewrite Hc; reflexivity).
  simpl. rewrite (N c1 (alnum_name_char c1 H1)). simpl.
  rewrite all_chars_app. rewrite (all_chars_weaken name_char _ m N Hm).
  simpl. rewrite (N c2 (alnum_name_char c2 H2)). simpl.
  destruct Ht as [-> | ->]; reflexivity.
Qed.

Lemma well_formed_no_metacharacter s :
  well_formed_name s ->
  existsb (fun ch => contains ch s) shell_metacharacters = false.
Proof.
  intros H. apply well_formed_chars in H.
  assert (No : forall ch, all_chars name_or_newline ch = false ->
                          contains ch s = false).
  { intros ch Hch. destruct (contains ch s) eqn:E; [| reflexivity].
    rewrite (all_chars_contains _ ch s E H) in Hch. discriminate. }
  unfold shell_metacharacters. cbn [existsb].
  rewrite !No by reflexivity. reflexivity.
Qed.

Lemma well_formed_no_url s :
  well_formed_name s -> startswith_any url_prefixes s = false.
Proof.
  intros H. apply well_formed_chars in H.
  assert (No : forall pre, all_chars name_or_newline pre = false ->
                           String.prefix pre s = false).
  { intros pre Hpre. destruct (String.prefix pre s) eqn:E; [| reflexivity].
    rewrite (all_chars_prefix _ pre s E H) in Hpre. discriminate. }
  unfold startswith_any, url_prefixes. cbn [existsb].
  rewrite !No by reflexivity. reflexivity.
Qed.

Lemma base_name_empty : base_name EmptyString = EmptyString.
Proof. reflexivity. Qed.

(** The verdict is the verdict of the pattern on the base name: the checks
    made before the pattern decide the message, never the verdict. *)
Lemma verdict_is_the_pattern pkg :
  fst (validate_package_name pkg) = re_match pattern (base_name pkg).
Proof.
  unfold validate_package_name.
  destruct (String.eqb_spec pkg EmptyString) as [-> | _]; [reflexivity |].
  cbv zeta.
  destruct (re_match pattern (base_name pkg)) eqn:E.
  - apply pattern_well_formed in E.
    rewrite (well_formed_no_metacharacter _ E), (well_formed_no_url _ E).
    reflexivity.
  - destruct (existsb _ shell_metacharacters); [reflexivity |].
    destruct (startswith_any url_prefixes (base_name pkg)); reflexivity.
Qed.

Lemma rejected_message_not_empty pkg :
  fst (validate_package_name pkg) = false ->
  snd (validate_package_name pkg) <> EmptyString.
Proof.
  unfold validate_package_name.
  destruct (String.eqb pkg EmptyString); [discriminate |].
  cbv zeta.
  destruct (existsb _ shell_metacharacters); [discriminate |].
  destruct (startswith_any url_prefixes (base_name pkg)); [discriminate |].
  destruct (re_match pattern (base_name pkg)); discriminate.
Qed.

Lemma accepted_message_empty pkg :
  fst (validate_package_name pkg) = true ->
  snd (validate_package_name pkg) = EmptyString.
Proof.
  unfold validate_package_name.
  destruct (String.eqb pkg EmptyString); [discriminate |].
  cbv zeta.
  destruct (existsb _ shell_metacharacters); [discriminate |].
  destruct (startswith_any url_prefixes (base_name pkg)); [discriminate |].
  destruct (re_match pattern (base_name pkg)); [reflexivity | discriminate].
Qed.

(** X17. [validate_package_name] accepts a package exactly when its base
    name (the text before the first version separator) is well formed: an
    ASCII letter or digit, then letters, digits, dots, underscores and
    hyphens, then a letter or digit, and nothing after it but, at most, one
    line end, which the [$] of the pattern lets through. The tests for shell
    metacharacters and for URLs never change the verdict, only the message;
    the message is empty exactly for an accepted package. *)
Theorem accepted_exactly_when_base_name_well_formed pkg :
  (fst (validate_package_name pkg) = true <-> well_formed_name (base_name pkg))
  /\ fst (validate_package_name pkg) = re_match pattern (base_name pkg)
  /\ (fst (validate_package_name pkg) = true <->
      snd (validate_package_name pkg) = EmptyString).
Proof.
  split; [| split].
  - rewrite verdict_is_the_pattern. apply pattern_well_formed.
  - apply verdict_is_the_pattern.
  - split; [apply accepted_message_empty |].
    intros H. destruct (fst (validate_package_name pkg)) eqn:E; [reflexivity |].
    exfalso. exact (rejected_message_not_empty pkg E H).
Qed.

Lemma prefix_equals_no_equals c s :
  not_equals_sign c = true -> String.prefix "==" (String c s) = false.
Proof.
  unfold not_equals_sign. intros H. cbn [String.prefix].
  destruct (ascii_dec "=" c) as [<- | _]; [| reflexivity].
  rewrite Ascii.eqb_refl in H. discriminate H.
Qed.

Lemma contains_equals_app name ver :
  contains "==" (name ++ "==" ++ ver) = true.
Proof.
  induction name as [| c name IH].
  - change (contains "==" (String "=" (String "=" ver)) = true).
    cbn [contains String.prefix].
    destruct (ascii_dec "=" "=") as [_ | N]; [| congruence].
    rewrite prefix_nil. reflexivity.
  - change (contains "==" (String c (name ++ "==" ++ ver)) = true).
    cbn [contains]. rewrite IH. apply orb_true_r.
Qed.

Lemma split_first_equals_app name ver :
  all_chars not_equals_sign name = true ->
  split_first "==" (name ++ "==" ++ ver) = name.
Proof.
  induction name as [| c name IH]; intros H.
  - change (split_first "==" (String "=" (String "=" ver)) = EmptyString).
    cbn [split_first String.prefix].
    destruct (ascii_dec "=" "=") as [_ | N]; [| congruence].
    rewrite prefix_nil. reflexivity.
  - simpl in H. apply andb_true_iff in H. destruct H as [Hc Hn].
    change (split_first "==" (String c (name ++ "==" ++ ver)) = String c name).
    cbn [split_first]. rewrite (prefix_equals_no_equals c _ Hc).
    rewrite (IH Hn). reflexivity.
Qed.

Lemma base_name_pinned name ver :
  all_chars not_equals_sign name = true ->
  base_name (name ++ "==" ++ ver) = name.
Proof.
  intros H. unfold base_name, version_separators. cbn [base_name_from].
  rewrite contains_equals_app. apply split_first_equals_app, H.
Qed.

Lemma name_or_newline_not_equals c :
  name_or_newline c = true -> not_equals_sign c = true.
Proof.
  unfold not_equals_sign. intros H.
  destruct (Ascii.eqb_spec c "="%char) as [-> | _]; [discriminate H | reflexivity].
Qed.

(** X18. Nothing after the first [==] is validated. For a name that the
    predicate accepts on its own, the package [name==version] is accepted
    whatever the text [version] is: shell metacharacters, spaces, URLs and
    further separators included. *)
Theorem version_text_is_not_validated name version :
  fst (validate_package_name name) = true ->
  base_name name = name ->
  fst (validate_package_name (name ++ "==" ++ version)) = true
  /\ base_name (name ++ "==" ++ version) = name.
Proof.
  intros Hv Hb.
  rewrite verdict_is_the_pattern, Hb in Hv.
  assert (Hn : all_chars not_equals_sign name = true).
  { apply (all_chars_weaken name_or_newline); [apply name_or_newline_not_equals |].
    apply well_formed_chars, pattern_well_formed, Hv. }
  rewrite verdict_is_the_pattern, (base_name_pinned name version Hn).
  auto.
Qed.

Lemma version_text_is_not_validated_witness :
  fst (validate_package_name ("numpy" ++ "==" ++ "1.0; rm -rf $HOME | sh"))
  = true.
Proof.
  refine (proj1 (version_text_is_not_validated "numpy"
                   "1.0; rm -rf $HOME | sh" _ _)).
  - vm_compute. reflexivity.
  - vm_compute. reflexivity.
Defined.

(* ===================================================================== *)
(** ** The installation through the interpreter                           *)
(* ===================================================================== *)

(** Over a complete project that has an environment, on a host that lets
    the package markers be touched, [run] goes straight to the search for
    the installer, the file system untouched. *)
Lemma run_try_over_project O W fs0 :
  has_layout W fs0 ->
  markers_touchable O W ->
  path_exists fs0 (venv_of W) = true ->
  exists s4,
    fs s4 = fs0 /\ success s4 = false /\ venv_path s4 = Some (venv_of W)
    /\ In reuse_notice (msgq s4)
    /\ forallb (act_ok installer_methods true) (trace s4) = true
    /\ run_try O W (init_state fs0) = install_and_finish O W (venv_of W) s4.
Proof.
  intros (Hfolder & Hlayout) Hmark Hex.
  rewrite run_try_eq. cbv zeta.
  rewrite (path_mkdir_parents_existing O _ _ (init_state fs0) Hfolder).
  rewrite create_directory_structure_eq.
  set (s0 := add_action (Enter "create_directory_structure") _).
  destruct (create_directories_stable O W directories Hmark s0 Hlayout)
    as (Hr & Hfs2).
  pose proof (create_directories_keeps O W installer_methods true
                directories s0) as (Hsucc & _ & _ & (acts & Ht & Hacts) & _).
  destruct (create_directories O W directories s0) as [r s2].
  simpl in Hr, Hfs2, Hsucc, Ht. subst r. fold (venv_of W).
  set (s3 := set_venv_path (venv_of W) s2).
  assert (Hfs3 : fs s3 = fs0) by exact Hfs2.
  rewrite Hfs3, Hex.
  eexists. split; [| split; [| split; [| split; [| split; [| reflexivity]]]]].
  - exact Hfs2.
  - exact Hsucc.
  - reflexivity.
  - simpl. apply in_or_app. right. left. reflexivity.
  - simpl. rewrite Ht. simpl. exact Hacts.
Qed.

(** X19. The installation through the interpreter validates nothing. Over
    a complete project whose environment holds the interpreter but no [pip]
    script, on a host that lets the two package markers be touched (so that
    the layout step completes), a run with packages to install announces the
    detour and hands
    the whole request, as it is, to one command [python -m pip install];
    neither the batch installer nor the per-package fallback is entered, so
    no package is checked, skipped or retried alone; and when that one
    command does not return zero the run fails. *)
Theorem interpreter_detour_installs_unvalidated O W fs0 :
  has_layout W fs0 ->
  markers_touchable O W ->
  path_exists fs0 (venv_of W) = true ->
  path_exists fs0 (which_pip_in_venv O (venv_of W)) = false ->
  path_exists fs0 (which_python_in_venv O (venv_of W)) = true ->
  packages W <> [] ->
  exists rc,
    In (Run (module_install_cmd O W) rc) (trace (run_worker O W fs0))
    /\ In (Log "Using python -m pip (pip binary not found).")
          (msgq (run_worker O W fs0))
    /\ (forall m, In m installer_methods ->
          ~ In (Enter m) (trace (run_worker O W fs0)))
    /\ (rc <> 0%Z -> success (run_worker O W fs0) = false).
Proof.
  intros Hl Hmark Hex Hpip Hpy Hpk.
  destruct (run_try_over_project O W fs0 Hl Hmark Hex)
    as (s4 & Hfs & Hs4 & Hv4 & _ & Ht4 & E).
  destruct (run_final O W (init_state fs0)) as (Hs & Ht & _ & _ & _).
  destruct (run_messages O W (init_state fs0)) as (tail & Hm).
  unfold run_worker. rewrite Hs, Ht, Hm, E. clear Hs Ht Hm E.
  rewrite install_and_finish_eq, Hfs, Hpip, Hpy.
  set (sA := add_event (Log "Using python -m pip (pip binary not found).") s4).
  rewrite install_step_eq.
  destruct (packages W) as [| p0 rest] eqn:Epk; [congruence |].
  rewrite <- Epk. fold (module_install_cmd O W).
  destruct (run_command_stream_outcome O (module_install_cmd O W) sA)
    as (rc & kills & Hrc & Htr & Hk).
  pose proof (run_command_stream_keeps O [] (module_install_cmd O W) sA)
    as (Hsucc & _ & (evs & Hev & _) & _).
  destruct (run_command_stream O (module_install_cmd O W) sA)
    as [[e | rc'] s1]; simpl in Hrc, Htr, Hsucc, Hev; [discriminate |].
  injection Hrc as ->. exists rc.
  assert (Hlog : In (Log "Using python -m pip (pip binary not found).")
                    (msgq s1)).
  { rewrite Hev. apply in_or_app. left. simpl. apply in_or_app. right.
    left. reflexivity. }
  assert (Hrun : In (Run (module_install_cmd O W) rc) (trace s1)).
  { rewrite Htr. apply in_or_app. right. apply in_or_app. right.
    left. reflexivity. }
  assert (Hok1 : forallb (act_ok installer_methods false) (trace s1) = true).
  { rewrite Htr. apply forallb_app_true.
    - simpl. rewrite forallb_forall in Ht4 |- *. intros a Ha.
      apply act_ok_weaken, Ht4, Ha.
    - destruct Hk as [-> | [-> _]]; reflexivity. }
  assert (Final : forall s',
             (exists evs', msgq s' = (msgq s1 ++ evs')%list) ->
             (exists acts, trace s' = (trace s1 ++ acts)%list
                           /\ forallb (act_ok installer_methods false) acts
                              = true) ->
             In (Run (module_install_cmd O W) rc) (trace s')
             /\ In (Log "Using python -m pip (pip binary not found).")
                   (msgq s' ++ tail)
             /\ (forall m, In m installer_methods -> ~ In (Enter m) (trace s'))).
  { intros s' (evs' & Hm') (acts & Ht' & Hacts). split; [| split].
    - rewrite Ht'. apply in_or_app. left. exact Hrun.
    - rewrite Hm'. apply in_or_app. left. apply in_or_app. left. exact Hlog.
    - intros m Hmeth. rewrite Ht'.
      apply (act_ok_forbidden installer_methods false).
      + apply forallb_app_true; assumption.
      + apply existsb_exists. exists m.
        split; [exact Hmeth | apply String.eqb_refl]. }
  destruct (Z.eqb_spec rc 0) as [-> | Hne].
  - pose proof (finish_steps_ends O W installer_methods eq_refl eq_refl
                  eq_refl eq_refl s1) as En.
    destruct (Final (snd (finish_steps O W s1))) as (F1 & F2 & F3).
    + destruct En as (sm & (_ & (evs' & Hm' & _) & _) & [-> | (_ & sz & ->)]).
      * eauto.
      * eexists. unfold closing. simpl. rewrite Hm', <- !app_assoc.
        reflexivity.
    + apply (ends_trace _ _ _ _ _ En).
    + destruct (finish_steps O W s1) as [r s']. simpl in *.
      repeat split; auto. intros N. congruence.
  - set (sE := add_event (Error "Package installation failed.") s1).
    pose proof (cleanup_partial_keeps O W installer_methods false eq_refl sE)
      as (Hsc & _ & (evs' & Hm' & _) & Hacts & _).
    destruct (Final (snd (_cleanup_partial O W sE))) as (F1 & F2 & F3).
    + eexists. rewrite Hm'. unfold sE. simpl. rewrite <- app_assoc.
      reflexivity.
    + exact Hacts.
    + simpl. repeat split; auto. intros _.
      rewrite Hsc. simpl. rewrite Hsucc. exact Hs4.
Qed.

Lemma interpreter_detour_installs_unvalidated_witness :
  exists rc,
    In (Run ["/tmp/demo/Demo/venv/bin/python3"; "-m"; "pip"; "install";
             "numpy; reboot"] rc)
       (trace (run_worker (host None (always 0))
                 (demo ["numpy; reboot"] false false false)
                 fs_project_with_python)).
Proof.
  destruct (interpreter_detour_installs_unvalidated (host None (always 0))
              (demo ["numpy; reboot"] false false false)
              fs_project_with_python) as (rc & H & _).
  - split; [vm_compute; reflexivity |].
    intros d Hd. simpl in Hd.
    repeat (destruct Hd as [<- | Hd];
            [split; [vm_compute; reflexivity
                    | intros Hi; vm_compute in Hi;
                      first [discriminate Hi | vm_compute; eauto]] |]).
    destruct Hd.
  - intros d _. reflexivity.
  - vm_compute. reflexivity.
  - vm_compute. reflexivity.
  - vm_compute. reflexivity.
  - discriminate.
  - exists rc. exact H.
Defined.

(* ===================================================================== *)
(** ** Where the stop flag is read                                        *)
(* ===================================================================== *)
















Section Attentive.

Variable O : oracle.
Variable W : worker.









End Attentive.
















Section Metered.

Variable O : oracle.
Variable W : worker.
Variable R : nat.
Hypothesis bounded : reads_bounded O R.








End Metered.




(* ===================================================================== *)
(** ** A run cancelled before it starts                                   *)
(* ===================================================================== *)

Lemma quiet_no_codes forb acts :
  forallb (act_ok forb true) acts = true -> run_codes acts = [].
Proof.
  induction acts as [| a acts IH]; simpl; [reflexivity |].
  intros H. apply andb_true_iff in H. destruct H as [Ha Hs].
  destruct a; simpl in *; try discriminate; auto.
Qed.

Lemma quiet_idle forb s s' : within forb true s s' -> idle s s'.
Proof.
  intros (Hs & _ & _ & (acts & Ht & Ha) & _). split; [exact Hs |].
  rewrite Ht, run_codes_app, (quiet_no_codes forb acts Ha), app_nil_r.
  reflexivity.
Qed.

Lemma idle_refl s : idle s s.
Proof. split; reflexivity. Qed.

Lemma idle_trans s1 s2 s3 : idle s1 s2 -> idle s2 s3 -> idle s1 s3.
Proof. intros [A B] [C D]. split; congruence. Qed.

Lemma idle_struck s1 s2 s3 : idle s1 s2 -> struck s2 s3 -> struck s1 s3.
Proof. intros [A B] [C D]. split; congruence. Qed.

Lemma struck_idle s1 s2 s3 : struck s1 s2 -> idle s2 s3 -> struck s1 s3.
Proof. intros [A B] [C D]. split; congruence. Qed.

Lemma idle_event e s : idle s (add_event e s).
Proof. split; reflexivity. Qed.

Lemma idle_enter m s : idle s (add_action (Enter m) s).
Proof.
  split; [reflexivity |]. simpl. rewrite run_codes_app. apply app_nil_r.
Qed.

(** [create_venv] by cases on the write probe and on the builder. *)
Lemma create_venv_eq O W venv s :
  create_venv O W venv s =
  let s0 := add_action (Enter "create_venv") s in
  match (touch O (path_join (dirname venv) ".write_test") ;;
         unlink O (path_join (dirname venv) ".write_test")) s0 with
  | (inl PermissionError, s1) =>
      (inr false,
       add_event (Error ("No write permission for: " ++ dirname venv)) s1)
  | (inl e, s1) => (inl e, s1)
  | (inr _, s1) =>
      match run_command_stream O
              [sys_executable O; "-m"; "venv"; venv; "--prompt";
               basename (project_dir W)]
              (add_event (Log ("Creating virtual environment at: " ++ venv
                               ++ " ...")) s1) with
      | (inl e, s3) => (inl e, s3)
      | (inr rc, s3) =>
          if Z.eqb rc 0 then
            (inr true,
             add_event (Ok "Virtual environment created successfully.") s3)
          else
            (inr false,
             add_event (Error "Virtual environment creation failed.") s3)
      end
  end.
Proof.
  unfold create_venv. unfold bind at 1. unfold enter, act, modify at 1.
  cbv zeta. unfold bind at 1. rewrite try_eq.
  destruct ((touch O _ ;; unlink O _) _) as [[e | []] s1]; simpl.
  - destruct e; reflexivity.
  - unfold bind at 1. unfold post at 1, modify at 1. unfold bind at 1.
    destruct (run_command_stream O _ _) as [[e | rc] s3]; [reflexivity |].
    destruct (Z.eqb rc 0); reflexivity.
Qed.

Section CancelledFromTheStart.

Variable O : oracle.
Variable W : worker.

Hypothesis cancelled : cancelled_from O = Some 0.

Lemma stop_seen_always s : stop_seen O s = true.
Proof. unfold stop_seen. rewrite cancelled. reflexivity. Qed.

(** No command gets anywhere: the call returns 1, with the child killed
    before its first read if it could be launched at all. *)
Lemma run_command_stream_stopped cmd s :
  fst (run_command_stream O cmd s) = inr 1%Z
  /\ struck s (snd (run_command_stream O cmd s)).
Proof.
  rewrite run_command_stream_eq.
  destruct (popen O cmd s) as [e | ch].
  - simpl. split; [reflexivity |]. split; [reflexivity |].
    simpl. rewrite run_codes_app. reflexivity.
  - rewrite (stream_stop O ch (reads ch) s (stop_seen_always s)). simpl.
    split; [reflexivity |]. split; [reflexivity |].
    cbn [trace add_action add_event set_fs tick_stop].
    rewrite !run_codes_app. simpl. rewrite app_nil_r. reflexivity.
Qed.

Lemma create_venv_stopped venv s :
  fst (create_venv O W venv s) <> inr true
  /\ (idle s (snd (create_venv O W venv s))
      \/ struck s (snd (create_venv O W venv s))).
Proof.
  rewrite create_venv_eq. cbv zeta.
  set (s0 := add_action (Enter "create_venv") s).
  assert (I0 : idle s s0) by apply idle_enter.
  assert (K : keeps [] true
                (touch O (path_join (dirname venv) ".write_test") ;;
                 unlink O (path_join (dirname venv) ".write_test")))
    by (keeps_auto; [apply touch_keeps | apply unlink_keeps]).
  pose proof (quiet_idle [] _ _ (K s0)) as I1.
  destruct ((touch O _ ;; unlink O _) s0) as [[e | []] s1]; simpl in I1.
  - assert (I : idle s s1) by (eapply idle_trans; eauto).
    destruct e; (split; [discriminate |]); left;
      first [exact I | eapply idle_trans; [exact I | apply idle_event]].
  - set (s2 := add_event _ s1).
    assert (I2 : idle s s2).
    { eapply idle_trans; [exact I0 |]. eapply idle_trans; [exact I1 |].
      apply idle_event. }
    destruct (run_command_stream_stopped
                [sys_executable O; "-m"; "venv"; venv; "--prompt";
                 basename (project_dir W)] s2) as (Hr & Hs).
    destruct (run_command_stream O _ s2) as [r s3]. simpl in Hr, Hs.
    subst r. simpl. split; [discriminate |]. right.
    eapply struck_idle; [eapply idle_struck; eauto | apply idle_event].
Qed.

Lemma install_packages_individual_stopped pip pkg rest s :
  fst (install_packages_individual O pip (pkg :: rest) s) = inr false
  /\ idle s (snd (install_packages_individual O pip (pkg :: rest) s)).
Proof.
  rewrite install_packages_individual_eq. cbv zeta.
  rewrite install_each_cons, stop_seen_always. simpl.
  split; [reflexivity |].
  apply (idle_enter "install_packages_individual" s).
Qed.

Lemma cleanup_partial_idle_codes s : idle s (snd (_cleanup_partial O W s)).
Proof.
  apply (quiet_idle []). apply cleanup_partial_keeps. reflexivity.
Qed.

(** The installer goes on only if it ran no command. *)
Lemma install_step_stopped pip use_python s :
  (fst (install_step O W pip use_python s) = inr true
   /\ idle s (snd (install_step O W pip use_python s)))
  \/ (fst (install_step O W pip use_python s) = inr false
      /\ struck s (snd (install_step O W pip use_python s))).
Proof.
  rewrite install_step_eq.
  destruct (packages W) as [| p0 rest] eqn:Epk.
  { left. split; [reflexivity | apply idle_event]. }
  rewrite <- Epk. destruct use_python.
  - destruct (run_command_stream_stopped
                ([pip; "-m"; "pip"] ++ ["install"] ++ packages W)%list s)
      as (Hr & Hs).
    destruct (run_command_stream O _ s) as [r s1]. simpl in Hr, Hs. subst r.
    simpl. right. split; [reflexivity |].
    eapply struck_idle; [exact Hs |].
    eapply idle_trans; [apply idle_event | apply cleanup_partial_idle_codes].
  - rewrite install_packages_batch_eq. cbv zeta. rewrite Epk. rewrite <- Epk.
    set (s0 := add_action (Enter "install_packages_batch") s).
    set (s1 := add_event _ s0).
    set (s2 := mk_state _ _ _ _ _ _ _).
    assert (I2 : idle s s2).
    { eapply idle_trans; [apply idle_enter |]. split; reflexivity. }
    destruct (List.filter is_valid (packages W)) as [| v vs] eqn:Ev.
    { left. split; [reflexivity |].
      eapply idle_trans; [exact I2 | apply idle_event]. }
    destruct (run_command_stream_stopped ([pip; "install"] ++ v :: vs)%list s2)
      as (Hr & Hs).
    destruct (run_command_stream O _ s2) as [r s3]. simpl in Hr, Hs. subst r.
    simpl.
    set (s4 := add_event _ s3).
    destruct (install_packages_individual_stopped pip v vs s4) as (Hr & Hi).
    destruct (install_packages_individual O pip (v :: vs) s4) as [r s5].
    simpl in Hr, Hi. subst r. right. split; [reflexivity |].
    eapply struck_idle; [| apply cleanup_partial_idle_codes].
    eapply struck_idle; [| exact Hi].
    eapply struck_idle; [| apply idle_event].
    eapply idle_struck; eauto.
Qed.

Lemma finish_steps_no_codes s :
  run_codes (trace (snd (finish_steps O W s))) = run_codes (trace s).
Proof.
  rewrite finish_steps_eq.
  pose proof (finish_prefix_keeps O W [] eq_refl eq_refl eq_refl eq_refl
                true s) as K.
  apply (quiet_idle []) in K. destruct K as [_ K].
  destruct (finish_prefix O W s) as [[e | sz] sm]; exact K.
Qed.

Lemma install_and_finish_stopped venv s :
  run_codes (trace (snd (install_and_finish O W venv s)))
  = run_codes (trace s)
  \/ struck s (snd (install_and_finish O W venv s)).
Proof.
  rewrite install_and_finish_eq.
  assert (Step : forall pip b s0,
             idle s s0 ->
             run_codes
               (trace (snd match install_step O W pip b s0 with
                           | (inl e, s1) => (inl e, s1)
                           | (inr true, s1) => finish_steps O W s1
                           | (inr false, s1) => (inr tt, s1)
                           end)) = run_codes (trace s)
             \/ struck s (snd match install_step O W pip b s0 with
                              | (inl e, s1) => (inl e, s1)
                              | (inr true, s1) => finish_steps O W s1
                              | (inr false, s1) => (inr tt, s1)
                              end)).
  { intros pip b s0 I0.
    destruct (install_step_stopped pip b s0) as [(Hr & Hi) | (Hr & Hs)];
      destruct (install_step O W pip b s0) as [r s1]; simpl in *; subst r.
    - left. rewrite finish_steps_no_codes.
      destruct Hi as [_ ->]. apply I0.
    - right. eapply idle_struck; eauto. }
  destruct (path_exists (fs s) (which_pip_in_venv O venv)).
  - apply Step, idle_refl.
  - destruct (path_exists (fs s) (which_python_in_venv O venv)).
    + apply Step, idle_event.
    + left.
      destruct (cleanup_partial_idle_codes
                  (add_event (Error "Cannot locate pip in venv. Aborting.") s))
        as [_ ->].
      reflexivity.
Qed.

Lemma run_try_stopped s :
  run_codes (trace (snd (run_try O W s))) = run_codes (trace s)
  \/ struck s (snd (run_try O W s)).
Proof.
  rewrite run_try_eq. cbv zeta.
  pose proof (quiet_idle [] _ _
                (path_mkdir_parents_keeps O [] true
                   (rev (ancestors (project_dir W))) (project_dir W) s)) as I1.
  destruct (path_mkdir_parents O _ _ s) as [[e | []] s1]; simpl in I1 |- *.
  { left. apply I1. }
  pose proof (quiet_idle [] _ _
                (create_directory_structure_keeps O W [] true eq_refl
                   (after_folder W s1))) as I2.
  assert (I12 : idle s (after_folder W s1))
    by (eapply idle_trans; [exact I1 | apply idle_event]).
  destruct (create_directory_structure O W (after_folder W s1))
    as [[e | []] s2]; simpl in I2 |- *.
  { left. destruct I2 as [_ ->]. apply I12. }
  set (venv := path_join (project_dir W) "venv").
  set (s3 := set_venv_path venv s2).
  assert (I3 : idle s s3).
  { eapply idle_trans; [exact I12 |]. eapply idle_trans; [exact I2 |].
    split; reflexivity. }
  destruct (path_exists (fs s2) venv).
  - set (s4 := add_event _ s3).
    assert (I4 : idle s s4) by (eapply idle_trans; [exact I3 | apply idle_event]).
    destruct (install_and_finish_stopped venv s4) as [H | H].
    + left. rewrite H. apply I4.
    + right. eapply idle_struck; eauto.
  - destruct (create_venv_stopped venv s3) as (Hr & Hc).
    destruct (create_venv O W venv s3) as [[e | [|]] s4]; simpl in Hr, Hc |- *.
    + destruct Hc as [Hc | Hc].
      * left. destruct Hc as [_ ->]. apply I3.
      * right. eapply idle_struck; eauto.
    + congruence.
    + pose proof (cleanup_partial_idle_codes s4) as I5.
      destruct Hc as [Hc | Hc].
      * left. destruct I5 as [_ ->]. destruct Hc as [_ ->]. apply I3.
      * right. eapply struck_idle; [| exact I5]. eapply idle_struck; eauto.
Qed.

End CancelledFromTheStart.

(** X21. A run whose stop flag is set before it starts streams at most one
    command through [run_command_stream]: the first it needs. That command
    is recorded with the code 1 (its child, if it could be launched, is
    killed before its first read), and the run fails. Only a run that
    streams no command at all can still succeed. The commands of
    [create_git_repo], run with [subprocess.run], are not streamed: they are
    not counted here and the flag does not stop them. *)
Theorem run_cancelled_from_the_start O W fs0 :
  cancelled_from O = Some 0 ->
  run_codes (trace (run_worker O W fs0)) = []
  \/ (run_codes (trace (run_worker O W fs0)) = [1%Z]
      /\ success (run_worker O W fs0) = false).
Proof.
  intros Hc. unfold run_worker.
  destruct (run_final O W (init_state fs0)) as (Hs & Ht & _).
  rewrite Hs, Ht.
  destruct (run_try_stopped O W Hc (init_state fs0)) as [H | [H1 H2]].
  - left. exact H.
  - right. split; [exact H2 | exact H1].
Qed.

Lemma run_cancelled_from_the_start_witness :
  run_codes (trace (run_worker (host (Some 0) (always 0))
                      (demo ["aa"; "bb"] true false true) fs_folder))
  = [1%Z]
  /\ success (run_worker (host (Some 0) (always 0))
                (demo ["aa"; "bb"] true false true) fs_folder) = false.
Proof.
  destruct (run_cancelled_from_the_start (host (Some 0) (always 0))
              (demo ["aa"; "bb"] true false true) fs_folder eq_refl)
    as [H | H].
  - vm_compute in H. discriminate H.
  - exact H.
Defined.

(* ===================================================================== *)
(** ** The request of [on_create] and the presets                         *)
(* ===================================================================== *)

Lemma validate_request_cons ask n pkg rest acc :
  validate_request ask n (pkg :: rest) acc =
  if is_valid pkg then validate_request ask n rest (acc ++ [pkg])%list
  else if ask n (invalid_package_question pkg
                   (snd (validate_package_name pkg)))
       then validate_request ask (S n) rest acc
       else None.
Proof.
  unfold is_valid. cbn [validate_request].
  destruct (validate_package_name pkg) as [v msg]. reflexivity.
Qed.

Lemma validate_request_some ask pkgs :
  forall n acc l,
    validate_request ask n pkgs acc = Some l ->
    l = (acc ++ List.filter is_valid pkgs)%list.
Proof.
  induction pkgs as [| pkg rest IH]; intros n acc l.
  - simpl. intros [= <-]. rewrite app_nil_r. reflexivity.
  - rewrite validate_request_cons. cbn [List.filter].
    destruct (is_valid pkg).
    + intros H. apply IH in H. rewrite H, <- app_assoc. reflexivity.
    + destruct (ask n _); [apply IH | discriminate].
Qed.

Lemma validate_request_none ask pkgs :
  forall n acc,
    validate_request ask n pkgs acc = None ->
    exists pkg, In pkg pkgs /\ is_valid pkg = false.
Proof.
  induction pkgs as [| pkg rest IH]; intros n acc; [discriminate |].
  rewrite validate_request_cons.
  destruct (is_valid pkg) eqn:Hv.
  - intros H. destruct (IH _ _ H) as (p & Hin & Hp). exists p. simpl. auto.
  - intros _. exists pkg. simpl. auto.
Qed.

Lemma validate_request_all_valid ask pkgs :
  forallb is_valid pkgs = true ->
  forall n acc, validate_request ask n pkgs acc = Some (acc ++ pkgs)%list.
Proof.
  induction pkgs as [| pkg rest IH]; intros H n acc.
  - simpl. rewrite app_nil_r. reflexivity.
  - cbn [forallb] in H. apply andb_prop in H. destruct H as [Hp Hr].
    rewrite validate_request_cons, Hp, (IH Hr), <- app_assoc. reflexivity.
Qed.

Lemma forallb_filter_id {A : Type} (f : A -> bool) l :
  forallb f (List.filter f l) = true.
Proof.
  induction l as [| a l IH]; simpl; [reflexivity |].
  destruct (f a) eqn:E; simpl; [rewrite E |]; exact IH.
Qed.

(** X22. [on_create] never hands a rejected package to the worker. When
    its validation loop lets the request through, the list the worker is
    made with holds exactly the accepted packages of the request, in order:
    answering yes to ["Continue anyway?"] drops the package, it does not
    keep it. A request of accepted packages goes through as it is and opens
    no dialog; a request is turned down only when it holds a rejected
    package. So the validation loop of the worker's batch installer, run on
    that list, keeps all of it and posts no skip notice. *)
Theorem request_reaches_worker_validated askyesno requested validated :
  validate_request askyesno 0 requested [] = Some validated ->
  validated = List.filter is_valid requested
  /\ forallb is_valid validated = true
  /\ (forallb is_valid requested = true -> validated = requested)
  /\ (forall s,
        fst (validate_all validated s) = inr validated
        /\ msgq (snd (validate_all validated s)) = msgq s)
  /\ (forall O W pip s,
        List.filter is_skip_notice
          (skipn (List.length (msgq s))
                 (msgq (snd (install_packages_batch O
                               (mk_worker (project_dir W) validated (options W))
                               pip s)))) = []).
Proof.
  intros H. apply validate_request_some in H. simpl in H. subst validated.
  assert (V : forallb is_valid (List.filter is_valid requested) = true)
    by apply forallb_filter_id.
  split; [reflexivity |]. split; [exact V |]. split.
  { intros Hall. apply filter_is_valid_id, Hall. }
  split.
  - intros s. rewrite validate_all_eq.
    rewrite (filter_is_valid_id _ V), (filter_invalid_nil _ V). simpl.
    rewrite app_nil_r. auto.
  - intros O W pip s.
    destruct (install_packages_batch_spec O
                (mk_worker (project_dir W) (List.filter is_valid requested)
                           (options W)) pip s)
      as (acts & evs & b & _ & _ & Hm & _ & Hskip & _).
    rewrite Hm, skipn_app, Nat.sub_diag, skipn_all, skipn_O. simpl.
    rewrite Hskip. simpl. rewrite (filter_invalid_nil _ V). reflexivity.
Qed.

Lemma request_reaches_worker_validated_witness :
  ["numpy"; "requests==2.31"]
  = List.filter is_valid ["numpy"; "bad;name"; "requests==2.31"].
Proof.
  refine (proj1 (request_reaches_worker_validated always_yes
                   ["numpy"; "bad;name"; "requests==2.31"]
                   ["numpy"; "requests==2.31"] _)).
  vm_compute. reflexivity.
Defined.

Lemma dict_get_missing {A : Type} (d : list (string * A)) k dflt :
  ~ In k (map fst d) -> dict_get d k dflt = dflt.
Proof.
  induction d as [| [k' v] d IH]; simpl; [reflexivity |].
  intros H. destruct (String.eqb_spec k k') as [-> | _].
  - exfalso. apply H. left. reflexivity.
  - apply IH. intros Hin. apply H. right. exact Hin.
Qed.

Lemma preset_packages_valid name : forallb is_valid (get_preset name) = true.
Proof.
  unfold get_preset, PRESETS. cbn [dict_get].
  repeat (match goal with
          | |- context [String.eqb name ?k] =>
              destruct (String.eqb name k); [vm_compute; reflexivity |]
          end).
  reflexivity.
Qed.

(** X23. Every package of every preset is accepted by
    [validate_package_name], so a request made of a preset goes through the
    validation loop of [on_create] as it is, whatever the answers to the
    dialogs would be; a name that is no preset gives the empty list. *)
Theorem presets_hold_accepted_packages_only name :
  forallb is_valid (get_preset name) = true
  /\ (forall askyesno,
        validate_request askyesno 0 (get_preset name) []
        = Some (get_preset name))
  /\ (~ In name get_preset_names -> get_preset name = []).
Proof.
  split; [apply preset_packages_valid |]. split.
  - intros ask.
    apply (validate_request_all_valid ask _ (preset_packages_valid name) 0 []).
  - apply dict_get_missing.
Qed.

(* ===================================================================== *)
(** ** The manifest, version control and the end of a run                 *)
(* ===================================================================== *)

Lemma write_file_eq O p c s :
  write_file O p c s =
  let s1 := add_action (WriteFile p) s in
  match fault O p with
  | Some e => (inl e, s1)
  | None =>
      match node_at (fs s) p with
      | Some Dir => (inl IsADirectoryError, s1)
      | _ =>
          match node_at (fs s) (dirname p) with
          | Some Dir =>
              match write_fault O p c with
              | None => (inr tt, set_fs (<[p := File c]> (fs s)) s1)
              | Some (e, n) =>
                  (inl e,
                   set_fs (<[p := File (String.substring 0 n c)]> (fs s)) s1)
              end
          | Some (File _) => (inl NotADirectoryError, s1)
          | None => (inl FileNotFoundError, s1)
          end
      end
  end.
Proof.
  unfold write_file, bind, act, modify, get, raise. simpl.
  destruct (fault O p) as [e |]; [reflexivity |].
  destruct (node_at (fs s) p) as [[| c'] |];
    try reflexivity;
    (destruct (node_at (fs s) (dirname p)) as [[| c''] |];
     try reflexivity;
     destruct (write_fault O p c) as [[e n] |]; reflexivity).
Qed.

(** What one write of a whole file does: the other paths keep what they
    had; the path itself holds the text when the write returns, and when it
    raises it holds what it held (the file was never opened) or a first part
    of the text (it was opened, so created or truncated, and the write
    stopped half way). *)
Lemma write_file_result O p c s :
  let r := fst (write_file O p c s) in
  let s' := snd (write_file O p c s) in
  trace s' = (trace s ++ [WriteFile p])%list
  /\ msgq s' = msgq s
  /\ (forall q, q <> p -> fs s' !! q = fs s !! q)
  /\ (r = inr tt -> fs s' = <[p := File c]> (fs s))
  /\ (forall e, r = inl e ->
        fs s' = fs s
        \/ exists n, fs s' = <[p := File (String.substring 0 n c)]> (fs s)).
Proof.
  rewrite write_file_eq. cbv zeta.
  assert (Same : forall (r : exn + unit) e0,
            r = inl e0 ->
            trace (add_action (WriteFile p) s) = (trace s ++ [WriteFile p])%list
            /\ msgq (add_action (WriteFile p) s) = msgq s
            /\ (forall q, q <> p ->
                  fs (add_action (WriteFile p) s) !! q = fs s !! q)
            /\ (r = inr tt ->
                fs (add_action (WriteFile p) s) = <[p := File c]> (fs s))
            /\ (forall e, r = inl e ->
                  fs (add_action (WriteFile p) s) = fs s
                  \/ exists n,
                       fs (add_action (WriteFile p) s)
                       = <[p := File (String.substring 0 n c)]> (fs s))).
  { intros r e0 ->. repeat split; auto. discriminate. }
  destruct (fault O p) as [e |]; [exact (Same _ e eq_refl) |].
  assert (Open :
            let r := fst (match node_at (fs s) (dirname p) with
                          | Some Dir =>
                              match write_fault O p c with
                              | None =>
                                  (inr tt,
                                   set_fs (<[p := File c]> (fs s))
                                     (add_action (WriteFile p) s))
                              | Some (e, n) =>
                                  (inl e,
                                   set_fs
                                     (<[p := File (String.substring 0 n c)]>
                                        (fs s))
                                     (add_action (WriteFile p) s))
                              end
                          | Some (File _) =>
                              (inl NotADirectoryError,
                               add_action (WriteFile p) s)
                          | None =>
                              (inl FileNotFoundError,
                               add_action (WriteFile p) s)
                          end) in
            let s' := snd (match node_at (fs s) (dirname p) with
                           | Some Dir =>
                               match write_fault O p c with
                               | None =>
                                   (inr tt,
                                    set_fs (<[p := File c]> (fs s))
                                      (add_action (WriteFile p) s))
                               | Some (e, n) =>
                                   (inl e,
                                    set_fs
                                      (<[p := File (String.substring 0 n c)]>
                                         (fs s))
                                      (add_action (WriteFile p) s))
                               end
                           | Some (File _) =>
                               (inl NotADirectoryError,
                                add_action (WriteFile p) s)
                           | None =>
                               (inl FileNotFoundError,
                                add_action (WriteFile p) s)
                           end) in
            trace s' = (trace s ++ [WriteFile p])%list
            /\ msgq s' = msgq s
            /\ (forall q, q <> p -> fs s' !! q = fs s !! q)
            /\ (r = inr tt -> fs s' = <[p := File c]> (fs s))
            /\ (forall e, r = inl e ->
                  fs s' = fs s
                  \/ exists n,
                       fs s' = <[p := File (String.substring 0 n c)]> (fs s))).
  { cbv zeta.
    destruct (node_at (fs s) (dirname p)) as [[| c''] |];
      [| exact (Same _ NotADirectoryError eq_refl)
       | exact (Same _ FileNotFoundError eq_refl)].
    destruct (write_fault O p c) as [[e n] |];
      cbn [fst snd trace msgq fs set_fs add_action].
    - split; [reflexivity |]. split; [reflexivity |].
      split; [intros q Hq; apply lookup_insert_ne; congruence |].
      split; [discriminate |]. intros e' _. right. exists n. reflexivity.
    - split; [reflexivity |]. split; [reflexivity |].
      split; [intros q Hq; apply lookup_insert_ne; congruence |].
      split; [reflexivity | discriminate]. }
  destruct (node_at (fs s) p) as [[| c'] |];
    [exact (Same _ IsADirectoryError eq_refl) | exact Open | exact Open].
Qed.

Lemma write_requirements_eq O W s :
  write_requirements O W s =
  match write_file O (requirements_path W) (requirements_text O W)
          (add_action (Enter "write_requirements") s) with
  | (inr _, s1) =>
      (inr true,
       add_event (Ok ("requirements.txt saved (" ++ requirements_path W
                      ++ ")")) s1)
  | (inl e, s1) =>
      (inr false,
       add_event (Error ("Failed to write requirements.txt: " ++ exn_text e))
                 s1)
  end.
Proof.
  unfold write_requirements, requirements_path. unfold bind at 1.
  unfold enter, act, modify at 1. cbv zeta. unfold bind at 1.
  rewrite try_eq.
  destruct (write_file O _ _ _) as [[e | []] s1]; reflexivity.
Qed.

(** X24. [write_requirements] never raises and writes to one path, the
    file [requirements.txt] of the project folder: every other path keeps
    what it had. For a request of ASCII texts: when it returns [True] the
    file holds the two header lines, an empty line, and one line for each
    package of the request, in order and stripped: the packages asked for,
    whether or not they were accepted or installed; and one ["ok"] item was
    posted. When it returns [False] one error item that starts with
    ["Failed to write requirements.txt: "] was posted, and the file is as it
    was (it could not be opened) or holds a first part of that text (it was
    opened, so created or truncated, and the write stopped half way). It
    returns [True] whenever the project folder is a directory, the path is
    no directory and the host faults neither the opening nor the writing. *)
Theorem manifest_lists_the_whole_request O W s :
  (forall pkg, In pkg (packages W) -> all_chars is_ascii pkg = true) ->
  let manifest :=
    "# Generated by Project Builder" ++ nl
    ++ "# Date: " ++ now_stamp O ++ nl ++ nl
    ++ String.concat EmptyString
         (map (fun pkg => strip pkg ++ nl) (packages W)) in
  let r := fst (write_requirements O W s) in
  let s' := snd (write_requirements O W s) in
  (forall p, p <> requirements_path W -> fs s' !! p = fs s !! p)
  /\ trace s'
     = (trace s ++ [Enter "write_requirements";
                    WriteFile (requirements_path W)])%list
  /\ ((r = inr true
       /\ fs s' = <[requirements_path W := File manifest]> (fs s)
       /\ msgq s'
          = (msgq s ++ [Ok ("requirements.txt saved (" ++ requirements_path W
                            ++ ")")])%list)
      \/ (exists text,
            r = inr false
            /\ msgq s'
               = (msgq s ++ [Error ("Failed to write requirements.txt: "
                                    ++ text)])%list
            /\ (fs s' = fs s
                \/ exists n,
                     fs s' = <[requirements_path W :=
                                 File (String.substring 0 n manifest)]>
                               (fs s))))
  /\ (project_dir W <> EmptyString ->
      is_dir (fs s) (project_dir W) = true ->
      is_dir (fs s) (requirements_path W) = false ->
      fault O (requirements_path W) = None ->
      write_fault O (requirements_path W) manifest = None ->
      r = inr true).
Proof.
  intros _. cbv zeta. rewrite write_requirements_eq.
  fold (requirements_text O W).
  set (s0 := add_action (Enter "write_requirements") s).
  pose proof (write_file_result O (requirements_path W)
                (requirements_text O W) s0) as R.
  cbv zeta in R. destruct R as (Ht & Hm & Hother & Hok & Hfail).
  split; [| split; [| split]].
  - destruct (write_file O _ _ s0) as [[e | []] s1];
      cbn [fst snd fs add_event] in *; exact Hother.
  - destruct (write_file O _ _ s0) as [[e | []] s1];
      cbn [fst snd trace add_event] in *; rewrite Ht; unfold s0;
      cbn [trace add_action]; rewrite <- app_assoc; reflexivity.
  - destruct (write_file O _ _ s0) as [[e | []] s1];
      cbn [fst snd fs msgq add_event] in *.
    + right. exists (exn_text e). split; [reflexivity |].
      split; [rewrite Hm; reflexivity |]. exact (Hfail e eq_refl).
    + left. split; [reflexivity |].
      split; [exact (Hok eq_refl) | rewrite Hm; reflexivity].
  - intros Hne Hdir Hreq Hf Hw.
    rewrite write_file_eq. cbv zeta.
    change (fs s0) with (fs s). rewrite Hf.
    assert (D : dirname (requirements_path W) = project_dir W)
      by (apply dirname_path_join; [exact Hne | reflexivity]).
    rewrite D. unfold is_dir in Hdir, Hreq.
    destruct (node_at (fs s) (project_dir W)) as [[| c] |];
      try discriminate.
    destruct (node_at (fs s) (requirements_path W)) as [[| c] |];
      try discriminate; rewrite Hw; reflexivity.
Qed.

Lemma manifest_lists_the_whole_request_witness :
  fst (write_requirements (host None (always 0))
         (demo ["numpy"; " bad;name "] false false false)
         (init_state fs_folder)) = inr true.
Proof.
  refine (proj2 (proj2 (proj2
            (manifest_lists_the_whole_request (host None (always 0))
               (demo ["numpy"; " bad;name "] false false false)
               (init_state fs_folder) _))) _ _ _ _ _).
  - intros pkg [<- | [<- | []]]; reflexivity.
  - discriminate.
  - vm_compute. reflexivity.
  - vm_compute. reflexivity.
  - reflexivity.
  - reflexivity.
Defined.

Lemma sub_run_eq O cmd s :
  sub_run O cmd s =
  match subprocess_run O cmd (add_action (SubprocessRun cmd) s) with
  | inl e => (inl e, add_action (SubprocessRun cmd) s)
  | inr f => (inr tt, set_fs (f (fs s)) (add_action (SubprocessRun cmd) s))
  end.
Proof.
  unfold sub_run, bind, act, modify, get, raise. simpl.
  destruct (subprocess_run O cmd _); reflexivity.
Qed.

(** [create_git_repo] by cases on the probe and on the four steps. *)
Lemma create_git_repo_eq O W s :
  create_git_repo O W s =
  match sub_run O git_probe (add_action (Enter "create_git_repo") s) with
  | (inl e, s1) =>
      if git_missing e then
        (inr false,
         add_event
           (Warn "Git not found or not in PATH. Skipping git initialization.")
           s1)
      else (inl e, s1)
  | (inr _, s1) =>
      match (sub_run O ["git"; "init"] ;;
             write_file O (gitignore_path W) (unlines gitignore_lines) ;;
             sub_run O ["git"; "add"; "."] ;;
             sub_run O ["git"; "commit"; "-m";
                        "Initial commit: Project created with Project Builder"])
              (add_event (Log "Initializing git repository...") s1) with
      | (inr _, s2) =>
          (inr true,
           add_event (Ok "Git repository initialized with initial commit.") s2)
      | (inl CalledProcessError, s2) =>
          (inr false,
           add_event (Error ("Git operation failed: "
                             ++ exn_text CalledProcessError)) s2)
      | (inl e, s2) =>
          (inr false,
           add_event (Error ("Failed to initialize git: " ++ exn_text e)) s2)
      end
  end.
Proof.
  unfold create_git_repo, git_probe, gitignore_path. unfold bind at 1.
  unfold enter, act, modify at 1. cbv zeta. unfold bind at 1.
  rewrite try_eq.
  destruct (sub_run O _ (add_action _ s)) as [[e | []] s1]; simpl.
  - destruct e; reflexivity.
  - unfold bind at 1. unfold post at 1, modify at 1. unfold bind at 1.
    rewrite try_eq.
    match goal with
    | |- context [fst (?m ?st)] => destruct (m st) as [[e | []] s2]
    end; simpl; [destruct e |]; reflexivity.
Qed.

Lemma create_git_repo_raises O W s e :
  fst (create_git_repo O W s) = inl e ->
  git_missing e = false
  /\ fst (sub_run O git_probe (add_action (Enter "create_git_repo") s)) = inl e
  /\ success (snd (create_git_repo O W s)) = success s.
Proof.
  rewrite create_git_repo_eq.
  pose proof (sub_run_keeps O [] true git_probe
                (add_action (Enter "create_git_repo") s)) as (K & _).
  destruct (sub_run O git_probe _) as [[e' | []] s1]; simpl in K |- *.
  - destruct (git_missing e') eqn:G; simpl; [discriminate |].
    intros [= <-]. auto.
  - match goal with
    | |- context [fst (match ?m with _ => _ end)] =>
        destruct m as [[e' | []] s2]
    end; [destruct e' |]; discriminate.
Qed.

Section LaterSteps.

Variable O : oracle.
Variable W : worker.

Lemma finish_writes_outcome s r s' :
  finish_writes O W s = (r, s') ->
  r = inr tt
  \/ (exists e, r = inl e /\ options_get W "create_git" false = true
                 /\ git_missing e = false).
Proof.
  unfold finish_writes. unfold bind at 1.
  pose proof (write_requirements_eq O W s) as E1.
  destruct (write_requirements O W s) as [[e | b] s1].
  { exfalso. revert E1.
    destruct (write_file O _ _ _) as [[e' | []] s'']; discriminate. }
  clear E1. unfold bind at 1.
  assert (R : exists s2,
             (if options_get W "create_readme" true
              then create_readme O W ;; ret tt else ret tt) s1 = (inr tt, s2)).
  { destruct (options_get W "create_readme" true);
      [| eexists; reflexivity].
    unfold bind, create_readme. unfold bind, enter, act, modify. simpl.
    rewrite try_eq.
    destruct (write_file O _ _ _) as [[e' | []] s'']; eexists; reflexivity. }
  destruct R as (s2 & ->). unfold bind at 1.
  destruct (options_get W "create_git" false) eqn:G.
  - unfold bind at 1.
    pose proof (create_git_repo_raises O W s2) as Hr.
    destruct (create_git_repo O W s2) as [[e | b'] s3]; simpl in Hr |- *.
    + intros [= <- <-]. right. exists e.
      destruct (Hr e eq_refl) as (H1 & _). auto.
    + intros [= <- <-]. left. reflexivity.
  - simpl. intros [= <- <-]. left. reflexivity.
Qed.

(** Steps 5 to 9 end in success unless the probe for git raises. *)
Lemma finish_steps_outcome s :
  (fst (finish_steps O W s) = inr tt
   /\ success (snd (finish_steps O W s)) = true)
  \/ (exists e,
        fst (finish_steps O W s) = inl e
        /\ options_get W "create_git" false = true
        /\ git_missing e = false).
Proof.
  rewrite finish_steps_eq, finish_prefix_eq.
  destruct (finish_writes O W s) as [r s1] eqn:E.
  destruct (finish_writes_outcome s r s1 E) as [-> | (e & -> & Hg & Hm)].
  - left. simpl. auto.
  - right. exists e. simpl. auto.
Qed.

(** Up to the closing steps [run] either stays clear of the manifest or
    hands over to steps 5 to 9. *)
Lemma install_and_finish_reaches venv s :
  (exists acts,
     trace (snd (install_and_finish O W venv s)) = (trace s ++ acts)%list
     /\ forallb (act_ok ["write_requirements"] false) acts = true)
  \/ (exists s1, install_and_finish O W venv s = finish_steps O W s1).
Proof.
  rewrite install_and_finish_eq.
  assert (Step : forall pip b s0,
             (exists acts0, trace s0 = (trace s ++ acts0)%list
                            /\ forallb (act_ok ["write_requirements"] false)
                                       acts0 = true) ->
             (exists acts,
                trace (snd match install_step O W pip b s0 with
                           | (inl e, s1) => (inl e, s1)
                           | (inr true, s1) => finish_steps O W s1
                           | (inr false, s1) => (inr tt, s1)
                           end) = (trace s ++ acts)%list
                /\ forallb (act_ok ["write_requirements"] false) acts = true)
             \/ (exists s1,
                   match install_step O W pip b s0 with
                   | (inl e, s1) => (inl e, s1)
                   | (inr true, s1) => finish_steps O W s1
                   | (inr false, s1) => (inr tt, s1)
                   end = finish_steps O W s1)).
  { intros pip b s0 (acts0 & Ht0 & Ha0).
    pose proof (install_step_keeps O W ["write_requirements"] eq_refl eq_refl
                  eq_refl pip b s0) as (_ & _ & _ & (acts & Ht & Ha) & _).
    destruct (install_step O W pip b s0) as [[e | [|]] s1]; simpl in Ht |- *.
    - left. exists (acts0 ++ acts)%list. rewrite Ht, Ht0, app_assoc.
      split; [reflexivity | apply forallb_app_true; assumption].
    - right. eauto.
    - left. exists (acts0 ++ acts)%list. rewrite Ht, Ht0, app_assoc.
      split; [reflexivity | apply forallb_app_true; assumption]. }
  destruct (path_exists (fs s) (which_pip_in_venv O venv)).
  - apply Step. exists []. rewrite app_nil_r. auto.
  - destruct (path_exists (fs s) (which_python_in_venv O venv)).
    + apply Step. exists []. rewrite app_nil_r. auto.
    + left.
      pose proof (cleanup_partial_keeps O W ["write_requirements"] false
                    eq_refl
                    (add_event (Error "Cannot locate pip in venv. Aborting.")
                               s)) as (_ & _ & _ & K & _).
      exact K.
Qed.

Lemma run_try_reaches s :
  (exists acts,
     trace (snd (run_try O W s)) = (trace s ++ acts)%list
     /\ forallb (act_ok ["write_requirements"] false) acts = true)
  \/ (exists s1, run_try O W s = finish_steps O W s1).
Proof.
  rewrite run_try_eq. cbv zeta.
  pose proof (path_mkdir_parents_keeps O ["write_requirements"] false
                (rev (ancestors (project_dir W))) (project_dir W) s)
    as (_ & _ & _ & (a1 & Ht1 & Ha1) & _).
  destruct (path_mkdir_parents O _ _ s) as [[e | []] s1]; simpl in Ht1 |- *.
  { left. exists a1. auto. }
  pose proof (create_directory_structure_keeps O W ["write_requirements"]
                false eq_refl (after_folder W s1))
    as (_ & _ & _ & (a2 & Ht2 & Ha2) & _).
  destruct (create_directory_structure O W (after_folder W s1))
    as [[e | []] s2]; simpl in Ht2 |- *.
  { left. exists (a1 ++ a2)%list. rewrite Ht2, Ht1, app_assoc.
    split; [reflexivity | apply forallb_app_true; assumption]. }
  set (venv := path_join (project_dir W) "venv").
  assert (After : forall s4 a3,
             trace s4 = (trace s2 ++ a3)%list ->
             forallb (act_ok ["write_requirements"] false) a3 = true ->
             (exists acts,
                trace (snd (install_and_finish O W venv s4))
                = (trace s ++ acts)%list
                /\ forallb (act_ok ["write_requirements"] false) acts = true)
             \/ (exists s5,
                   install_and_finish O W venv s4 = finish_steps O W s5)).
  { intros s4 a3 Ht3 Ha3.
    destruct (install_and_finish_reaches venv s4) as [(a4 & Ht4 & Ha4) | R];
      [left | right; exact R].
    exists ((a1 ++ a2) ++ a3 ++ a4)%list.
    rewrite Ht4, Ht3, Ht2, Ht1, !app_assoc.
    split; [reflexivity |].
    repeat apply forallb_app_true; assumption. }
  destruct (path_exists (fs s2) venv).
  - apply (After _ []); [simpl; rewrite app_nil_r; reflexivity | reflexivity].
  - pose proof (create_venv_keeps O W ["write_requirements"] venv eq_refl
                  (set_venv_path venv s2))
      as (_ & _ & _ & (a3 & Ht3 & Ha3) & _).
    destruct (create_venv O W venv (set_venv_path venv s2))
      as [[e | [|]] s4]; simpl in Ht3 |- *.
    + left. exists ((a1 ++ a2) ++ a3)%list.
      rewrite Ht3, Ht2, Ht1, !app_assoc.
      split; [reflexivity |]. repeat apply forallb_app_true; assumption.
    + apply (After s4 a3); assumption.
    + pose proof (cleanup_partial_keeps O W ["write_requirements"] false
                    eq_refl s4) as (_ & _ & _ & (a4 & Ht4 & Ha4) & _).
      left. exists ((a1 ++ a2) ++ a3 ++ a4)%list.
      rewrite Ht4, Ht3, Ht2, Ht1, !app_assoc.
      split; [reflexivity |]. repeat apply forallb_app_true; assumption.
Qed.

End LaterSteps.

(** X25. Once the installer is done nothing can fail the run but the
    probe for git. The results of [write_requirements], [create_readme] and
    [create_git_repo] are not looked at: a run that reaches the manifest
    step with the git option off always succeeds, also when the manifest or
    the README could not be written (an error item says so); with the git
    option on it succeeds unless the probe [git --version] raises an
    exception other than the two that stand for a missing git. *)
Theorem run_succeeds_once_installed O W fs0 :
  In (Enter "write_requirements") (trace (run_worker O W fs0)) ->
  success (run_worker O W fs0) = true
  \/ (options_get W "create_git" false = true
      /\ exists e, git_missing e = false
                   /\ In (Error ("Unexpected error: " ++ exn_text e))
                         (msgq (run_worker O W fs0))).
Proof.
  intros Hin. unfold run_worker in *.
  destruct (run_final O W (init_state fs0)) as (Hs & Ht & _).
  rewrite Ht in Hin.
  destruct (run_try_reaches O W (init_state fs0)) as [(acts & Ha & Hok) | (s1 & E)].
  - exfalso. rewrite Ha in Hin. simpl in Hin.
    exact (act_ok_forbidden ["write_requirements"] false "write_requirements"
             acts Hok eq_refl Hin).
  - destruct (finish_steps_outcome O W s1) as [(Hr & Hsucc) | (e & Hr & Hg & Hm)].
    + left. rewrite Hs, E. exact Hsucc.
    + right. split; [exact Hg |]. exists e. split; [exact Hm |].
      rewrite run_eq, E. cbv zeta. rewrite Hr. cbn [snd].
      set (s2 := add_event (Error (format_exc O e)) (add_event _ _)).
      assert (I2 : In (Error ("Unexpected error: " ++ exn_text e)) (msgq s2)).
      { unfold s2. cbn [msgq add_event]. apply in_or_app. left.
        apply in_or_app. right. left. reflexivity. }
      destruct (success s2); cbn [msgq add_event]; apply in_or_app; left;
        [exact I2 | apply in_or_app; left; exact I2].
Qed.

Lemma run_succeeds_once_installed_witness :
  success (run_worker host_without_manifest (demo ["aa"] true false false)
             fs_with_venv) = true
  /\ In (Error "Failed to write requirements.txt: [Errno 13] Permission denied")
        (msgq (run_worker host_without_manifest (demo ["aa"] true false false)
                 fs_with_venv)).
Proof.
  split.
  - destruct (run_succeeds_once_installed host_without_manifest
                (demo ["aa"] true false false) fs_with_venv) as [H | [H _]].
    + vm_compute. tauto.
    + exact H.
    + vm_compute in H. discriminate H.
  - vm_compute. tauto.
Defined.

(** The four steps that follow the probe, one after the other. *)
Lemma git_steps_outcome O W s :
  exists acts rest,
    (acts ++ rest)%list = tl (git_actions W)
    /\ trace (snd ((sub_run O ["git"; "init"] ;;
                    write_file O (gitignore_path W) (unlines gitignore_lines) ;;
                    sub_run O ["git"; "add"; "."] ;;
                    sub_run O ["git"; "commit"; "-m";
                               "Initial commit: Project created with Project Builder"])
                     s))
       = (trace s ++ acts)%list
    /\ msgq (snd ((sub_run O ["git"; "init"] ;;
                   write_file O (gitignore_path W) (unlines gitignore_lines) ;;
                   sub_run O ["git"; "add"; "."] ;;
                   sub_run O ["git"; "commit"; "-m";
                              "Initial commit: Project created with Project Builder"])
                    s))
       = msgq s
    /\ (fst ((sub_run O ["git"; "init"] ;;
              write_file O (gitignore_path W) (unlines gitignore_lines) ;;
              sub_run O ["git"; "add"; "."] ;;
              sub_run O ["git"; "commit"; "-m";
                         "Initial commit: Project created with Project Builder"])
               s) = inr tt -> rest = []).
Proof.
  destruct ((sub_run O ["git"; "init"] ;; _) s) as [r s'] eqn:E.
  revert E. unfold bind at 1. rewrite sub_run_eq.
  destruct (subprocess_run O ["git"; "init"] _) as [e | f1].
  { intros [= <- <-]. eexists [_], _. simpl.
    split; [reflexivity |]. split; [reflexivity |].
    split; [reflexivity | discriminate]. }
  unfold bind at 1.
  set (s1 := set_fs _ (add_action _ s)).
  pose proof (write_file_result O (gitignore_path W)
                (unlines gitignore_lines) s1) as R.
  cbv zeta in R. destruct R as (Htw & Hmw & _).
  destruct (write_file O (gitignore_path W) (unlines gitignore_lines) s1)
    as [[e | []] s2]; cbn [fst snd] in Htw, Hmw.
  { intros [= <- <-]. eexists [_; _], _. simpl.
    split; [reflexivity |].
    split; [rewrite Htw; unfold s1; simpl; rewrite <- app_assoc; reflexivity |].
    split; [rewrite Hmw; reflexivity | discriminate]. }
  unfold bind at 1. rewrite sub_run_eq.
  destruct (subprocess_run O ["git"; "add"; "."] _) as [e | f3].
  { intros [= <- <-]. eexists [_; _; _], _. simpl.
    split; [reflexivity |].
    split; [rewrite Htw; unfold s1; simpl; rewrite <- !app_assoc;
            reflexivity |].
    split; [rewrite Hmw; reflexivity | discriminate]. }
  rewrite sub_run_eq.
  destruct (subprocess_run O _ _) as [e | f4]; intros [= <- <-].
  - eexists [_; _; _; _], _. simpl.
    split; [reflexivity |].
    split; [rewrite Htw; unfold s1; simpl; rewrite <- !app_assoc;
            reflexivity |].
    split; [rewrite Hmw; reflexivity | discriminate].
  - eexists [_; _; _; _], _. simpl.
    split; [reflexivity |].
    split; [rewrite Htw; unfold s1; simpl; rewrite <- !app_assoc;
            reflexivity |].
    split; [rewrite Hmw; reflexivity | reflexivity].
Qed.

(** The actions of [create_git_repo] are a non-empty prefix of the probe
    and the four steps, and what it posts goes with what it returns. *)
Lemma create_git_repo_prefix O W s :
  exists acts rest,
    (acts ++ rest)%list = git_actions W
    /\ acts <> []
    /\ trace (snd (create_git_repo O W s))
       = (trace s ++ Enter "create_git_repo" :: acts)%list
    /\ (fst (create_git_repo O W s) = inr true ->
        rest = []
        /\ msgq (snd (create_git_repo O W s))
           = (msgq s ++ [Log "Initializing git repository...";
                         Ok "Git repository initialized with initial commit."])%list)
    /\ (fst (create_git_repo O W s) = inr false ->
        exists text,
          msgq (snd (create_git_repo O W s))
          = (msgq s
             ++ [Warn "Git not found or not in PATH. Skipping git initialization."])%list
          \/ msgq (snd (create_git_repo O W s))
             = (msgq s ++ [Log "Initializing git repository..."; Error text])%list)
    /\ (forall e,
          fst (create_git_repo O W s) = inl e ->
          git_missing e = false
          /\ acts = [SubprocessRun git_probe]
          /\ msgq (snd (create_git_repo O W s)) = msgq s).
Proof.
  rewrite create_git_repo_eq, sub_run_eq.
  set (s0 := add_action (Enter "create_git_repo") s).
  destruct (subprocess_run O git_probe _) as [e | f].
  - exists [SubprocessRun git_probe], (tl (git_actions W)).
    split; [reflexivity |]. split; [discriminate |].
    destruct (git_missing e) eqn:G; simpl.
    + split; [rewrite <- app_assoc; reflexivity |].
      split; [discriminate |]. split; [| discriminate].
      intros _. exists EmptyString. left. reflexivity.
    + split; [rewrite <- app_assoc; reflexivity |].
      split; [discriminate |]. split; [discriminate |].
      intros e' [= <-]. auto.
  - set (s1 := add_event (Log "Initializing git repository...") _).
    destruct (git_steps_outcome O W s1) as (acts & rest & Hsplit & Ht & Hm & Hall).
    exists (SubprocessRun git_probe :: acts), rest.
    split; [simpl; rewrite Hsplit; reflexivity |].
    split; [discriminate |].
    match goal with
    | |- context [fst (match ?m with _ => _ end)] =>
        destruct m as [[e | []] s2]
    end; simpl in Ht, Hm, Hall.
    + assert (T : trace s2
                  = (trace s ++ Enter "create_git_repo"
                     :: SubprocessRun git_probe :: acts)%list).
      { rewrite Ht. unfold s1, s0. simpl. rewrite <- !app_assoc. reflexivity. }
      assert (M : msgq s2 = (msgq s ++ [Log "Initializing git repository..."])%list)
        by (rewrite Hm; reflexivity).
      destruct e; simpl; (split; [exact T |]);
        (split; [discriminate |]); (split; [| discriminate]); intros _;
        eexists; right; rewrite M, <- app_assoc; reflexivity.
    + simpl. split.
      { rewrite Ht. unfold s1, s0. simpl. rewrite <- !app_assoc. reflexivity. }
      split.
      { intros _. split; [apply Hall; reflexivity |].
        rewrite Hm. unfold s1. simpl. rewrite <- app_assoc. reflexivity. }
      split; discriminate.
Qed.


(** The four steps that follow the probe, by cases on the answers of the
    host. *)
Lemma git_steps_eq O W s1 :
  (sub_run O ["git"; "init"] ;;
   write_file O (gitignore_path W) (unlines gitignore_lines) ;;
   sub_run O ["git"; "add"; "."] ;;
   sub_run O ["git"; "commit"; "-m";
              "Initial commit: Project created with Project Builder"]) s1 =
  let q1 := asking git_init_cmd s1 in
  match subprocess_run O git_init_cmd q1 with
  | inl e => (inl e, q1)
  | inr f1 =>
      match write_file O (gitignore_path W) (unlines gitignore_lines)
              (answered f1 q1) with
      | (inl e, sw) => (inl e, sw)
      | (inr _, sw) =>
          let q3 := asking git_add_cmd sw in
          match subprocess_run O git_add_cmd q3 with
          | inl e => (inl e, q3)
          | inr f3 =>
              let q4 := asking git_commit_cmd (answered f3 q3) in
              match subprocess_run O git_commit_cmd q4 with
              | inl e => (inl e, q4)
              | inr f4 => (inr tt, answered f4 q4)
              end
          end
      end
  end.
Proof.
  cbv zeta. unfold asking, answered, git_init_cmd, git_add_cmd, git_commit_cmd.
  unfold bind at 1. rewrite sub_run_eq.
  destruct (subprocess_run O ["git"; "init"] _) as [e | f1]; [reflexivity |].
  unfold bind at 1.
  change (fs (add_action (SubprocessRun ["git"; "init"]) s1)) with (fs s1).
  destruct (write_file O _ _ _) as [[e | []] sw]; [reflexivity |].
  unfold bind at 1. rewrite sub_run_eq.
  destruct (subprocess_run O ["git"; "add"; "."] _) as [e | f3];
    [reflexivity |].
  rewrite sub_run_eq.
  change (fs (add_action (SubprocessRun ["git"; "add"; "."]) sw)) with (fs sw).
  destruct (subprocess_run O _ _) as [e | f4]; reflexivity.
Qed.

(** X26. [create_git_repo] works in a fixed order and reports what goes
    wrong instead of raising. It probes with [git --version], then runs
    [git init], writes [.gitignore], runs [git add .] and [git commit],
    stopping at the first step that fails: the actions it took are a
    non-empty prefix of these five. What it returns follows the answers of
    the host, step by step. A probe that the host fails as a missing git
    ([CalledProcessError], [FileNotFoundError]) gives [False] and the one
    warning; a probe that raises anything else makes the method raise that
    exception, with nothing posted. After a probe that passes the log line
    is posted; then the first of [git init], the write, [git add .] and
    [git commit] that the host fails ends the method with [False] and one
    error item made from the exception, nothing further being run; and when
    the host lets all four through the method posts the ["ok"] item and
    returns [True]. In every case the final state is the one the last answer
    left, with the item posted. *)
Theorem git_steps_in_order_and_reported O W s :
  let r := fst (create_git_repo O W s) in
  let s' := snd (create_git_repo O W s) in
  let s0 := asking git_probe (add_action (Enter "create_git_repo") s) in
  (exists acts rest,
     (acts ++ rest)%list = git_actions W
     /\ acts <> []
     /\ trace s' = (trace s ++ Enter "create_git_repo" :: acts)%list
     /\ (r = inr true -> rest = []))
  /\ (forall e,
        subprocess_run O git_probe s0 = inl e ->
        r = (if git_missing e then inr false else inl e)
        /\ s' = (if git_missing e
                 then add_event
                        (Warn "Git not found or not in PATH. Skipping git initialization.")
                        s0
                 else s0))
  /\ (forall f0,
        subprocess_run O git_probe s0 = inr f0 ->
        let s1 := asking git_init_cmd
                    (add_event (Log "Initializing git repository...")
                               (answered f0 s0)) in
        (forall e,
           subprocess_run O git_init_cmd s1 = inl e ->
           r = inr false /\ s' = add_event (git_error e) s1)
        /\ (forall f1,
              subprocess_run O git_init_cmd s1 = inr f1 ->
              let w := write_file O (gitignore_path W)
                         (unlines gitignore_lines) (answered f1 s1) in
              (forall e, fault O (gitignore_path W) = Some e ->
                         fst w = inl e)
              /\ (forall e,
                    fst w = inl e ->
                    r = inr false /\ s' = add_event (git_error e) (snd w))
              /\ (fst w = inr tt ->
                  let s3 := asking git_add_cmd (snd w) in
                  fs s3 = <[gitignore_path W :=
                              File (unlines gitignore_lines)]>
                            (f1 (f0 (fs s)))
                  /\ (forall e,
                        subprocess_run O git_add_cmd s3 = inl e ->
                        r = inr false /\ s' = add_event (git_error e) s3)
                  /\ (forall f3,
                        subprocess_run O git_add_cmd s3 = inr f3 ->
                        let s4 := asking git_commit_cmd (answered f3 s3) in
                        (forall e,
                           subprocess_run O git_commit_cmd s4 = inl e ->
                           r = inr false
                           /\ s' = add_event (git_error e) s4)
                        /\ (forall f4,
                              subprocess_run O git_commit_cmd s4 = inr f4 ->
                              r = inr true
                              /\ s' = add_event
                                        (Ok "Git repository initialized with initial commit.")
                                        (answered f4 s4)))))).
Proof.
  cbv zeta. split.
  { destruct (create_git_repo_prefix O W s)
      as (acts & rest & H1 & H2 & H3 & H4 & _).
    exists acts, rest. repeat split; try assumption.
    intros Hr. apply (H4 Hr). }
  rewrite create_git_repo_eq, sub_run_eq.
  change (add_action (SubprocessRun git_probe)
            (add_action (Enter "create_git_repo") s))
    with (asking git_probe (add_action (Enter "create_git_repo") s)).
  set (s0 := asking git_probe (add_action (Enter "create_git_repo") s)).
  change (fs (add_action (Enter "create_git_repo") s)) with (fs s0).
  split.
  { intros e He. rewrite He. destruct (git_missing e); split; reflexivity. }
  intros f0 H0. rewrite H0. fold (answered f0 s0).
  set (s1 := add_event (Log "Initializing git repository...")
               (answered f0 s0)).
  rewrite git_steps_eq. cbv zeta.
  set (q1 := asking git_init_cmd s1).
  split.
  { intros e He. rewrite He. destruct e; split; reflexivity. }
  intros f1 H1. rewrite H1.
  split.
  { intros e He. rewrite write_file_eq. cbv zeta. rewrite He. reflexivity. }
  pose proof (write_file_result O (gitignore_path W)
                (unlines gitignore_lines) (answered f1 q1)) as R.
  cbv zeta in R. destruct R as (_ & _ & _ & Hok & _).
  destruct (write_file O (gitignore_path W) (unlines gitignore_lines)
              (answered f1 q1)) as [[ew | []] sw]; cbn [fst snd] in *.
  { split; [| discriminate].
    intros e [= <-]. destruct ew; split; reflexivity. }
  split; [discriminate |]. intros _.
  split; [exact (Hok eq_refl) |].
  set (q3 := asking git_add_cmd sw).
  split.
  { intros e He. rewrite He. destruct e; split; reflexivity. }
  intros f3 H3. rewrite H3.
  set (q4 := asking git_commit_cmd (answered f3 q3)).
  split.
  { intros e He. rewrite He. destruct e; split; reflexivity. }
  intros f4 H4. rewrite H4. split; reflexivity.
Qed.

(* ===================================================================== *)
(** ** The project name and the recent projects                           *)
(* ===================================================================== *)

Lemma basename_path_join a b :
  contains "/" b = false -> basename (path_join a b) = b.
Proof.
  intros Hb. unfold path_join. induction a as [| c a IH].
  - change (basename (String "/" b) = b). cbn [basename]. rewrite Hb.
    reflexivity.
  - change (basename (String c (a ++ "/" ++ b)) = b). cbn [basename].
    rewrite contains_sep_app. exact IH.
Qed.

(** [rstrip] leaves no white space at the end. *)
Lemma rstrip_last s :
  forall t c, rstrip s = t ++ String c EmptyString -> is_space c = false.
Proof.
  induction s as [| a s IH]; intros t c; cbn [rstrip].
  - destruct t; discriminate.
  - destruct (rstrip s) as [| b r] eqn:E.
    + destruct (is_space a) eqn:Ha.
      * destruct t; discriminate.
      * destruct t as [| x t]; simpl.
        -- intros [= <-]. exact Ha.
        -- intros [= _ H]. destruct t; discriminate.
    + destruct t as [| x t]; simpl.
      * intros H. inversion H.
      * intros [= _ H]. apply (IH t c). exact H.
Qed.

Lemma matches_project_name s :
  re_match project_name_pattern s = true <->
  exists c middle tail,
    s = String c (middle ++ tail)
    /\ project_name_char c = true
    /\ all_chars project_name_char middle = true
    /\ (tail = EmptyString \/ tail = nl).
Proof.
  unfold re_match. rewrite fullmatch_matches. unfold project_name_pattern.
  split.
  - intros H. inversion H as [| | ? ? s1 s2 Ha Hb | | | |]; subst.
    inversion Ha; subst.
    inversion Hb as [| | ? ? m t Hm Ht | | | |]; subst.
    apply matches_star_cls in Hm. apply matches_dollar in Ht.
    eexists _, m, t. simpl. auto.
  - intros (c & m & t & -> & Hc & Hm & Ht).
    change (String c (m ++ t)) with (String c EmptyString ++ (m ++ t)).
    constructor; [constructor; exact Hc |].
    constructor; [apply matches_star_cls; exact Hm
                 | apply matches_dollar; exact Ht].
Qed.

Lemma append_assoc_str (a b c : string) : (a ++ b) ++ c = a ++ (b ++ c).
Proof. induction a as [| x a IH]; simpl; [| rewrite IH]; reflexivity. Qed.

(** X27. A project name that [on_create] accepts keeps the project inside
    the chosen folder. The name, stripped as [on_create] strips it, is made
    of ASCII letters, digits, underscores, hyphens and spaces only (the line
    end that the [$] of the pattern would let through cannot survive the
    strip), so it holds no separator and no dot: the project directory
    [parent / name] has [parent] for parent and the name for base name. *)
Theorem accepted_project_name_stays_in_folder raw parent :
  accepted_project_name (strip raw) = true ->
  all_chars project_name_char (strip raw) = true
  /\ contains "/" (strip raw) = false
  /\ contains "." (strip raw) = false
  /\ basename (path_join parent (strip raw)) = strip raw
  /\ (parent <> EmptyString ->
      dirname (path_join parent (strip raw)) = parent).
Proof.
  unfold accepted_project_name. intros H. apply andb_prop in H.
  destruct H as [_ H]. apply matches_project_name in H.
  destruct H as (c & m & t & E & Hc & Hm & Ht).
  assert (All : all_chars project_name_char (strip raw) = true).
  { destruct Ht as [-> | ->].
    - rewrite E, append_nil_r_s. simpl. rewrite Hc, Hm. reflexivity.
    - exfalso. unfold strip in E.
      assert (Hsp : is_space newline = false).
      { apply (rstrip_last (lstrip raw) (String c m) newline).
        rewrite E. unfold nl. reflexivity. }
      discriminate Hsp. }
  assert (No : forall ch, all_chars project_name_char ch = false ->
                          contains ch (strip raw) = false).
  { intros ch Hch. destruct (contains ch (strip raw)) eqn:Ec; [| reflexivity].
    rewrite (all_chars_contains _ ch _ Ec All) in Hch. discriminate. }
  assert (Sep : contains "/" (strip raw) = false) by (apply No; reflexivity).
  split; [exact All |]. split; [exact Sep |].
  split; [apply No; reflexivity |].
  split; [apply basename_path_join, Sep |].
  intros Hp. apply dirname_path_join; assumption.
Qed.

Lemma accepted_project_name_stays_in_folder_witness :
  dirname (path_join "/home/me/projects" (strip "  My Project-1 "))
  = "/home/me/projects".
Proof.
  refine (proj2 (proj2 (proj2 (proj2
            (accepted_project_name_stays_in_folder "  My Project-1 "
               "/home/me/projects" _)))) _).
  - vm_compute. reflexivity.
  - discriminate.
Defined.

Lemma nodup_firstn {A : Type} (l : list A) n :
  List.NoDup l -> List.NoDup (firstn n l).
Proof.
  intros H. revert n. induction H as [| a l Hn Hd IH]; intros n.
  - destruct n; constructor.
  - destruct n; simpl; constructor.
    + intros Hin. apply Hn. eapply in_firstn. exact Hin.
    + apply IH.
Qed.

Lemma existsb_eqb_In x (l : list string) :
  existsb (String.eqb x) l = true <-> In x l.
Proof.
  rewrite existsb_exists. split.
  - intros (y & Hin & He). apply String.eqb_eq in He. subst. exact Hin.
  - intros H. exists x. split; [exact H | apply String.eqb_refl].
Qed.

(** X28. The list of recent projects stays in order: updating it with the
    path of a summary keeps it free of duplicates and of ten entries at
    most, adds nothing but that path, and puts a new path in front. A path
    that is already listed leaves the list as it is (it is not moved to the
    front), and so does an empty path. *)
Theorem recent_projects_stay_distinct_and_bounded project_path recent :
  List.NoDup recent ->
  List.length recent <= 10 ->
  List.NoDup (update_recent project_path recent)
  /\ List.length (update_recent project_path recent) <= 10
  /\ (forall q, In q (update_recent project_path recent) ->
        q = project_path \/ In q recent)
  /\ (project_path <> EmptyString -> ~ In project_path recent ->
      exists rest, update_recent project_path recent = project_path :: rest
                   /\ rest = firstn 9 recent)
  /\ (project_path = EmptyString \/ In project_path recent ->
      update_recent project_path recent = recent).
Proof.
  intros Hnd Hlen. unfold update_recent.
  destruct (String.eqb_spec project_path EmptyString) as [-> | Hne].
  { split; [exact Hnd |]. split; [exact Hlen |]. split; [auto |].
    split; [congruence | reflexivity]. }
  destruct (existsb (String.eqb project_path) recent) eqn:E.
  { apply existsb_eqb_In in E.
    split; [exact Hnd |]. split; [exact Hlen |]. split; [auto |].
    split; [intros _ N; contradiction | reflexivity]. }
  assert (Hnot : ~ In project_path recent).
  { intros Hin. apply existsb_eqb_In in Hin. congruence. }
  split.
  { apply nodup_firstn. constructor; assumption. }
  split.
  { rewrite length_firstn. lia. }
  split.
  { intros q Hq. apply in_firstn in Hq. destruct Hq as [<- | Hq]; auto. }
  split.
  { intros _ _. eexists. split; reflexivity. }
  intros [-> | Hin]; [congruence | contradiction].
Qed.

Lemma recent_projects_stay_distinct_and_bounded_witness :
  List.length (update_recent "/p/new"
                 ["/p/1"; "/p/2"; "/p/3"; "/p/4"; "/p/5"; "/p/6"; "/p/7";
                  "/p/8"; "/p/9"; "/p/10"]) <= 10.
Proof.
  refine (proj1 (proj2 (recent_projects_stay_distinct_and_bounded "/p/new"
            ["/p/1"; "/p/2"; "/p/3"; "/p/4"; "/p/5"; "/p/6"; "/p/7";
             "/p/8"; "/p/9"; "/p/10"] _ _))).
  - repeat (constructor; [simpl; intuition discriminate |]). constructor.
  - simpl. lia.
Defined.

(* ===================================================================== *)
(** ** [create_venv]                                                      *)
(* ===================================================================== *)

Lemma unlink_eq O p s :
  unlink O p s =
  let s1 := add_action (Unlink p) s in
  match unlink_fault O p with
  | Some e => (inl e, s1)
  | None =>
      match node_at (fs s) p with
      | Some (File _) => (inr tt, set_fs (delete p (fs s)) s1)
      | Some Dir => (inl IsADirectoryError, s1)
      | None => (inl FileNotFoundError, s1)
      end
  end.
Proof.
  unfold unlink, bind, act, modify, get, raise. simpl.
  destruct (unlink_fault O p) as [e |]; [reflexivity |].
  destruct (node_at (fs s) p) as [[| c] |]; reflexivity.
Qed.

(** The write probe: a touch, then an unlink if the touch went through. It
    passes exactly when the host faults neither of the two and the probe
    path is a file or can be made one; when it passes, the probe file is
    gone, also if it was there before. *)
Lemma write_probe_result O venv s :
  let p := path_join (dirname venv) ".write_test" in
  let r := fst (write_probe O venv s) in
  let s1 := snd (write_probe O venv s) in
  msgq s1 = msgq s
  /\ (r = inr tt <->
      fault O p = None /\ unlink_fault O p = None
      /\ ((exists c, node_at (fs s) p = Some (File c))
          \/ (node_at (fs s) p = None
              /\ node_at (fs s) (dirname p) = Some Dir)))
  /\ (r = inr tt ->
      fs s1 = delete p (fs s)
      /\ trace s1 = (trace s ++ [Touch p; Unlink p])%list)
  /\ (forall e, r = inl e ->
      trace s1 = (trace s ++ [Touch p])%list
      \/ trace s1 = (trace s ++ [Touch p; Unlink p])%list)
  /\ (forall e, fault O p = Some e ->
      r = inl e /\ trace s1 = (trace s ++ [Touch p])%list /\ fs s1 = fs s).
Proof.
  cbv zeta. unfold write_probe.
  set (p := path_join (dirname venv) ".write_test").
  unfold bind. rewrite touch_eq. cbv zeta.
  assert (T2 : forall f,
             trace (add_action (Unlink p)
                      (set_fs f (add_action (Touch p) s)))
             = (trace s ++ [Touch p; Unlink p])%list).
  { intros f. cbn [trace add_action set_fs]. rewrite <- app_assoc.
    reflexivity. }
  assert (T2' : trace (add_action (Unlink p) (add_action (Touch p) s))
                = (trace s ++ [Touch p; Unlink p])%list).
  { cbn [trace add_action]. rewrite <- app_assoc. reflexivity. }
  destruct (fault O p) as [e |] eqn:F.
  { cbn [fst snd]. split; [reflexivity |].
    split; [split; [discriminate | intros (H & _); discriminate] |].
    split; [discriminate |]. split; [intros e' _; left; reflexivity |].
    intros e' [= <-]. repeat split; reflexivity. }
  destruct (node_at (fs s) p) as [n |] eqn:N.
  - rewrite unlink_eq. cbv zeta.
    change (fs (add_action (Touch p) s)) with (fs s). rewrite N.
    destruct (unlink_fault O p) as [e |] eqn:U.
    { cbn [fst snd]. split; [reflexivity |].
      split; [split; [discriminate | intros (_ & H & _); discriminate] |].
      split; [discriminate |].
      split; [intros e' _; right; exact T2' | discriminate]. }
    destruct n as [| c]; cbn [fst snd].
    + split; [reflexivity |]. split.
      { split; [discriminate |].
        intros (_ & _ & [(c & H) | (H & _)]); discriminate. }
      split; [discriminate |].
      split; [intros e' _; right; exact T2' | discriminate].
    + split; [reflexivity |]. split.
      { split; [| reflexivity]. intros _.
        split; [reflexivity |]. split; [reflexivity |]. left. eauto. }
      split; [intros _; split; [reflexivity | exact T2'] |].
      split; [discriminate | discriminate].
  - destruct (node_at (fs s) (dirname p)) as [[| c] |] eqn:D.
    + rewrite unlink_eq. cbv zeta.
      change (fs (set_fs (<[p := File EmptyString]> (fs s))
                    (add_action (Touch p) s)))
        with (<[p := File EmptyString]> (fs s)).
      rewrite (node_at_insert (fs s) p (File EmptyString) N).
      destruct (unlink_fault O p) as [e |] eqn:U; cbn [fst snd].
      { split; [reflexivity |].
        split; [split; [discriminate | intros (_ & H & _); discriminate] |].
        split; [discriminate |].
        split; [intros e' _; right; apply T2 | discriminate]. }
      split; [reflexivity |]. split.
      { split; [| reflexivity]. intros _.
        split; [reflexivity |]. split; [reflexivity |]. right. auto. }
      split.
      { intros _. split; [| apply T2].
        cbn [fs set_fs add_action]. apply delete_insert_eq. }
      split; discriminate.
    + cbn [fst snd]. split; [reflexivity |]. split.
      { split; [discriminate |].
        intros (_ & _ & [(c' & H) | (_ & H)]); discriminate. }
      split; [discriminate |].
      split; [intros e' _; left; reflexivity | discriminate].
    + cbn [fst snd]. split; [reflexivity |]. split.
      { split; [discriminate |].
        intros (_ & _ & [(c' & H) | (_ & H)]); discriminate. }
      split; [discriminate |].
      split; [intros e' _; left; reflexivity | discriminate].
Qed.

(** X29. [create_venv] probes, then builds. It first touches the file
    [.write_test] beside the environment and, if that went through, unlinks
    it. The probe passes exactly when the host faults neither the touch nor
    the unlink and the probe path is a file, or is free in a directory; a
    probe that passes leaves no such file, also when one was there before.
    When the probe passes the method has touched and unlinked the file,
    posts the log line and launches the one command
    [python -m venv <venv> --prompt <name>] through [run_command_stream]; it
    returns [True] exactly when that command returned zero, and posts the
    ["ok"] item then and the error item otherwise. When the probe fails no
    command is launched: a [PermissionError] gives [False] and the
    no-permission error item, any other exception leaves the method as it
    is, with nothing posted. *)
Theorem create_venv_probes_then_builds O W venv s :
  let probe := path_join (dirname venv) ".write_test" in
  let s0 := add_action (Enter "create_venv") s in
  let r := fst (create_venv O W venv s) in
  let s' := snd (create_venv O W venv s) in
  (fst (write_probe O venv s0) = inr tt <->
   fault O probe = None /\ unlink_fault O probe = None
   /\ ((exists c, node_at (fs s) probe = Some (File c))
       \/ (node_at (fs s) probe = None
           /\ node_at (fs s) (dirname probe) = Some Dir)))
  /\ (fst (write_probe O venv s0) = inr tt ->
      fs (snd (write_probe O venv s0)) = delete probe (fs s)
      /\ exists rc kills evs,
           fst (run_command_stream O (venv_cmd O W venv)
                  (add_event (Log ("Creating virtual environment at: "
                                   ++ venv ++ " ..."))
                             (snd (write_probe O venv s0)))) = inr rc
           /\ trace s'
              = (trace s ++ [Enter "create_venv"; Touch probe; Unlink probe]
                 ++ kills ++ [Run (venv_cmd O W venv) rc])%list
           /\ (kills = [] \/ (kills = [Kill] /\ rc = 1%Z))
           /\ r = inr (Z.eqb rc 0)
           /\ msgq s'
              = (msgq s
                 ++ Log ("Creating virtual environment at: " ++ venv ++ " ...")
                 :: evs
                 ++ [if Z.eqb rc 0
                     then Ok "Virtual environment created successfully."
                     else Error "Virtual environment creation failed."])%list)
  /\ (forall e,
        fst (write_probe O venv s0) = inl e ->
        run_cmds (trace s') = run_cmds (trace s)
        /\ (trace s' = (trace s ++ [Enter "create_venv"; Touch probe])%list
            \/ trace s'
               = (trace s ++ [Enter "create_venv"; Touch probe;
                              Unlink probe])%list)
        /\ r = match e with PermissionError => inr false | _ => inl e end
        /\ msgq s'
           = match e with
             | PermissionError =>
                 (msgq s ++ [Error ("No write permission for: "
                                    ++ dirname venv)])%list
             | _ => msgq s
             end)
  /\ (forall e,
        fault O probe = Some e ->
        fst (write_probe O venv s0) = inl e
        /\ trace s' = (trace s ++ [Enter "create_venv"; Touch probe])%list
        /\ fs s' = fs s).
Proof.
  cbv zeta. set (probe := path_join (dirname venv) ".write_test").
  set (s0 := add_action (Enter "create_venv") s).
  pose proof (write_probe_result O venv s0) as R. cbv zeta in R.
  fold probe in R. change (fs s0) with (fs s) in R.
  change (msgq s0) with (msgq s) in R.
  change (trace s0) with (trace s ++ [Enter "create_venv"])%list in R.
  destruct R as (Hm & Hiff & Hpass & Hfail & Hfault).
  split; [exact Hiff |].
  rewrite create_venv_eq. cbv zeta. fold (write_probe O venv). fold probe s0.
  fold (venv_cmd O W venv).
  destruct (write_probe O venv s0) as [[e | []] s1]; cbn [fst snd] in *.
  - split; [discriminate |].
    assert (Fail : forall e',
               @inl exn unit e = inl e' ->
               run_cmds (trace s1) = run_cmds (trace s)
               /\ (trace s1 = (trace s ++ [Enter "create_venv"; Touch probe])%list
                   \/ trace s1
                      = (trace s ++ [Enter "create_venv"; Touch probe;
                                     Unlink probe])%list)).
    { intros e' He'. destruct (Hfail e' He') as [T | T]; rewrite T;
        rewrite <- app_assoc.
      - split; [| left; reflexivity].
        rewrite run_cmds_app. cbn. apply app_nil_r.
      - split; [| right; reflexivity].
        rewrite run_cmds_app. cbn. apply app_nil_r. }
    split.
    + intros e' He'. destruct (Fail e' He') as (F1 & F2).
      injection He' as <-.
      destruct e; cbn [fst snd trace msgq add_event];
        (split; [exact F1 |]); (split; [exact F2 |]);
        (split; [reflexivity |]); rewrite Hm; reflexivity.
    + intros e' Hf. destruct (Hfault e' Hf) as (He & Ht & Hfs).
      split; [exact He |]. injection He as ->.
      destruct e'; cbn [fst snd trace fs add_event];
        (split; [rewrite Ht, <- app_assoc; reflexivity | exact Hfs]).
  - destruct (Hpass eq_refl) as (Hfs & Ht).
    split; [| split; [discriminate |]].
    + intros _. split; [exact Hfs |].
      set (s2 := add_event _ s1).
      destruct (run_command_stream_outcome O (venv_cmd O W venv) s2)
        as (rc & kills & Hr & Htr & Hkills).
      pose proof (run_command_stream_keeps O [] (venv_cmd O W venv) s2)
        as (_ & _ & (evs & Hev & _) & _).
      destruct (run_command_stream O (venv_cmd O W venv) s2) as [r3 s3].
      cbn [fst snd] in Hr, Htr, Hev. subst r3.
      exists rc, kills, evs. split; [reflexivity |].
      assert (T : trace s3
                  = (trace s ++ [Enter "create_venv"; Touch probe; Unlink probe]
                     ++ kills ++ [Run (venv_cmd O W venv) rc])%list).
      { rewrite Htr. unfold s2. cbn [trace add_event]. rewrite Ht.
        rewrite <- !app_assoc. reflexivity. }
      assert (M : forall last,
                 (msgq s3 ++ [last])%list
                 = (msgq s
                    ++ Log ("Creating virtual environment at: " ++ venv
                            ++ " ...") :: evs ++ [last])%list).
      { intros last. rewrite Hev. unfold s2. cbn [msgq add_event].
        rewrite Hm, <- !app_assoc. reflexivity. }
      destruct (Z.eqb rc 0); cbn [fst snd trace msgq add_event];
        (split; [exact T |]); (split; [exact Hkills |]);
        (split; [reflexivity | apply M]).
    + intros e Hf. destruct (Hfault e Hf) as (He & _). discriminate He.
Qed.

(* ===================================================================== *)
(** ** The claims on the installer, the summary and the end of a run      *)
(* ===================================================================== *)

Lemma has_metacharacter_rejected pkg :
  has_metacharacter (base_name pkg) = true -> is_valid pkg = false.
Proof. apply metacharacter_in_base_name_rejected. Qed.

(** C1 (amended). Every entry whose base name, the text before the first
    version separator, holds a shell metacharacter is rejected by the
    predicate; and for every package list handed to the batch installer,
    such an entry is an argument of no command the installer launches, in
    the batch attempt or in the per-package fallback, and is reported by a
    skip notice. *)
Theorem metacharacter_in_base_name_rejected_excluded_skipped O W pip s :
  (forall pkg,
     has_metacharacter (base_name pkg) = true ->
     fst (validate_package_name pkg) = false)
  /\ exists acts evs,
       trace (snd (install_packages_batch O W pip s))
       = (trace s ++ Enter "install_packages_batch" :: acts)%list
       /\ msgq (snd (install_packages_batch O W pip s)) = (msgq s ++ evs)%list
       /\ forall pkg,
            In pkg (packages W) ->
            has_metacharacter (base_name pkg) = true ->
            (forall cmd, In cmd (run_cmds acts) ->
               exists args, cmd = (pip :: "install" :: args)%list
                            /\ ~ In pkg args)
            /\ In (skip_notice pkg) evs.
Proof.
  split; [intros pkg; apply has_metacharacter_rejected |].
  destruct (install_packages_batch_spec O W pip s)
    as (acts & evs & b & _ & Ht & Hm & Hc & Hs & _).
  exists acts, evs. split; [exact Ht |]. split; [exact Hm |].
  intros pkg Hin Hmeta.
  pose proof (has_metacharacter_rejected pkg Hmeta) as Hinv.
  split.
  - intros cmd Hcmd. destruct (Hc cmd Hcmd) as (args & -> & Hargs).
    exists args. split; [reflexivity |]. intros Ha.
    destruct (Hargs pkg Ha) as [Hv _]. congruence.
  - assert (Hf : In (skip_notice pkg) (List.filter is_skip_notice evs)).
    { rewrite Hs. apply in_map. apply filter_In. split; [exact Hin |].
      rewrite Hinv. reflexivity. }
    apply filter_In in Hf. apply Hf.
Qed.

(** C1 as stated fails: a metacharacter after the version separator is not
    looked at. The entry [numpy==1.0;reboot] holds a [;], is accepted by the
    predicate, is handed to the batch command as it is, and no skip notice
    is posted. *)
Lemma metacharacter_after_separator_accepted_and_launched :
  has_metacharacter "numpy==1.0;reboot" = true
  /\ fst (validate_package_name "numpy==1.0;reboot") = true
  /\ run_cmds (trace (snd (install_packages_batch (host None (always 0))
                             (demo ["numpy==1.0;reboot"] false false false)
                             demo_pip (init_state fs_with_venv))))
     = [[demo_pip; "install"; "numpy==1.0;reboot"]]
  /\ List.filter is_skip_notice
       (msgq (snd (install_packages_batch (host None (always 0))
                     (demo ["numpy==1.0;reboot"] false false false)
                     demo_pip (init_state fs_with_venv)))) = [].
Proof. vm_compute. auto. Qed.

(** C2 (amended). Every run, whether it succeeds or fails, ends its stream
    of events with the ["done"] item that carries the run's success flag
    and, last of all, with ["progress_complete"]. The summary is not
    unconditional: it stands between the two when the run succeeded, and a
    run that fails posts none. What comes before holds no ["done"] item, no
    summary and no ["progress_complete"]. *)
Theorem run_ends_with_done_and_progress_complete O W fs0 :
  exists evs text,
    forallb plain evs = true
    /\ done_succeeded text = success (run_worker O W fs0)
    /\ (success (run_worker O W fs0) = true ->
        exists size_str,
          msgq (run_worker O W fs0)
          = (evs ++ [Done text;
                     Summary (project_dir W) size_str
                             (List.length (packages W))
                             (options_get W "create_git" false);
                     ProgressComplete])%list)
    /\ (success (run_worker O W fs0) = false ->
        msgq (run_worker O W fs0)
        = (evs ++ [Done text; ProgressComplete])%list).
Proof.
  unfold run_worker.
  destruct (run_shape O W (init_state fs0) eq_refl)
    as (evs & Hp & [(Hs & sz & Hm) | (Hs & Hm)]).
  - exists evs, (ok_text W). split; [exact Hp |].
    split; [rewrite Hs; apply done_succeeded_ok_text |].
    split; [intros _; exists sz; exact Hm | congruence].
  - exists evs, fail_text. split; [exact Hp |].
    split; [rewrite Hs; reflexivity |].
    split; [congruence | intros _; exact Hm].
Qed.

(** C2 as stated fails: the summary is not unconditional. A run that cannot
    create its project folder ends with the failure ["done"] item followed
    at once by ["progress_complete"], and posts no summary. *)
Lemma failed_run_posts_no_summary :
  success (run_worker readonly_host (demo [] false false false)
             (list_to_map [("/tmp", Dir)])) = false
  /\ msgq (run_worker readonly_host (demo [] false false false)
             (list_to_map [("/tmp", Dir)]))
     = [Error "Cannot create project folder: [Errno 13] Permission denied";
        Done fail_text; ProgressComplete]
  /\ List.filter is_summary
       (msgq (run_worker readonly_host (demo [] false false false)
                (list_to_map [("/tmp", Dir)]))) = [].
Proof. vm_compute. auto. Qed.

Lemma plain_not_summary evs path size n git :
  forallb plain evs = true -> ~ In (Summary path size n git) evs.
Proof.
  intros Hp Hin. rewrite forallb_forall in Hp. specialize (Hp _ Hin).
  discriminate Hp.
Qed.

(** C7 (amended). A run that posts a summary posts one, has succeeded, and
    the package count of the summary is the number of packages requested,
    the length of the worker's package list; it is not the number of
    packages installed. *)
Theorem summary_package_count_is_the_request O W fs0 path size n git :
  In (Summary path size n git) (msgq (run_worker O W fs0)) ->
  n = List.length (packages W)
  /\ summary_counts (msgq (run_worker O W fs0)) = [List.length (packages W)]
  /\ success (run_worker O W fs0) = true.
Proof.
  unfold run_worker.
  destruct (run_shape O W (init_state fs0) eq_refl)
    as (evs & Hp & [(Hs & sz & Hm) | (Hs & Hm)]).
  - rewrite Hm. cbn [msgq init_state app]. intros Hin.
    apply in_app_or in Hin.
    destruct Hin as [Hin | Hin];
      [exfalso; exact (plain_not_summary evs _ _ _ _ Hp Hin) |].
    cbn [In] in Hin.
    destruct Hin as [Hin | [Hin | [Hin | Hin]]];
      [discriminate Hin | | discriminate Hin | destruct Hin].
    injection Hin as _ _ <- _.
    split; [reflexivity |]. split; [| exact Hs].
    rewrite summary_counts_app, (plain_no_summary evs Hp). reflexivity.
  - rewrite Hm. cbn [msgq init_state app]. intros Hin.
    apply in_app_or in Hin.
    destruct Hin as [Hin | Hin];
      [exfalso; exact (plain_not_summary evs _ _ _ _ Hp Hin) |].
    cbn [In] in Hin.
    destruct Hin as [Hin | [Hin | Hin]];
      [discriminate Hin | discriminate Hin | destruct Hin].
Qed.

Lemma summary_package_count_is_the_request_witness :
  2 = List.length (packages (demo ["aa"; "bb"] false false false)).
Proof.
  refine (proj1 (summary_package_count_is_the_request (host None only_aa)
                   (demo ["aa"; "bb"] false false false) fs_with_venv
                   "/tmp/demo/Demo" "71.0 B" 2 false _)).
  vm_compute. do 26 right. left. reflexivity.
Defined.

(** C7 as stated fails: when the batch fails and the fallback installs
    [aa] but not [bb], the run succeeds and its summary counts two
    packages, while one was installed. *)
Lemma summary_counts_packages_not_installed :
  success (run_worker (host None only_aa) (demo ["aa"; "bb"] false false false)
             fs_with_venv) = true
  /\ summary_counts (msgq (run_worker (host None only_aa)
                             (demo ["aa"; "bb"] false false false)
                             fs_with_venv)) = [2]
  /\ installed_package_count
       (trace (run_worker (host None only_aa)
                 (demo ["aa"; "bb"] false false false) fs_with_venv)) = 1
  /\ run_codes (trace (run_worker (host None only_aa)
                         (demo ["aa"; "bb"] false false false) fs_with_venv))
     = [1%Z; 0%Z; 1%Z].
Proof. vm_compute. auto. Qed.

Lemma install_packages_individual_early_stop O pip pkgs s :
  exists acts,
    trace (snd (install_packages_individual O pip pkgs s))
    = (trace s ++ Enter "install_packages_individual" :: acts)%list
    /\ List.length (run_codes acts) <= List.length pkgs
    /\ (List.length (run_codes acts) < List.length pkgs ->
        fst (install_packages_individual O pip pkgs s) = inr false
        /\ msgq (snd (install_packages_individual O pip pkgs s))
           = msgq (snd (install_each O pip (List.length pkgs) 1 pkgs 0
                          (add_action (Enter "install_packages_individual")
                                      s)))
        /\ exists k, cancelled_from O = Some k
                     /\ k < stop_reads (snd (install_packages_individual O pip
                                               pkgs s))).
Proof.
  rewrite install_packages_individual_eq. cbv zeta.
  set (s0 := add_action (Enter "install_packages_individual") s).
  destruct (install_each_spec O pip (List.length pkgs) pkgs 1 0 s0)
    as (m & acts & evs & Hm & Ht & _ & _ & Hl & _ & _ & _ & Hr).
  destruct (install_each_schedule O pip (List.length pkgs) pkgs 1 0 s0)
    as (acts2 & _ & _ & HD & _).
  assert (T : (trace s0 ++ acts)%list
              = (trace s ++ Enter "install_packages_individual"
                 :: acts)%list).
  { unfold s0. cbn [trace add_action]. rewrite <- app_assoc. reflexivity. }
  rewrite T in Ht. exists acts.
  destruct (install_each O pip (List.length pkgs) 1 pkgs 0 s0)
    as [[e | [cnt |]] s1]; cbn [fst snd trace msgq stop_reads add_event] in *.
  - destruct Hr as [[_ Hr] | [_ Hr]]; discriminate Hr.
  - destruct Hr as [[Hr _] | [_ Hr]]; [| discriminate Hr].
    split; [exact Ht |]. split; [lia |]. intros N. lia.
  - split; [exact Ht |]. split; [lia |]. intros _.
    split; [reflexivity |]. split; [reflexivity |]. apply HD. reflexivity.
Qed.

(** C5 (amended). The per-package fallback, for a non-empty list of which
    every package is attempted (no check of the stop flag at the top of a
    turn ends the loop before the end of the list): when every command
    returns zero the result is success; when some but not all do the result
    is success, with the warning that gives the count installed over the
    count requested; when none does the result is failure. When such a
    check ends the loop early the result is failure whatever was installed.
    A failure is fatal to the run and a success is not: the batch installer
    hands on the result of the fallback, and [run] calls the clean-up and
    returns when the installer failed, and goes on to the manifest when it
    succeeded. *)
Theorem fallback_result_follows_the_installed_count O W pip pkgs s :
  pkgs <> [] ->
  (exists acts evs,
     trace (snd (install_packages_individual O pip pkgs s))
     = (trace s ++ Enter "install_packages_individual" :: acts)%list
     /\ msgq (snd (install_packages_individual O pip pkgs s))
        = (msgq s ++ evs)%list
     /\ List.length (run_codes acts) <= List.length pkgs
     /\ (List.length (run_codes acts) = List.length pkgs ->
         (count_zero (run_codes acts) = List.length pkgs ->
          fst (install_packages_individual O pip pkgs s) = inr true
          /\ exists evs0,
               evs = (evs0 ++ [Ok "All packages installed successfully."])%list)
         /\ (0 < count_zero (run_codes acts) < List.length pkgs ->
             fst (install_packages_individual O pip pkgs s) = inr true
             /\ exists evs0,
                  evs = (evs0
                         ++ [Warn ("Installed "
                                   ++ str_nat (count_zero (run_codes acts))
                                   ++ "/" ++ str_nat (List.length pkgs)
                                   ++ " packages.")])%list)
         /\ (count_zero (run_codes acts) = 0 ->
             fst (install_packages_individual O pip pkgs s) = inr false
             /\ exists evs0,
                  evs = (evs0 ++ [Error "No packages were installed."])%list))
     /\ (List.length (run_codes acts) < List.length pkgs ->
         fst (install_packages_individual O pip pkgs s) = inr false
         /\ exists k, cancelled_from O = Some k
                      /\ k < stop_reads (snd (install_packages_individual O
                                                pip pkgs s))))
  /\ (forall t,
        fst (install_packages_batch O W pip t) = inr true
        \/ (valid_packages W <> []
            /\ exists t',
                 install_packages_batch O W pip t
                 = install_packages_individual O pip (valid_packages W) t'))
  /\ (forall venv t,
        packages W <> [] ->
        path_exists (fs t) (which_pip_in_venv O venv) = true ->
        exists b t1,
          install_packages_batch O W (which_pip_in_venv O venv) t
          = (inr b, t1)
          /\ install_and_finish O W venv t
             = if b then finish_steps O W t1
               else (inr tt, snd (_cleanup_partial O W t1))).
Proof.
  intros Hne. split; [| split].
  - destruct (install_packages_individual_spec O pip pkgs s)
      as (m & acts & evs & b & H1 & H2 & H3 & H4 & H5 & H6 & H7 & H8 & H9
          & H10 & H11).
    destruct (install_packages_individual_early_stop O pip pkgs s)
      as (acts' & Ht' & Hle & Hearly).
    assert (acts' = acts).
    { apply (app_inv_head (trace s ++ [Enter "install_packages_individual"])).
      rewrite <- !app_assoc. cbn [app]. rewrite <- Ht', H3. reflexivity. }
    subst acts'.
    exists acts, evs. split; [exact H3 |]. split; [exact H4 |].
    split; [exact Hle |]. split.
    + intros Hall. assert (Hm : m = List.length pkgs) by lia.
      destruct (H11 Hm) as (Hb & evs0 & He).
      unfold fallback_verdict in He.
      assert (Hpos : 0 < List.length pkgs)
        by (destruct pkgs; [congruence | simpl; lia]).
      split; [| split].
      * intros Hk. rewrite Hk, Nat.eqb_refl in He, Hb.
        split; [rewrite H2, Hb; reflexivity | exists evs0; exact He].
      * intros [Hk1 Hk2].
        assert (E1 : Nat.eqb (count_zero (run_codes acts)) (List.length pkgs)
                     = false) by (apply Nat.eqb_neq; lia).
        assert (E2 : Nat.ltb 0 (count_zero (run_codes acts)) = true)
          by (apply Nat.ltb_lt; lia).
        rewrite E1, E2 in He, Hb.
        split; [rewrite H2, Hb; reflexivity | exists evs0; exact He].
      * intros Hk.
        assert (E1 : Nat.eqb (count_zero (run_codes acts)) (List.length pkgs)
                     = false) by (apply Nat.eqb_neq; lia).
        rewrite E1, Hk in He, Hb.
        split; [rewrite H2, Hb; reflexivity | exists evs0; exact He].
    + intros Hlt. destruct (Hearly Hlt) as (Hr & _ & Hk).
      split; [exact Hr | exact Hk].
  - intros t. rewrite install_packages_batch_eq. cbv zeta.
    unfold valid_packages.
    destruct (packages W) as [| p0 rest]; [left; reflexivity |].
    destruct (List.filter is_valid (p0 :: rest)) as [| v vs];
      [left; reflexivity |].
    match goal with
    | |- context [run_command_stream O ?c ?st] =>
        destruct (run_command_stream_outcome O c st) as (rc & kills & H1 & _);
        destruct (run_command_stream O c st) as [[e | rc'] t3]
    end; cbn [fst] in H1; [discriminate |].
    destruct (Z.eqb rc' 0); [left; reflexivity |].
    right. split; [discriminate |]. eexists. reflexivity.
  - intros venv t Hpk Hpip.
    rewrite install_and_finish_eq, Hpip, install_step_eq.
    destruct (packages W) as [| p0 rest] eqn:Epk; [congruence |].
    destruct (install_packages_batch_spec O W (which_pip_in_venv O venv) t)
      as (acts & evs & b & Hb & _).
    destruct (install_packages_batch O W (which_pip_in_venv O venv) t)
      as [r t1]. cbn [fst] in Hb. subst r.
    exists b, t1. split; [reflexivity |]. destruct b; reflexivity.
Qed.

Lemma fallback_result_follows_the_installed_count_witness :
  fst (install_packages_individual (host None only_aa) demo_pip ["aa"; "bb"]
         (init_state fs_with_venv)) = inr true.
Proof.
  destruct (fallback_result_follows_the_installed_count (host None only_aa)
              (demo ["aa"; "bb"] false false false) demo_pip ["aa"; "bb"]
              (init_state fs_with_venv))
    as ((acts & evs & Ht & _ & _ & Hall & _) & _).
  - discriminate.
  - assert (E : acts = [Run (install_cmd demo_pip "aa") 0%Z;
                        Run (install_cmd demo_pip "bb") 1%Z]).
    { apply (app_inv_head
               (trace (init_state fs_with_venv)
                ++ [Enter "install_packages_individual"])).
      rewrite <- app_assoc. cbn [app]. rewrite <- Ht. vm_compute.
      reflexivity. }
    subst acts.
    destruct (Hall eq_refl) as (_ & Hsome & _).
    apply Hsome. vm_compute. lia.
Defined.

(** C5 as stated fails: the fallback on [aa] and [bb], with a cancellation
    noticed at the top of the second turn, has launched one command, which
    returned zero, and none that did not; yet its result is failure and it
    posts no verdict. *)
Lemma fallback_stopped_early_fails_with_a_package_installed :
  fst (install_packages_individual (host (Some 4) (always 0)) demo_pip
         ["aa"; "bb"] (init_state fs_with_venv)) = inr false
  /\ trace (snd (install_packages_individual (host (Some 4) (always 0))
                   demo_pip ["aa"; "bb"] (init_state fs_with_venv)))
     = [Enter "install_packages_individual";
        Run (install_cmd demo_pip "aa") 0%Z]
  /\ msgq (snd (install_packages_individual (host (Some 4) (always 0))
                  demo_pip ["aa"; "bb"] (init_state fs_with_venv)))
     = [Log "Installing [1/2]: aa ..."; Log "Collecting"; Log "done";
        Progress 1 2].
Proof. vm_compute. auto. Qed.

(** C6, at the failing input. Over a complete project whose [venv]
    directory was there before the run and holds a file of the user (and
    neither [pip] nor the interpreter), a run with the clean-up option set
    does not enter [create_venv], announces that it reuses the directory,
    fails to locate the installer, and removes the directory it did not make
    with the file in it. *)
Theorem reused_environment_removed_at_failing_input :
  fs_project_with_notes !! demo_venv = Some Dir
  /\ fs_project_with_notes !! path_join demo_venv "notes.txt"
     = Some (File "keep me")
  /\ cleanup_on_cancel (demo ["aa"] true false true) = true
  /\ ~ In (Enter "create_venv")
          (trace (run_worker (host None (always 0))
                    (demo ["aa"] true false true) fs_project_with_notes))
  /\ In reuse_notice
        (msgq (run_worker (host None (always 0))
                 (demo ["aa"] true false true) fs_project_with_notes))
  /\ In (Rmtree demo_venv)
        (trace (run_worker (host None (always 0))
                  (demo ["aa"] true false true) fs_project_with_notes))
  /\ In (Log "Cleaned up partial virtual environment.")
        (msgq (run_worker (host None (always 0))
                 (demo ["aa"] true false true) fs_project_with_notes))
  /\ fs (run_worker (host None (always 0)) (demo ["aa"] true false true)
           fs_project_with_notes) !! demo_venv = None
  /\ fs (run_worker (host None (always 0)) (demo ["aa"] true false true)
           fs_project_with_notes) !! path_join demo_venv "notes.txt" = None.
Proof.
  split; [vm_compute; reflexivity |].
  split; [vm_compute; reflexivity |].
  split; [vm_compute; reflexivity |].
  split.
  { vm_compute. intros H.
    repeat (destruct H as [H | H]; [discriminate H |]). exact H. }
  split; [vm_compute; tauto |].
  split; [vm_compute; tauto |].
  split; [vm_compute; tauto |].
  split; vm_compute; reflexivity.
Qed.

(* ===================================================================== *)
(** ** The claim on cancellation                                          *)
(* ===================================================================== *)










Section StoppedFromTheStart.

Variable O : oracle.
Variable W : worker.

Hypothesis cancelled : cancelled_from O = Some 0.







End StoppedFromTheStart.



